(** * LaunchWaitlist: the wallet / match settlement core and the chat layer

    A shallow embedding of the server's storage module (class [MemStorage]),
    of its route module [registerRoutes] (the HTTP handlers, the timer bodies
    they schedule and the Socket.IO chat handlers), of the registration
    handler of [setupAuth] and of [lib/utils/commission.ts], followed by the
    properties of the settlement core.

    Modelling conventions.
    - A JavaScript [number] is an exact rational ([Q]); the decimal strings the
      store keeps ([balance], [amount], ...) are the numbers they print, so
      [parseFloat (x.toString())] is [x].  Rounding error is outside the
      model.  The handlers take the amount of a request as the number
      [parseFloat] reads from it; module [Js] embeds the wallet and the
      withdraw route over every value [parseFloat] can answer, [NaN] and the
      infinities included.
    - A [Date] is its time value in milliseconds ([Z]) on a time line in which
      every calendar day lasts 86 400 000 ms (no daylight-saving shifts);
      [new Date()] is the argument [now] of the handler.
    - A [Map<number, T>] whose keys are the [id] fields of its values is the
      list of its values in insertion order.
    - The in-memory store resolves every promise at once, so a handler or a
      timer body runs to completion before the next one starts: each is a
      function from store to store.  [setTimeout] returns the scheduled timer
      to the caller; the event loop ([step], [run]) fires pending timers in
      any order. *)

From Stdlib Require Import ZArith QArith Qround List String Ascii Bool Lia Lqa.
Import ListNotations.
Open Scope string_scope.
Open Scope list_scope.
Open Scope Z_scope.

(** ** JavaScript numbers *)

Definition Qltb (x y : Q) : bool := negb (Qle_bool y x).
Definition Qgtb (x y : Q) : bool := Qltb y x.

(** [Math.round]: the nearest integer, ties towards plus infinity. *)
Definition Math_round (x : Q) : Z := Qfloor (x + (1 # 2)).

(** [x.toFixed(2)], read back as a number: two decimals, ties away from zero. *)
Definition toFixed2 (x : Q) : Q :=
  if Qltb x 0
  then - (inject_Z (Qfloor (- x * 100 + (1 # 2))) / 100)
  else inject_Z (Qfloor (x * 100 + (1 # 2))) / 100.

(** One calendar day, in milliseconds. *)
Definition msPerDay : Z := 86400000.

(** [d.setDate(d.getDate() + n)]. *)
Definition addDays (d n : Z) : Z := d + n * msPerDay.

(** [d.setHours(0, 0, 0, 0)]. *)
Definition startOfDay (d : Z) : Z := d - d mod msPerDay.

(** [s.toLowerCase()] on ASCII. *)
Definition lowerAscii (c : ascii) : ascii :=
  let n := nat_of_ascii c in
  if (Nat.leb 65 n && Nat.leb n 90)%bool then ascii_of_nat (n + 32) else c.

Fixpoint toLowerCase (s : string) : string :=
  match s with
  | EmptyString => EmptyString
  | String c r => String (lowerAscii c) (toLowerCase r)
  end.

(** ** Maps keyed by the [id] of their values

    The store only ever writes a value under its own [id], a fresh one on
    creation, so the keys of each list stay distinct ([NoDup_keys_mset]);
    on such lists [mget], [mhas] and [mset] are [Map.get], [Map.has] and
    [Map.set]. *)

Section IdMap.

Variable T : Type.
Variable key : T -> Z.

(** [m.get(k)] *)
Definition mget (m : list T) (k : Z) : option T :=
  find (fun x => key x =? k) m.

(** [m.has(k)] *)
Definition mhas (m : list T) (k : Z) : bool :=
  existsb (fun x => key x =? k) m.

(** [m.set(key v, v)]: a present key keeps its place, a new one goes last. *)
Definition mset (m : list T) (v : T) : list T :=
  if mhas m (key v)
  then map (fun x => if key x =? key v then v else x) m
  else m ++ [v].

End IdMap.

Arguments mget {T} key m k.
Arguments mhas {T} key m k.
Arguments mset {T} key m v.

(** ** The data model (the shared schema)

    Text columns that hold an enumeration are inductive types; columns that
    only the presentation layer reads (password hash, full name, avatar,
    game description and image, ...) are left out. *)

Inductive MatchStatus := waiting | in_progress | completed | cancelled.
Inductive PlayerStatus := joined | playing | has_left | won | lost.
Inductive TxType :=
  ty_deposit | ty_withdrawal | ty_game_entry | ty_game_win
| ty_subscription_purchase | ty_subscription | ty_subscription_reward
| ty_referral_bonus | ty_reward_redemption.
Inductive TxStatus := tx_pending | tx_completed | tx_failed.
Inductive SubStatus := sub_active | sub_completed.
Inductive RewardStatus := reward_pending | reward_paid.

Definition MatchStatus_eqb (a b : MatchStatus) : bool :=
  match a, b with
  | waiting, waiting | in_progress, in_progress
  | completed, completed | cancelled, cancelled => true
  | _, _ => false
  end.

Definition TxType_eqb (a b : TxType) : bool :=
  match a, b with
  | ty_deposit, ty_deposit | ty_withdrawal, ty_withdrawal
  | ty_game_entry, ty_game_entry | ty_game_win, ty_game_win
  | ty_subscription_purchase, ty_subscription_purchase
  | ty_subscription, ty_subscription
  | ty_subscription_reward, ty_subscription_reward
  | ty_referral_bonus, ty_referral_bonus
  | ty_reward_redemption, ty_reward_redemption => true
  | _, _ => false
  end.

Definition TxStatus_eqb (a b : TxStatus) : bool :=
  match a, b with
  | tx_pending, tx_pending | tx_completed, tx_completed
  | tx_failed, tx_failed => true
  | _, _ => false
  end.

Definition RewardStatus_eqb (a b : RewardStatus) : bool :=
  match a, b with
  | reward_pending, reward_pending | reward_paid, reward_paid => true
  | _, _ => false
  end.

(** The [description] templates of the transactions the handlers write. *)
Inductive Description :=
| EntryFeeFor (gameName : string) (matchId : Z)
| PrizeForWinning (gameName : string) (withDiscount : bool)
| DepositRequest (upiId : string) (reference : option string) (screenshot : bool)
| DepositApproved
| WithdrewMoney
| PurchasedSubscription (name : string) (duration : Z)
| DayReward (day : Z)
| MonthlySubscription
| ReferralInvite (username : string)
| ReferralWelcome
| RedeemedPoints (points : Z).

Module User.
Record t := mk {
  id : Z;
  username : string;
  email : string;
  referralCode : option string;
  referredBy : option Z;
  hasSubscription : bool;
  subscriptionExpiryDate : option Z;
  rewardPoints : Z;
  lastLoginDate : option Z;
  dailyStreak : Z;
  createdAt : Z
}.
End User.

Record InsertUser := mkInsertUser {
  iu_username : string;
  iu_email : string;
  iu_referralCode : option string;
  iu_referredBy : option Z;
  iu_hasSubscription : option bool;
  iu_subscriptionExpiryDate : option Z;
  iu_rewardPoints : option Z;
  iu_lastLoginDate : option Z;
  iu_dailyStreak : option Z
}.

Module Wallet.
Record t := mk { id : Z; userId : Z; balance : Q; createdAt : Z }.
End Wallet.

Module Transaction.
Record t := mk {
  id : Z;
  userId : Z;
  amount : Q;
  type : TxType;
  status : TxStatus;
  description : option Description;
  commissionAmount : option Q;
  metadata : option (list (string * string));
  createdAt : Z
}.
End Transaction.

Record InsertTransaction := mkInsertTransaction {
  it_userId : Z;
  it_amount : Q;
  it_type : TxType;
  it_status : TxStatus;
  it_description : option Description;
  it_commissionAmount : option Q
}.

Module Game.
Record t := mk {
  id : Z;
  name : string;
  minEntry : Q;
  maxEntry : Q;
  commissionPercentage : Q;
  isActive : bool;
  createdAt : Z
}.
End Game.

Record InsertGame := mkInsertGame {
  ig_name : string;
  ig_minEntry : Q;
  ig_maxEntry : Q;
  ig_commissionPercentage : Q;
  ig_isActive : bool
}.

Module GameMatch.
Record t := mk {
  id : Z;
  gameId : Z;
  entryAmount : Q;
  status : MatchStatus;
  winnerId : option Z;
  startTime : option Z;
  endTime : option Z;
  createdAt : Z
}.
End GameMatch.

(** [Partial<InsertGameMatch>]: [None] is an absent property. *)
Record GameMatchPatch := mkGameMatchPatch {
  gp_status : option MatchStatus;
  gp_winnerId : option (option Z);
  gp_startTime : option (option Z);
  gp_endTime : option (option Z)
}.

Module PlayerMatch.
Record t := mk { id : Z; matchId : Z; userId : Z; status : PlayerStatus; createdAt : Z }.
End PlayerMatch.

Module Subscription.
Record t := mk {
  id : Z;
  userId : Z;
  name : string;
  amount : Q;
  rewardAmount : Q;
  duration : Z;
  startDate : Z;
  endDate : Z;
  status : SubStatus;
  createdAt : Z
}.
End Subscription.

Module SubscriptionReward.
Record t := mk {
  id : Z;
  subscriptionId : Z;
  userId : Z;
  amount : Q;
  day : Z;
  status : RewardStatus;
  paidAt : option Z;
  createdAt : Z
}.
End SubscriptionReward.

Record InsertSubscriptionReward := mkInsertSubscriptionReward {
  ir_subscriptionId : Z;
  ir_userId : Z;
  ir_amount : Q;
  ir_day : Z;
  ir_status : RewardStatus
}.

(** ** The in-memory store ([class MemStorage]) *)

Record MemStorage : Type := mkMemStorage {
  users : list User.t;
  wallets : list Wallet.t;
  transactions : list Transaction.t;
  games : list Game.t;
  gameMatches : list GameMatch.t;
  playerMatches : list PlayerMatch.t;
  subscriptions : list Subscription.t;
  subscriptionRewards : list SubscriptionReward.t;
  userIdCounter : Z;
  walletIdCounter : Z;
  transactionIdCounter : Z;
  gameIdCounter : Z;
  gameMatchIdCounter : Z;
  playerMatchIdCounter : Z;
  subscriptionIdCounter : Z;
  subscriptionRewardIdCounter : Z
}.

(** Field updates ([this.f = v]). *)

Definition with_users (s : MemStorage) (v : list User.t) : MemStorage :=
  mkMemStorage v (wallets s) (transactions s) (games s) (gameMatches s) (playerMatches s) (subscriptions s) (subscriptionRewards s) (userIdCounter s) (walletIdCounter s) (transactionIdCounter s) (gameIdCounter s) (gameMatchIdCounter s) (playerMatchIdCounter s) (subscriptionIdCounter s) (subscriptionRewardIdCounter s).

Definition with_wallets (s : MemStorage) (v : list Wallet.t) : MemStorage :=
  mkMemStorage (users s) v (transactions s) (games s) (gameMatches s) (playerMatches s) (subscriptions s) (subscriptionRewards s) (userIdCounter s) (walletIdCounter s) (transactionIdCounter s) (gameIdCounter s) (gameMatchIdCounter s) (playerMatchIdCounter s) (subscriptionIdCounter s) (subscriptionRewardIdCounter s).

Definition with_transactions (s : MemStorage) (v : list Transaction.t) : MemStorage :=
  mkMemStorage (users s) (wallets s) v (games s) (gameMatches s) (playerMatches s) (subscriptions s) (subscriptionRewards s) (userIdCounter s) (walletIdCounter s) (transactionIdCounter s) (gameIdCounter s) (gameMatchIdCounter s) (playerMatchIdCounter s) (subscriptionIdCounter s) (subscriptionRewardIdCounter s).

Definition with_games (s : MemStorage) (v : list Game.t) : MemStorage :=
  mkMemStorage (users s) (wallets s) (transactions s) v (gameMatches s) (playerMatches s) (subscriptions s) (subscriptionRewards s) (userIdCounter s) (walletIdCounter s) (transactionIdCounter s) (gameIdCounter s) (gameMatchIdCounter s) (playerMatchIdCounter s) (subscriptionIdCounter s) (subscriptionRewardIdCounter s).

Definition with_gameMatches (s : MemStorage) (v : list GameMatch.t) : MemStorage :=
  mkMemStorage (users s) (wallets s) (transactions s) (games s) v (playerMatches s) (subscriptions s) (subscriptionRewards s) (userIdCounter s) (walletIdCounter s) (transactionIdCounter s) (gameIdCounter s) (gameMatchIdCounter s) (playerMatchIdCounter s) (subscriptionIdCounter s) (subscriptionRewardIdCounter s).

Definition with_playerMatches (s : MemStorage) (v : list PlayerMatch.t) : MemStorage :=
  mkMemStorage (users s) (wallets s) (transactions s) (games s) (gameMatches s) v (subscriptions s) (subscriptionRewards s) (userIdCounter s) (walletIdCounter s) (transactionIdCounter s) (gameIdCounter s) (gameMatchIdCounter s) (playerMatchIdCounter s) (subscriptionIdCounter s) (subscriptionRewardIdCounter s).

Definition with_subscriptions (s : MemStorage) (v : list Subscription.t) : MemStorage :=
  mkMemStorage (users s) (wallets s) (transactions s) (games s) (gameMatches s) (playerMatches s) v (subscriptionRewards s) (userIdCounter s) (walletIdCounter s) (transactionIdCounter s) (gameIdCounter s) (gameMatchIdCounter s) (playerMatchIdCounter s) (subscriptionIdCounter s) (subscriptionRewardIdCounter s).

Definition with_subscriptionRewards (s : MemStorage) (v : list SubscriptionReward.t) : MemStorage :=
  mkMemStorage (users s) (wallets s) (transactions s) (games s) (gameMatches s) (playerMatches s) (subscriptions s) v (userIdCounter s) (walletIdCounter s) (transactionIdCounter s) (gameIdCounter s) (gameMatchIdCounter s) (playerMatchIdCounter s) (subscriptionIdCounter s) (subscriptionRewardIdCounter s).

Definition with_userIdCounter (s : MemStorage) (v : Z) : MemStorage :=
  mkMemStorage (users s) (wallets s) (transactions s) (games s) (gameMatches s) (playerMatches s) (subscriptions s) (subscriptionRewards s) v (walletIdCounter s) (transactionIdCounter s) (gameIdCounter s) (gameMatchIdCounter s) (playerMatchIdCounter s) (subscriptionIdCounter s) (subscriptionRewardIdCounter s).

Definition with_walletIdCounter (s : MemStorage) (v : Z) : MemStorage :=
  mkMemStorage (users s) (wallets s) (transactions s) (games s) (gameMatches s) (playerMatches s) (subscriptions s) (subscriptionRewards s) (userIdCounter s) v (transactionIdCounter s) (gameIdCounter s) (gameMatchIdCounter s) (playerMatchIdCounter s) (subscriptionIdCounter s) (subscriptionRewardIdCounter s).

Definition with_transactionIdCounter (s : MemStorage) (v : Z) : MemStorage :=
  mkMemStorage (users s) (wallets s) (transactions s) (games s) (gameMatches s) (playerMatches s) (subscriptions s) (subscriptionRewards s) (userIdCounter s) (walletIdCounter s) v (gameIdCounter s) (gameMatchIdCounter s) (playerMatchIdCounter s) (subscriptionIdCounter s) (subscriptionRewardIdCounter s).

Definition with_gameIdCounter (s : MemStorage) (v : Z) : MemStorage :=
  mkMemStorage (users s) (wallets s) (transactions s) (games s) (gameMatches s) (playerMatches s) (subscriptions s) (subscriptionRewards s) (userIdCounter s) (walletIdCounter s) (transactionIdCounter s) v (gameMatchIdCounter s) (playerMatchIdCounter s) (subscriptionIdCounter s) (subscriptionRewardIdCounter s).

Definition with_gameMatchIdCounter (s : MemStorage) (v : Z) : MemStorage :=
  mkMemStorage (users s) (wallets s) (transactions s) (games s) (gameMatches s) (playerMatches s) (subscriptions s) (subscriptionRewards s) (userIdCounter s) (walletIdCounter s) (transactionIdCounter s) (gameIdCounter s) v (playerMatchIdCounter s) (subscriptionIdCounter s) (subscriptionRewardIdCounter s).

Definition with_playerMatchIdCounter (s : MemStorage) (v : Z) : MemStorage :=
  mkMemStorage (users s) (wallets s) (transactions s) (games s) (gameMatches s) (playerMatches s) (subscriptions s) (subscriptionRewards s) (userIdCounter s) (walletIdCounter s) (transactionIdCounter s) (gameIdCounter s) (gameMatchIdCounter s) v (subscriptionIdCounter s) (subscriptionRewardIdCounter s).

Definition with_subscriptionIdCounter (s : MemStorage) (v : Z) : MemStorage :=
  mkMemStorage (users s) (wallets s) (transactions s) (games s) (gameMatches s) (playerMatches s) (subscriptions s) (subscriptionRewards s) (userIdCounter s) (walletIdCounter s) (transactionIdCounter s) (gameIdCounter s) (gameMatchIdCounter s) (playerMatchIdCounter s) v (subscriptionRewardIdCounter s).

Definition with_subscriptionRewardIdCounter (s : MemStorage) (v : Z) : MemStorage :=
  mkMemStorage (users s) (wallets s) (transactions s) (games s) (gameMatches s) (playerMatches s) (subscriptions s) (subscriptionRewards s) (userIdCounter s) (walletIdCounter s) (transactionIdCounter s) (gameIdCounter s) (gameMatchIdCounter s) (playerMatchIdCounter s) (subscriptionIdCounter s) v.

(** [x || d] for an optional property. *)
Definition orElse {A : Type} (o : option A) (d : A) : A :=
  match o with Some v => v | None => d end.

(** [new MemStorage()] before [seedGames]. *)
Definition emptyStorage : MemStorage :=
  mkMemStorage [] [] [] [] [] [] [] [] 1 1 1 1 1 1 1 1.

(** *** Users *)

Definition getUser (s : MemStorage) (id : Z) : option User.t :=
  mget User.id (users s) id.

Definition getUserByUsername (s : MemStorage) (username : string) : option User.t :=
  find (fun user => String.eqb (toLowerCase (User.username user)) (toLowerCase username))
       (users s).

Definition getUserByEmail (s : MemStorage) (email : string) : option User.t :=
  find (fun user => String.eqb (toLowerCase (User.email user)) (toLowerCase email))
       (users s).

Definition getAllUsers (s : MemStorage) : list User.t := users s.

Definition createUser (s : MemStorage) (insertUser : InsertUser) (now : Z)
  : User.t * MemStorage :=
  let id := userIdCounter s in
  let user :=
    User.mk id
      (iu_username insertUser)
      (iu_email insertUser)
      (match iu_referralCode insertUser with
       | Some EmptyString => None
       | c => c
       end)
      (match iu_referredBy insertUser with
       | Some 0 => None
       | r => r
       end)
      (orElse (iu_hasSubscription insertUser) false)
      (iu_subscriptionExpiryDate insertUser)
      (orElse (iu_rewardPoints insertUser) 0)
      (iu_lastLoginDate insertUser)
      (orElse (iu_dailyStreak insertUser) 0)
      now in
  (user, with_users (with_userIdCounter s (id + 1)) (mset User.id (users s) user)).

Definition addSubscription (s : MemStorage) (userId durationDays now : Z)
  : option User.t * MemStorage :=
  match mget User.id (users s) userId with
  | None => (None, s)
  | Some user =>
    let expiryDate :=
      match User.subscriptionExpiryDate user with
      | Some expiry =>
        if (User.hasSubscription user && (now <? expiry))%bool
        then addDays expiry durationDays
        else addDays now durationDays
      | None => addDays now durationDays
      end in
    let updatedUser :=
      User.mk (User.id user) (User.username user) (User.email user)
        (User.referralCode user) (User.referredBy user)
        true (Some expiryDate)
        (User.rewardPoints user) (User.lastLoginDate user)
        (User.dailyStreak user) (User.createdAt user) in
    (Some updatedUser, with_users s (mset User.id (users s) updatedUser))
  end.

Definition upperAscii (c : ascii) : ascii :=
  let n := nat_of_ascii c in
  if (Nat.leb 97 n && Nat.leb n 122)%bool then ascii_of_nat (n - 32) else c.

Fixpoint toUpperCase (s : string) : string :=
  match s with
  | EmptyString => EmptyString
  | String c r => String (upperAscii c) (toUpperCase r)
  end.

(** [randomChars] stands for
    [Math.random().toString(36).substring(2, 6).toUpperCase()]. *)
Definition generateReferralCode (s : MemStorage) (userId : Z) (randomChars : string)
  : option User.t * MemStorage :=
  match mget User.id (users s) userId with
  | None => (None, s)
  | Some user =>
    match User.referralCode user with
    | Some (String _ _) => (Some user, s)
    | _ =>
      let usernamePrefix := toUpperCase (substring 0 4 (User.username user)) in
      let referralCode := (usernamePrefix ++ "-" ++ randomChars)%string in
      let updatedUser :=
        User.mk (User.id user) (User.username user) (User.email user)
          (Some referralCode) (User.referredBy user)
          (User.hasSubscription user) (User.subscriptionExpiryDate user)
          (User.rewardPoints user) (User.lastLoginDate user)
          (User.dailyStreak user) (User.createdAt user) in
      (Some updatedUser, with_users s (mset User.id (users s) updatedUser))
    end
  end.

Definition addRewardPoints (s : MemStorage) (userId points : Z)
  : option User.t * MemStorage :=
  match mget User.id (users s) userId with
  | None => (None, s)
  | Some user =>
    let currentPoints := User.rewardPoints user in
    let updatedPoints := currentPoints + points in
    let updatedUser :=
      User.mk (User.id user) (User.username user) (User.email user)
        (User.referralCode user) (User.referredBy user)
        (User.hasSubscription user) (User.subscriptionExpiryDate user)
        updatedPoints (User.lastLoginDate user)
        (User.dailyStreak user) (User.createdAt user) in
    (Some updatedUser, with_users s (mset User.id (users s) updatedUser))
  end.

(** *** Wallets *)

Definition getWallet (s : MemStorage) (userId : Z) : option Wallet.t :=
  find (fun wallet => Wallet.userId wallet =? userId) (wallets s).

Definition createWallet (s : MemStorage) (userId : Z) (balance : Q) (now : Z)
  : Wallet.t * MemStorage :=
  let id := walletIdCounter s in
  let wallet := Wallet.mk id userId balance now in
  (wallet, with_wallets (with_walletIdCounter s (id + 1)) (mset Wallet.id (wallets s) wallet)).

Definition updateWalletBalance (s : MemStorage) (userId : Z) (amount : Q)
  : option Wallet.t * MemStorage :=
  match getWallet s userId with
  | None => (None, s)
  | Some wallet =>
    let currentBalance := Wallet.balance wallet in
    let newBalance := (currentBalance + amount)%Q in
    if Qltb newBalance 0 then (None, s)
    else
      let updatedWallet :=
        Wallet.mk (Wallet.id wallet) (Wallet.userId wallet) newBalance
                  (Wallet.createdAt wallet) in
      (Some updatedWallet, with_wallets s (mset Wallet.id (wallets s) updatedWallet))
  end.

(** *** Transactions *)

Definition createTransaction (s : MemStorage) (insertTransaction : InsertTransaction)
  (now : Z) : Transaction.t * MemStorage :=
  let id := transactionIdCounter s in
  let transaction :=
    Transaction.mk id
      (it_userId insertTransaction)
      (it_amount insertTransaction)
      (it_type insertTransaction)
      (it_status insertTransaction)
      (it_description insertTransaction)
      (it_commissionAmount insertTransaction)
      None
      now in
  (transaction,
   with_transactions (with_transactionIdCounter s (id + 1))
     (mset Transaction.id (transactions s) transaction)).

(** [xs.sort((a, b) => b.createdAt - a.createdAt)]: newest first; the sort
    is stable, so rows of equal [createdAt] keep the order they had.  [x]
    stood before the rows of [l], hence it goes before the first of them
    that is not newer. *)
Fixpoint insertNewestFirst {A : Type} (createdAt : A -> Z) (x : A) (l : list A) : list A :=
  match l with
  | [] => [x]
  | y :: r =>
    if createdAt y <=? createdAt x then x :: y :: r
    else y :: insertNewestFirst createdAt x r
  end.

Definition sortNewestFirst {A : Type} (createdAt : A -> Z) (l : list A) : list A :=
  fold_right (insertNewestFirst createdAt) [] l.

Definition getUserTransactions (s : MemStorage) (userId : Z) : list Transaction.t :=
  sortNewestFirst Transaction.createdAt
    (filter (fun transaction => Transaction.userId transaction =? userId) (transactions s)).

Definition getAllTransactions (s : MemStorage) : list Transaction.t :=
  sortNewestFirst Transaction.createdAt (transactions s).

(** [{ ...a, ...b }] on string-keyed objects. *)
Fixpoint spread (a b : list (string * string)) : list (string * string) :=
  match b with
  | [] => a
  | (k, v) :: r =>
    let a' :=
      if existsb (fun e => String.eqb (fst e) k) a
      then map (fun e => if String.eqb (fst e) k then (k, v) else e) a
      else a ++ [(k, v)] in
    spread a' r
  end.

Definition updateTransactionMetadata (s : MemStorage) (id : Z)
  (metadata : list (string * string)) : option Transaction.t * MemStorage :=
  match mget Transaction.id (transactions s) id with
  | None => (None, s)
  | Some transaction =>
    let updatedTransaction :=
      Transaction.mk (Transaction.id transaction) (Transaction.userId transaction)
        (Transaction.amount transaction) (Transaction.type transaction)
        (Transaction.status transaction) (Transaction.description transaction)
        (Transaction.commissionAmount transaction)
        (Some (spread (orElse (Transaction.metadata transaction) []) metadata))
        (Transaction.createdAt transaction) in
    (Some updatedTransaction,
     with_transactions s (mset Transaction.id (transactions s) updatedTransaction))
  end.

(** *** Games *)

Definition getGame (s : MemStorage) (id : Z) : option Game.t :=
  mget Game.id (games s) id.

Definition createGame (s : MemStorage) (insertGame : InsertGame) (now : Z)
  : Game.t * MemStorage :=
  let id := gameIdCounter s in
  let game :=
    Game.mk id (ig_name insertGame) (ig_minEntry insertGame) (ig_maxEntry insertGame)
      (ig_commissionPercentage insertGame) (ig_isActive insertGame) now in
  (game, with_games (with_gameIdCounter s (id + 1)) (mset Game.id (games s) game)).

(** *** Matches *)

Definition createGameMatch (s : MemStorage) (gameId : Z) (entryAmount : Q)
  (status : MatchStatus) (startTime endTime winnerId : option Z) (now : Z)
  : GameMatch.t * MemStorage :=
  let id := gameMatchIdCounter s in
  let match_ := GameMatch.mk id gameId entryAmount status winnerId startTime endTime now in
  (match_,
   with_gameMatches (with_gameMatchIdCounter s (id + 1))
     (mset GameMatch.id (gameMatches s) match_)).

Definition getGameMatch (s : MemStorage) (id : Z) : option GameMatch.t :=
  mget GameMatch.id (gameMatches s) id.

Definition applyGameMatchPatch (m : GameMatch.t) (matchData : GameMatchPatch) : GameMatch.t :=
  GameMatch.mk (GameMatch.id m) (GameMatch.gameId m) (GameMatch.entryAmount m)
    (orElse (gp_status matchData) (GameMatch.status m))
    (orElse (gp_winnerId matchData) (GameMatch.winnerId m))
    (orElse (gp_startTime matchData) (GameMatch.startTime m))
    (orElse (gp_endTime matchData) (GameMatch.endTime m))
    (GameMatch.createdAt m).

Definition updateGameMatch (s : MemStorage) (id : Z) (matchData : GameMatchPatch)
  : option GameMatch.t * MemStorage :=
  match mget GameMatch.id (gameMatches s) id with
  | None => (None, s)
  | Some m =>
    let updatedMatch := applyGameMatchPatch m matchData in
    (Some updatedMatch, with_gameMatches s (mset GameMatch.id (gameMatches s) updatedMatch))
  end.

(** *** Players of a match *)

Definition addPlayerToMatch (s : MemStorage) (matchId userId : Z) (status : PlayerStatus)
  (now : Z) : PlayerMatch.t * MemStorage :=
  let id := playerMatchIdCounter s in
  let playerMatch := PlayerMatch.mk id matchId userId status now in
  (playerMatch,
   with_playerMatches (with_playerMatchIdCounter s (id + 1))
     (mset PlayerMatch.id (playerMatches s) playerMatch)).

Definition getMatchPlayers (s : MemStorage) (matchId : Z) : list PlayerMatch.t :=
  filter (fun playerMatch => PlayerMatch.matchId playerMatch =? matchId) (playerMatches s).

Definition updatePlayerMatchStatus (s : MemStorage) (id : Z) (status : PlayerStatus)
  : option PlayerMatch.t * MemStorage :=
  match mget PlayerMatch.id (playerMatches s) id with
  | None => (None, s)
  | Some playerMatch =>
    let updatedPlayerMatch :=
      PlayerMatch.mk (PlayerMatch.id playerMatch) (PlayerMatch.matchId playerMatch)
        (PlayerMatch.userId playerMatch) status (PlayerMatch.createdAt playerMatch) in
    (Some updatedPlayerMatch,
     with_playerMatches s (mset PlayerMatch.id (playerMatches s) updatedPlayerMatch))
  end.

(** *** Subscriptions and their daily rewards *)

Definition createSubscriptionRewards (s : MemStorage)
  (rewards : list InsertSubscriptionReward) (now : Z) : MemStorage :=
  fold_left
    (fun st insertReward =>
       let id := subscriptionRewardIdCounter st in
       let reward :=
         SubscriptionReward.mk id
           (ir_subscriptionId insertReward) (ir_userId insertReward)
           (ir_amount insertReward) (ir_day insertReward) (ir_status insertReward)
           None now in
       with_subscriptionRewards (with_subscriptionRewardIdCounter st (id + 1))
         (mset SubscriptionReward.id (subscriptionRewards st) reward))
    rewards s.

(** The values of [day] in [for (let day = 1; day <= duration; day++)]. *)
Definition dayRange (duration : Z) : list Z :=
  map Z.of_nat (seq 1 (Z.to_nat duration)).

Definition createGameSubscription (s : MemStorage)
  (userId : Z) (name : string) (amount rewardAmount : Q) (duration startDate endDate : Z)
  (status : SubStatus) (now : Z) : Subscription.t * MemStorage :=
  let id := subscriptionIdCounter s in
  let subscription :=
    Subscription.mk id userId name amount rewardAmount duration startDate endDate
                    status now in
  let s1 :=
    with_subscriptions (with_subscriptionIdCounter s (id + 1))
      (mset Subscription.id (subscriptions s) subscription) in
  let dailyRewardAmount :=
    (Subscription.rewardAmount subscription / inject_Z (Subscription.duration subscription))%Q in
  let rewards :=
    map (fun day =>
           mkInsertSubscriptionReward id (Subscription.userId subscription)
             (toFixed2 dailyRewardAmount) day reward_pending)
        (dayRange (Subscription.duration subscription)) in
  (subscription, createSubscriptionRewards s1 rewards now).

Definition getSubscriptionById (s : MemStorage) (id : Z) : option Subscription.t :=
  mget Subscription.id (subscriptions s) id.

Definition getPendingRewardsByDate (s : MemStorage) (date : Z) : list SubscriptionReward.t :=
  let targetDate := startOfDay date in
  filter
    (fun reward =>
       match mget Subscription.id (subscriptions s) (SubscriptionReward.subscriptionId reward) with
       | None => false
       | Some subscription =>
         let rewardDate :=
           startOfDay (addDays (Subscription.startDate subscription)
                               (SubscriptionReward.day reward - 1)) in
         (RewardStatus_eqb (SubscriptionReward.status reward) reward_pending
          && (rewardDate =? targetDate))%bool
       end)
    (subscriptionRewards s).

Definition updateRewardStatus (s : MemStorage) (id : Z) (status : RewardStatus)
  (paidAt : option Z) (now : Z) : option SubscriptionReward.t * MemStorage :=
  match mget SubscriptionReward.id (subscriptionRewards s) id with
  | None => (None, s)
  | Some reward =>
    let updatedReward :=
      SubscriptionReward.mk (SubscriptionReward.id reward)
        (SubscriptionReward.subscriptionId reward) (SubscriptionReward.userId reward)
        (SubscriptionReward.amount reward) (SubscriptionReward.day reward)
        status
        (match paidAt with
         | Some p => Some p
         | None =>
           if RewardStatus_eqb status reward_paid then Some now
           else SubscriptionReward.paidAt reward
         end)
        (SubscriptionReward.createdAt reward) in
    (Some updatedReward,
     with_subscriptionRewards s
       (mset SubscriptionReward.id (subscriptionRewards s) updatedReward))
  end.

(** *** The seeded catalogue ([seedGames]) *)

Definition seedCatalogue : list InsertGame := [
  mkInsertGame "Ludo Royal" 200 1000 10 true;
  mkInsertGame "Rummy Plus" 200 2000 15 true;
  mkInsertGame "Carrom Clash" 200 1500 12 true;
  mkInsertGame "Teen Patti Gold" 200 3000 15 true;
  mkInsertGame "Chess Master" 200 1000 8 true;
  mkInsertGame "Aviator Pro" 200 5000 15 true;
  mkInsertGame "Color Trading" 200 3000 12 true;
  mkInsertGame "Poker King" 200 10000 18 true;
  mkInsertGame "Blackjack 21" 200 5000 15 true;
  mkInsertGame "Lucky Slots" 200 2000 20 true;
  mkInsertGame "Roulette Royal" 200 8000 15 true;
  mkInsertGame "Baccarat Plus" 200 5000 15 true;
  mkInsertGame "Crash Racer" 200 3000 12 true;
  mkInsertGame "Andar Bahar Live" 200 2000 10 true;
  mkInsertGame "Dragon Tiger" 200 3000 12 true;
  mkInsertGame "Jhandi Munda" 200 1000 10 true;
  mkInsertGame "Call Break Pro" 200 1500 10 true;
  mkInsertGame "7 Up 7 Down" 200 2000 15 true;
  mkInsertGame "Multiplier Madness" 200 5000 20 true;
  mkInsertGame "Dice Duel" 200 1500 12 true;
  mkInsertGame "Crypto Predictor" 200 10000 18 true;
  mkInsertGame "Number Ninja" 200 1000 10 true;
  mkInsertGame "Pai Gow Poker" 200 3000 15 true;
  mkInsertGame "Sic Bo Deluxe" 200 2000 15 true;
  mkInsertGame "Caribbean Stud" 200 5000 18 true;
  mkInsertGame "Keno Blast" 200 1000 25 true;
  mkInsertGame "Mines Explorer" 200 3000 15 true;
  mkInsertGame "HiLo Extreme" 200 2000 12 true;
  mkInsertGame "Plinko Drop" 200 3000 18 true;
  mkInsertGame "Tower Builder" 200 1500 15 true;
  mkInsertGame "Virtual Sports" 200 5000 20 true;
  mkInsertGame "Snake & Ladder 3D" 200 800 10 true;
  mkInsertGame "Crazy Time" 200 10000 25 true;
  mkInsertGame "Monopoly Live" 200 5000 20 true;
  mkInsertGame "Deal or No Deal" 200 2000 15 true;
  mkInsertGame "Lightning Dice" 200 3000 18 true;
  mkInsertGame "Mega Ball" 200 5000 20 true;
  mkInsertGame "Crazy Coins" 200 1000 10 true;
  mkInsertGame "Lucky Wheel Spin" 200 2000 15 true;
  mkInsertGame "Rapid Roulette" 200 3000 12 true;
  mkInsertGame "Video Poker Jacks+" 200 2000 10 true;
  mkInsertGame "Football Studio" 200 1500 15 true;
  mkInsertGame "Megaways Slots" 200 5000 20 true;
  mkInsertGame "Triple Card Poker" 200 3000 15 true;
  mkInsertGame "Perfect Pairs" 200 2000 12 true;
  mkInsertGame "Bonus Poker" 200 2500 15 true;
  mkInsertGame "Fast Patti" 200 2000 12 true;
  mkInsertGame "Speed Baccarat" 200 5000 15 true;
  mkInsertGame "Diamond Rush" 200 1000 10 true;
  mkInsertGame "Multiplier Roulette" 200 3000 18 true;
  mkInsertGame "Goal Scorer" 200 2000 15 true;
  mkInsertGame "Lightning Roulette" 200 5000 20 true;
  mkInsertGame "Bonus Blackjack" 200 3000 15 true;
  mkInsertGame "Double Ball Roulette" 200 3000 18 true;
  mkInsertGame "Wheel of Fortune" 200 2000 25 true;
  mkInsertGame "Fantasy Cricket Premier" 200 10000 20 true;
  mkInsertGame "Spin Wheel Deluxe" 200 2000 25 true
].

Definition seedGames (s : MemStorage) (now : Z) : MemStorage :=
  fold_left (fun st game => snd (createGame st game now)) seedCatalogue s.

(** [export const storage = new MemStorage()] *)
Definition storage (now : Z) : MemStorage := seedGames emptyStorage now.

(** ** Commission helpers of the client ([lib/utils/commission.ts]) *)

Module CommissionUtils.

(** Banded commission on a raw transaction amount. *)
Definition calculateCommission (amount : Q) : Q :=
  if Qle_bool amount 0 then 0
  else
    let commissionRate :=
      (if Qgtb amount 1000 then 0.02
       else if Qgtb amount 500 then 0.0225
       else if Qltb amount 100 then 0.03
       else 0.025)%Q in
    (inject_Z (Math_round ((amount * commissionRate) * 100)) / 100)%Q.

(** Commission on a prize pool, rounded to two decimals. *)
Definition calculateGameCommission (prizePool commissionPercentage : Q)
  (hasSubscription : bool) : Q :=
  if (Qle_bool prizePool 0 || Qle_bool commissionPercentage 0)%bool then 0
  else
    let adjustedCommissionPercentage :=
      (if hasSubscription then commissionPercentage * 0.75 else commissionPercentage)%Q in
    let commission := ((prizePool * adjustedCommissionPercentage) / 100)%Q in
    (inject_Z (Math_round (commission * 100)) / 100)%Q.

End CommissionUtils.

(** ** The HTTP handlers ([registerRoutes], [setupAuth]) *)

(** The commission the server applies at settlement. *)
Definition calculateCommission (amount percentage : Q) (hasSubscription : bool) : Q :=
  if (Qle_bool amount 0 || Qle_bool percentage 0)%bool then 0
  else
    let adjustedPercentage :=
      (if hasSubscription then percentage * 0.75 else percentage)%Q in
    ((amount * adjustedPercentage) / 100)%Q.

Inductive Message :=
| Msg (text : string)
| EntryAmountBetween (minEntry maxEntry : Q)
| PlayerHasNoWallet (userId : Z)
| PlayerNotEnoughBalance (userId : Z) (required : Q).

(** What [res.status(code).json(...)] sends. *)
Inductive Reply :=
| Ok (code : Z)
| OkMatch (code : Z) (match_ : option GameMatch.t)
| OkProcessed (processed : Z)
| Err (code : Z) (message : Message).

(** What [setTimeout] schedules, with the variables the closure captures. *)
Inductive Timer :=
| AiJoinTimer (matchId aiUserId : Z)
| AutoStartTimer (matchId : Z) (match_ : GameMatch.t)
    (players : list PlayerMatch.t) (aiPlayer : User.t)
| AutoCompleteTimer (matchId : Z) (players : list PlayerMatch.t) (aiPlayer : User.t)
    (entryAmount : Q) (game : option Game.t).

Definition isPlayer (players : list PlayerMatch.t) (userId : Z) : bool :=
  existsb (fun player => PlayerMatch.userId player =? userId) players.

(** [winnerUser?.subscriptionExpiryDate && new Date(...) > new Date()] *)
Definition subscriptionActive (winnerUser : option User.t) (now : Z) : bool :=
  match winnerUser with
  | Some u =>
    match User.subscriptionExpiryDate u with
    | Some expiry => now <? expiry
    | None => false
    end
  | None => false
  end.

(** *** POST /api/matches

    [entryAmount] is the number [parseFloat] reads from the body. *)

Definition aiInsertUser (now : Z) : InsertUser :=
  mkInsertUser "AI_Player" "ai@example.com" None None (Some false) None (Some 0)
               (Some now) (Some 0).

Definition post_matches (s : MemStorage) (userId gameId : Z) (entryAmount : Q) (now : Z)
  : Reply * MemStorage * list Timer :=
  match getGame s gameId with
  | None => (Err 404 (Msg "Game not found"), s, [])
  | Some game =>
    let minEntry := Game.minEntry game in
    let maxEntry := Game.maxEntry game in
    let amount := entryAmount in
    if (Qltb amount minEntry || Qgtb amount maxEntry)%bool
    then (Err 400 (EntryAmountBetween minEntry maxEntry), s, [])
    else
      match getWallet s userId with
      | None => (Err 404 (Msg "Wallet not found"), s, [])
      | Some wallet =>
        let walletBalance := Wallet.balance wallet in
        if Qltb walletBalance 200
        then (Err 400 (Msg "You need a minimum wallet balance of 200 to play games. Please add funds to your wallet."), s, [])
        else if Qltb walletBalance amount
        then (Err 400 (Msg "Insufficient funds"), s, [])
        else
          let '(match_, s1) :=
            createGameMatch s gameId entryAmount waiting None None None now in
          let '(_, s2) := addPlayerToMatch s1 (GameMatch.id match_) userId joined now in
          let '(aiUser, s3) :=
            match getUserByUsername s2 "AI_Player" with
            | Some aiUser => (aiUser, s2)
            | None =>
              let '(aiUser, s2a) := createUser s2 (aiInsertUser now) now in
              let '(_, s2b) := createWallet s2a (User.id aiUser) 10000 now in
              (aiUser, s2b)
            end in
          (OkMatch 201 (Some match_), s3,
           [AiJoinTimer (GameMatch.id match_) (User.id aiUser)])
      end
  end.

(** The body of the 2 s timer of [POST /api/matches]. *)
Definition aiJoinTimer (s : MemStorage) (matchId aiUserId now : Z) : MemStorage :=
  snd (addPlayerToMatch s matchId aiUserId joined now).

(** *** POST /api/matches/:id/start *)

Definition entryFeeTransaction (userId : Z) (entryAmount : Q) (gameName : string)
  (matchId : Z) : InsertTransaction :=
  mkInsertTransaction userId (- entryAmount) ty_game_entry tx_completed
    (Some (EntryFeeFor gameName matchId)) (Some 0%Q).

(** The loop [for (const player of players)] of the handler; [Some r] is an
    early [return] out of the loop. *)
Fixpoint startDeductionLoop (s : MemStorage) (players : list PlayerMatch.t)
  (entryAmount : Q) (game : Game.t) (matchId now : Z) : option Reply * MemStorage :=
  match players with
  | [] => (None, s)
  | player :: rest =>
    match getWallet s (PlayerMatch.userId player) with
    | None => (Some (Err 400 (PlayerHasNoWallet (PlayerMatch.userId player))), s)
    | Some wallet =>
      let walletBalance := Wallet.balance wallet in
      if Qltb walletBalance entryAmount
      then (Some (Err 400 (PlayerNotEnoughBalance (PlayerMatch.userId player) entryAmount)), s)
      else
        let '(_, s1) := updateWalletBalance s (PlayerMatch.userId player) (- entryAmount) in
        let '(_, s2) :=
          createTransaction s1
            (entryFeeTransaction (PlayerMatch.userId player) entryAmount
               (Game.name game) matchId) now in
        startDeductionLoop s2 rest entryAmount game matchId now
    end
  end.

Definition post_matches_start (s : MemStorage) (matchId userId now : Z)
  : Reply * MemStorage :=
  match getGameMatch s matchId with
  | None => (Err 404 (Msg "Match not found"), s)
  | Some match_ =>
    if negb (MatchStatus_eqb (GameMatch.status match_) waiting)
    then (Err 400 (Msg "Match is not in waiting status"), s)
    else
      let players := getMatchPlayers s matchId in
      if Z.of_nat (List.length players) <? 2
      then (Err 400 (Msg "Need at least 2 players to start the match"), s)
      else if negb (isPlayer players userId)
      then (Err 403 (Msg "You are not part of this match"), s)
      else
        match getGame s (GameMatch.gameId match_) with
        | None => (Err 404 (Msg "Game not found"), s)
        | Some game =>
          let entryAmount := GameMatch.entryAmount match_ in
          match startDeductionLoop s players entryAmount game matchId now with
          | (Some reply, s1) => (reply, s1)
          | (None, s1) =>
            let '(_, s2) :=
              updateGameMatch s1 matchId
                (mkGameMatchPatch (Some in_progress) None (Some (Some now)) None) in
            let updatedMatch := getGameMatch s2 matchId in
            (OkMatch 200 updatedMatch, s2)
          end
        end
  end.

(** *** POST /api/matches/:id/join and the timers it schedules *)

Definition post_matches_join (s : MemStorage) (matchId userId now : Z)
  : Reply * MemStorage * list Timer :=
  match getGameMatch s matchId with
  | None => (Err 404 (Msg "Match not found"), s, [])
  | Some match_ =>
    if negb (MatchStatus_eqb (GameMatch.status match_) waiting)
    then (Err 400 (Msg "Match is no longer accepting players"), s, [])
    else
      let matchPlayers := getMatchPlayers s matchId in
      if isPlayer matchPlayers userId
      then (Err 400 (Msg "Already joined this match"), s, [])
      else
        match getWallet s userId with
        | None => (Err 404 (Msg "Wallet not found"), s, [])
        | Some wallet =>
          let walletBalance := Wallet.balance wallet in
          let entryAmount := GameMatch.entryAmount match_ in
          if Qltb walletBalance 200
          then (Err 400 (Msg "You need a minimum wallet balance of 200 to play games. Please add funds to your wallet."), s, [])
          else if Qltb walletBalance entryAmount
          then (Err 400 (Msg "Insufficient funds"), s, [])
          else
            let '(_, s1) := addPlayerToMatch s matchId userId joined now in
            let updatedMatch := getGameMatch s1 matchId in
            let players := getMatchPlayers s1 matchId in
            let timers :=
              match getUserByUsername s1 "AI_Player" with
              | Some aiPlayer =>
                if (isPlayer players (User.id aiPlayer)
                    && (2 <=? Z.of_nat (List.length players)))%bool
                then [AutoStartTimer matchId match_ players aiPlayer]
                else []
              | None => []
              end in
            (OkMatch 200 updatedMatch, s1, timers)
        end
  end.

(** [game?.name || 'game'] *)
Definition gameNameOr (game : option Game.t) : string :=
  match game with
  | Some g => match Game.name g with EmptyString => "game" | n => n end
  | None => "game"
  end.

(** The loop of the 3 s timer: one deduction and one transaction per player
    captured at join time. *)
Fixpoint autoStartDeductionLoop (s : MemStorage) (players : list PlayerMatch.t)
  (entryAmount : Q) (game : option Game.t) (matchId now : Z) : MemStorage :=
  match players with
  | [] => s
  | player :: rest =>
    let '(_, s1) := updateWalletBalance s (PlayerMatch.userId player) (- entryAmount) in
    let '(_, s2) :=
      createTransaction s1
        (entryFeeTransaction (PlayerMatch.userId player) entryAmount
           (gameNameOr game) matchId) now in
    autoStartDeductionLoop s2 rest entryAmount game matchId now
  end.

(** The body of the 3 s timer of [POST /api/matches/:id/join]. *)
Definition autoStartTimer (s : MemStorage) (matchId : Z) (match_ : GameMatch.t)
  (players : list PlayerMatch.t) (aiPlayer : User.t) (now : Z)
  : MemStorage * list Timer :=
  let '(_, s1) :=
    updateGameMatch s matchId
      (mkGameMatchPatch (Some in_progress) None (Some (Some now)) None) in
  let game := getGame s1 (GameMatch.gameId match_) in
  let entryAmount := GameMatch.entryAmount match_ in
  let s2 := autoStartDeductionLoop s1 players entryAmount game matchId now in
  (s2, [AutoCompleteTimer matchId players aiPlayer entryAmount game]).

(** [for (const player of players) updatePlayerMatchStatus(player.id, ...)] *)
Definition settlePlayerStatuses (s : MemStorage) (players : list PlayerMatch.t)
  (winnerId : Z) : MemStorage :=
  fold_left
    (fun st player =>
       let newStatus := if PlayerMatch.userId player =? winnerId then won else lost in
       snd (updatePlayerMatchStatus st (PlayerMatch.id player) newStatus))
    players s.

Definition prizeTransaction (winnerId : Z) (winnerPrize commission : Q)
  (gameName : string) (hasSubscription : bool) : InsertTransaction :=
  mkInsertTransaction winnerId winnerPrize ty_game_win tx_completed
    (Some (PrizeForWinning gameName hasSubscription)) (Some commission).

(** The body of the 5 s timer the auto-start timer schedules. *)
Definition autoCompleteTimer (s : MemStorage) (matchId : Z)
  (players : list PlayerMatch.t) (aiPlayer : User.t) (entryAmount : Q)
  (game : option Game.t) (now : Z) : MemStorage :=
  match find (fun p => negb (PlayerMatch.userId p =? User.id aiPlayer)) players with
  | None => s
  | Some p =>
    let winnerId := PlayerMatch.userId p in
    if winnerId =? 0 then s
    else
      let totalPrize := (entryAmount * inject_Z (Z.of_nat (List.length players)))%Q in
      let commissionPercentage :=
        match game with
        | Some g => Game.commissionPercentage g
        | None => 2.5%Q
        end in
      let winnerUser := getUser s winnerId in
      let hasSubscription := subscriptionActive winnerUser now in
      let commission := calculateCommission totalPrize commissionPercentage hasSubscription in
      let winnerPrize := (totalPrize - commission)%Q in
      let '(_, s1) :=
        updateGameMatch s matchId
          (mkGameMatchPatch (Some completed) (Some (Some winnerId)) None (Some (Some now))) in
      let s2 := settlePlayerStatuses s1 players winnerId in
      let '(_, s3) := updateWalletBalance s2 winnerId winnerPrize in
      let '(_, s4) :=
        createTransaction s3
          (prizeTransaction winnerId winnerPrize commission (gameNameOr game) hasSubscription)
          now in
      s4
  end.

(** *** POST /api/matches/:id/complete *)

Definition post_matches_complete (s : MemStorage) (matchId winnerId now : Z)
  : Reply * MemStorage :=
  match getGameMatch s matchId with
  | None => (Err 404 (Msg "Match not found"), s)
  | Some match_ =>
    if negb (MatchStatus_eqb (GameMatch.status match_) in_progress)
    then (Err 400 (Msg "Match is not in progress"), s)
    else
      match getGame s (GameMatch.gameId match_) with
      | None => (Err 404 (Msg "Game not found"), s)
      | Some game =>
        let players := getMatchPlayers s matchId in
        if negb (isPlayer players winnerId)
        then (Err 400 (Msg "Winner is not a player in this match"), s)
        else
          let entryAmount := GameMatch.entryAmount match_ in
          let totalPrize := (entryAmount * inject_Z (Z.of_nat (List.length players)))%Q in
          let commissionPercentage := Game.commissionPercentage game in
          let winnerUser := getUser s winnerId in
          let hasSubscription := subscriptionActive winnerUser now in
          let commission :=
            calculateCommission totalPrize commissionPercentage hasSubscription in
          let winnerPrize := (totalPrize - commission)%Q in
          let '(_, s1) :=
            updateGameMatch s matchId
              (mkGameMatchPatch (Some completed) (Some (Some winnerId)) None (Some (Some now))) in
          let s2 := settlePlayerStatuses s1 players winnerId in
          let '(_, s3) := updateWalletBalance s2 winnerId winnerPrize in
          let '(_, s4) :=
            createTransaction s3
              (prizeTransaction winnerId winnerPrize commission (Game.name game) hasSubscription)
              now in
          let updatedMatch := getGameMatch s4 matchId in
          (OkMatch 200 updatedMatch, s4)
      end
  end.

(** *** Wallet handlers *)

(** POST /api/wallet/deposit: a pending transaction, no money moves. *)
Definition post_wallet_deposit (s : MemStorage) (userId : Z) (amount : Q)
  (paymentScreenshotUrl paymentReference : option string) (upiId : string) (now : Z)
  : Reply * MemStorage :=
  let parsedAmount := amount in
  if Qltb parsedAmount 100
  then (Err 400 (Msg "Minimum deposit amount is 100"), s)
  else
    let hasScreenshot :=
      match paymentScreenshotUrl with
      | Some (String _ _) => true
      | _ => false
      end in
    let reference :=
      match paymentReference with
      | Some (String c r) => Some (String c r)
      | _ => None
      end in
    let '(transaction, s1) :=
      createTransaction s
        (mkInsertTransaction userId amount ty_deposit tx_pending
           (Some (DepositRequest upiId reference hasScreenshot)) (Some 0%Q)) now in
    let s2 :=
      match paymentScreenshotUrl with
      | Some (String c r) =>
        snd (updateTransactionMetadata s1 (Transaction.id transaction)
               [("paymentScreenshotUrl", String c r); ("upiId", upiId)])
      | _ => s1
      end in
    (Ok 201, s2).

(** POST /api/wallet/approve-deposit/:transactionId; [requireAdmin] admits
    the user with id 1 only. *)
Definition post_wallet_approve_deposit (s : MemStorage) (userId transactionId now : Z)
  : Reply * MemStorage :=
  if negb (userId =? 1) then (Err 403 (Msg "Admin access required"), s)
  else
    let allTransactions := getAllTransactions s in
    match find (fun t => ((Transaction.id t =? transactionId)
                          && TxType_eqb (Transaction.type t) ty_deposit
                          && TxStatus_eqb (Transaction.status t) tx_pending)%bool)
               allTransactions with
    | None => (Err 404 (Msg "Pending deposit transaction not found"), s)
    | Some transaction =>
      let depositAmount := Transaction.amount transaction in
      let transactionUserId := Transaction.userId transaction in
      match updateWalletBalance s transactionUserId depositAmount with
      | (None, s1) => (Err 500 (Msg "Error updating wallet"), s1)
      | (Some updatedWallet, s1) =>
        let '(_, s2) :=
          createTransaction s1
            (mkInsertTransaction transactionUserId depositAmount ty_deposit tx_completed
               (Some DepositApproved) (Some 0%Q)) now in
        (Ok 200, s2)
      end
    end.

(** POST /api/wallet/withdraw, for an [amount] that [parseFloat] reads as a
    number; [Js.post_wallet_withdraw] is the route on every value. *)
Definition post_wallet_withdraw (s : MemStorage) (userId : Z) (amount : Q) (now : Z)
  : Reply * MemStorage :=
  match getWallet s userId with
  | None => (Err 404 (Msg "Wallet not found"), s)
  | Some wallet =>
    let parsedAmount := amount in
    if Qle_bool parsedAmount 0
    then (Err 400 (Msg "Amount must be greater than 0"), s)
    else if Qltb (Wallet.balance wallet) parsedAmount
    then (Err 400 (Msg "Insufficient funds"), s)
    else
      match updateWalletBalance s userId (- parsedAmount) with
      | (None, s1) => (Err 500 (Msg "Error updating wallet"), s1)
      | (Some updatedWallet, s1) =>
        let '(_, s2) :=
          createTransaction s1
            (mkInsertTransaction userId (- parsedAmount) ty_withdrawal tx_completed
               (Some WithdrewMoney) (Some 0%Q)) now in
        (Ok 201, s2)
      end
  end.

(** *** Subscription handlers *)

(** The reward rows the handler of POST /api/subscriptions builds itself. *)
Definition tierDailyRewardAmount (parsedAmount : Q) : Q :=
  if Qeq_bool parsedAmount 2000 then 1714
  else if Qeq_bool parsedAmount 10000 then 11428
  else 857.

(** POST /api/subscriptions; [amount] and [rewardAmount] are the numbers
    [parseFloat] reads from the body, [duration] the one [parseInt] reads. *)
Definition post_subscriptions (s : MemStorage) (userId : Z) (name : string)
  (amount rewardAmount : Q) (duration : Z) (now : Z) : Reply * MemStorage :=
  let parsedAmount := amount in
  let parsedRewardAmount := rewardAmount in
  let parsedDuration := duration in
  if Qle_bool parsedAmount 0
  then (Err 400 (Msg "Invalid subscription amount"), s)
  else if Qle_bool parsedRewardAmount 0
  then (Err 400 (Msg "Invalid reward amount"), s)
  else if parsedDuration <=? 0
  then (Err 400 (Msg "Invalid subscription duration"), s)
  else
    match getWallet s userId with
    | None => (Err 404 (Msg "Wallet not found"), s)
    | Some wallet =>
      let walletBalance := Wallet.balance wallet in
      if Qltb walletBalance parsedAmount
      then (Err 400 (Msg "Insufficient funds"), s)
      else
        let '(_, s1) := updateWalletBalance s userId (- parsedAmount) in
        let '(_, s2) :=
          createTransaction s1
            (mkInsertTransaction userId (- parsedAmount) ty_subscription_purchase
               tx_completed (Some (PurchasedSubscription name duration)) (Some 0%Q)) now in
        let startDate := now in
        let endDate := addDays now parsedDuration in
        let '(subscription, s3) :=
          createGameSubscription s2 userId name amount rewardAmount parsedDuration
            startDate endDate sub_active now in
        let '(_, s4) := addSubscription s3 userId parsedDuration now in
        let dailyRewardAmount := tierDailyRewardAmount parsedAmount in
        let rewards :=
          map (fun day =>
                 mkInsertSubscriptionReward (Subscription.id subscription) userId
                   dailyRewardAmount day reward_pending)
              (dayRange parsedDuration) in
        let s5 := createSubscriptionRewards s4 rewards now in
        (Ok 201, s5)
    end.

(** POST /api/subscription/purchase: the monthly subscription at 300. *)
Definition post_subscription_purchase (s : MemStorage) (userId now : Z)
  : Reply * MemStorage :=
  match getWallet s userId with
  | None => (Err 400 (Msg "Insufficient wallet balance for subscription. Minimum balance required is 300."), s)
  | Some wallet =>
    if Qltb (Wallet.balance wallet) 300
    then (Err 400 (Msg "Insufficient wallet balance for subscription. Minimum balance required is 300."), s)
    else
      let '(updatedWallet, s1) := updateWalletBalance s userId (- (300)) in
      let '(user, s2) := addSubscription s1 userId 30 now in
      let '(_, s3) :=
        createTransaction s2
          (mkInsertTransaction userId (- (300)) ty_subscription tx_completed
             (Some MonthlySubscription) (Some 0%Q)) now in
      (Ok 200, s3)
  end.

(** The loop of POST /api/admin/process-subscription-rewards. *)
Definition payReward (s : MemStorage) (reward : SubscriptionReward.t) (now : Z)
  : MemStorage :=
  let rewardAmount := SubscriptionReward.amount reward in
  let '(_, s1) := updateWalletBalance s (SubscriptionReward.userId reward) rewardAmount in
  let '(_, s2) :=
    createTransaction s1
      (mkInsertTransaction (SubscriptionReward.userId reward) rewardAmount
         ty_subscription_reward tx_completed
         (Some (DayReward (SubscriptionReward.day reward))) (Some 0%Q)) now in
  let '(_, s3) := updateRewardStatus s2 (SubscriptionReward.id reward) reward_paid None now in
  s3.

(** POST /api/admin/process-subscription-rewards; without a [date] in the
    body the date is today. *)
Definition post_admin_process_subscription_rewards (s : MemStorage) (userId : Z)
  (dateStr : option Z) (now : Z) : Reply * MemStorage :=
  if negb (userId =? 1) then (Err 403 (Msg "Admin access required"), s)
  else
    let date := orElse dateStr now in
    let pendingRewards := getPendingRewardsByDate s date in
    match pendingRewards with
    | [] => (OkProcessed 0, s)
    | _ =>
      let s1 := fold_left (fun st reward => payReward st reward now) pendingRewards s in
      (OkProcessed (Z.of_nat (List.length pendingRewards)), s1)
    end.

(** *** POST /api/redeem-points: one point is 0.10

    [points] is the body field when it holds a whole number. *)

Definition post_redeem_points (s : MemStorage) (userId points now : Z)
  : Reply * MemStorage :=
  if ((points =? 0) || (points <? 50))%bool
  then (Err 400 (Msg "Minimum 50 points required for redemption"), s)
  else
    match getUser s userId with
    | None => (Err 404 (Msg "User not found"), s)
    | Some user =>
      let userPoints := User.rewardPoints user in
      if userPoints <? points
      then (Err 400 (Msg "Insufficient reward points"), s)
      else
        let walletCredit := (inject_Z points * 0.1)%Q in
        let '(_, s1) := addRewardPoints s userId (- points) in
        let '(updatedWallet, s2) := updateWalletBalance s1 userId walletCredit in
        let '(_, s3) :=
          createTransaction s2
            (mkInsertTransaction userId walletCredit ty_reward_redemption tx_completed
               (Some (RedeemedPoints points)) (Some 0%Q)) now in
        (Ok 200, s3)
    end.

(** *** POST /api/register ([setupAuth])

    Password hashing, the only step of the handler that waits on real I/O,
    and the session login are left out. *)

Definition post_register (s : MemStorage) (username email : string)
  (referralCode : option string) (randomChars : string) (now : Z)
  : Reply * MemStorage :=
  match getUserByUsername s username with
  | Some _ => (Err 400 (Msg "Username already exists"), s)
  | None =>
    match getUserByEmail s email with
    | Some _ => (Err 400 (Msg "Email already exists"), s)
    | None =>
      let referrerId :=
        match referralCode with
        | Some (String c r) =>
          match find (fun user =>
                        match User.referralCode user with
                        | Some code => String.eqb code (String c r)
                        | None => false
                        end) (getAllUsers s) with
          | Some referrer => Some (User.id referrer)
          | None => None
          end
        | _ => None
        end in
      let '(user, s1) :=
        createUser s
          (mkInsertUser username email None referrerId None None (Some 25) None None) now in
      let '(_, s2) := createWallet s1 (User.id user) 0 now in
      let s3 :=
        match referrerId with
        | Some 0 => s2
        | Some rid =>
          let '(_, a) := addRewardPoints s2 rid 100 in
          let '(_, b) := updateWalletBalance a rid 10 in
          let '(_, c) := updateWalletBalance b (User.id user) 10 in
          let '(_, d) :=
            createTransaction c
              (mkInsertTransaction rid 10 ty_referral_bonus tx_completed
                 (Some (ReferralInvite username)) (Some 0%Q)) now in
          let '(_, e) :=
            createTransaction d
              (mkInsertTransaction (User.id user) 10 ty_referral_bonus tx_completed
                 (Some ReferralWelcome) (Some 0%Q)) now in
          e
        | None => s2
        end in
      let '(_, s4) := generateReferralCode s3 (User.id user) randomChars in
      (Ok 201, s4)
    end
  end.

(** ** The event loop

    One HTTP request or one due timer at a time; a handler's timers join the
    pending ones. *)

Inductive Request :=
| Register (username email : string) (referralCode : option string) (randomChars : string)
| CreateMatch (userId gameId : Z) (entryAmount : Q)
| JoinMatch (userId matchId : Z)
| StartMatch (userId matchId : Z)
| CompleteMatch (matchId winnerId : Z)
| Deposit (userId : Z) (amount : Q) (paymentScreenshotUrl paymentReference : option string)
    (upiId : string)
| ApproveDeposit (userId transactionId : Z)
| Withdraw (userId : Z) (amount : Q)
| Subscribe (userId : Z) (name : string) (amount rewardAmount : Q) (duration : Z)
| SubscribeMonthly (userId : Z)
| ProcessRewards (userId : Z) (date : option Z)
| RedeemPoints (userId points : Z).

Definition noTimers (r : Reply * MemStorage) : Reply * MemStorage * list Timer :=
  (fst r, snd r, []).

Definition handle (s : MemStorage) (req : Request) (now : Z)
  : Reply * MemStorage * list Timer :=
  match req with
  | Register username email referralCode randomChars =>
    noTimers (post_register s username email referralCode randomChars now)
  | CreateMatch userId gameId entryAmount => post_matches s userId gameId entryAmount now
  | JoinMatch userId matchId => post_matches_join s matchId userId now
  | StartMatch userId matchId => noTimers (post_matches_start s matchId userId now)
  | CompleteMatch matchId winnerId => noTimers (post_matches_complete s matchId winnerId now)
  | Deposit userId amount screenshot reference upiId =>
    noTimers (post_wallet_deposit s userId amount screenshot reference upiId now)
  | ApproveDeposit userId transactionId =>
    noTimers (post_wallet_approve_deposit s userId transactionId now)
  | Withdraw userId amount => noTimers (post_wallet_withdraw s userId amount now)
  | Subscribe userId name amount rewardAmount duration =>
    noTimers (post_subscriptions s userId name amount rewardAmount duration now)
  | SubscribeMonthly userId => noTimers (post_subscription_purchase s userId now)
  | ProcessRewards userId date =>
    noTimers (post_admin_process_subscription_rewards s userId date now)
  | RedeemPoints userId points => noTimers (post_redeem_points s userId points now)
  end.

Definition fire (s : MemStorage) (t : Timer) (now : Z) : MemStorage * list Timer :=
  match t with
  | AiJoinTimer matchId aiUserId => (aiJoinTimer s matchId aiUserId now, [])
  | AutoStartTimer matchId match_ players aiPlayer =>
    autoStartTimer s matchId match_ players aiPlayer now
  | AutoCompleteTimer matchId players aiPlayer entryAmount game =>
    (autoCompleteTimer s matchId players aiPlayer entryAmount game now, [])
  end.

Record System := mkSystem { store : MemStorage; timers : list Timer }.

Inductive Event :=
| Http (req : Request) (now : Z)
| Fire (n : nat) (now : Z).

Fixpoint removeNth {A : Type} (n : nat) (l : list A) : list A :=
  match n, l with
  | _, [] => []
  | O, _ :: r => r
  | S k, x :: r => x :: removeNth k r
  end.

Definition step (sys : System) (e : Event) : System :=
  match e with
  | Http req now =>
    let '(_, s', ts) := handle (store sys) req now in
    mkSystem s' (timers sys ++ ts)
  | Fire n now =>
    match nth_error (timers sys) n with
    | None => sys
    | Some t =>
      let '(s', ts) := fire (store sys) t now in
      mkSystem s' (removeNth n (timers sys) ++ ts)
    end
  end.

Definition run (sys : System) (events : list Event) : System :=
  fold_left step events sys.

(** The server after start-up at time [now]. *)
Definition boot (now : Z) : System := mkSystem (storage now) [].

(** ** The chat layer (Socket.IO handlers of [registerRoutes])

    Of the chat state only [messageHistory] is modelled: a
    [Map<string, Message[]>] in insertion order. *)

Module Chat.

Record Message := mkMessage {
  id : string;
  sender : string;
  senderName : string;
  content : string;
  timestamp : Z;
  roomId : string
}.

Definition History := list (string * list Message).

Definition has (h : History) (room : string) : bool :=
  existsb (fun e => String.eqb (fst e) room) h.

Definition get (h : History) (room : string) : option (list Message) :=
  option_map snd (find (fun e => String.eqb (fst e) room) h).

Definition set (h : History) (room : string) (v : list Message) : History :=
  if has h room
  then map (fun e => if String.eqb (fst e) room then (room, v) else e) h
  else h ++ [(room, v)].

(** [messageHistory] once [registerRoutes] has run. *)
Definition initialHistory : History := [("global", [])].

(** [history.shift()] *)
Definition shift (l : list Message) : list Message := tl l.

(** What a client sends with ['sendMessage'], and the [randomUUID()] and
    [new Date()] the handler draws for it. *)
Record SendData := mkSendData {
  sd_content : string;
  sd_sender : string;
  sd_senderName : string;
  sd_roomId : string;
  sd_uuid : string;
  sd_now : Z
}.

Definition isEmpty (s : string) : bool :=
  match s with EmptyString => true | _ => false end.

Definition messageOf (d : SendData) : Message :=
  mkMessage (sd_uuid d) (sd_sender d) (sd_senderName d) (sd_content d) (sd_now d)
            (sd_roomId d).

(** [socket.on('sendMessage', ...)]: the new history and the broadcast. *)
Definition sendMessage (h : History) (data : SendData) : History * option Message :=
  if (isEmpty (sd_content data) || isEmpty (sd_roomId data))%bool then (h, None)
  else
    let message := messageOf data in
    let h' :=
      match get h (sd_roomId data) with
      | Some history =>
        let history1 :=
          if 100 <=? Z.of_nat (List.length history) then shift history else history in
        set h (sd_roomId data) (history1 ++ [message])
      | None => set h (sd_roomId data) [message]
      end in
    (h', Some message).

(** [socket.on('getMessageHistory', ...)]: what is emitted back. *)
Definition getMessageHistory (h : History) (room : string) : list Message :=
  match get h room with
  | Some history => history
  | None => []
  end.

Definition sendAll (h : History) (sends : list SendData) : History :=
  fold_left (fun st d => fst (sendMessage st d)) sends h.

End Chat.


(** ** Predicates and observations used by the properties *)

(** Every wallet holds a balance of at least zero. *)
Definition walletsNonNegative (s : MemStorage) : Prop :=
  Forall (fun w => (0 <= Wallet.balance w)%Q) (wallets s).


(** The part of the store that holds the money: the wallets, the
    transactions and the counters their ids come from. *)
Definition ledger (s : MemStorage) : list Wallet.t * Z * list Transaction.t * Z :=
  (wallets s, walletIdCounter s, transactions s, transactionIdCounter s).

Definition walletIdsDistinct (s : MemStorage) : Prop :=
  NoDup (map Wallet.id (wallets s)).

Definition walletIdsIssued (s : MemStorage) : Prop :=
  Forall (fun w => Wallet.id w < walletIdCounter s) (wallets s).

Definition transactionIdsIssued (s : MemStorage) : Prop :=
  Forall (fun t => Transaction.id t < transactionIdCounter s) (transactions s).

(** What [MemStorage] keeps true of its ledger: balances at least zero,
    one wallet per wallet id, and every id below the counter that issues it. *)
Definition ledgerSound (s : MemStorage) : Prop :=
  walletsNonNegative s /\ walletIdsDistinct s /\ walletIdsIssued s
  /\ transactionIdsIssued s.

Definition balanceOf (s : MemStorage) (userId : Z) : option Q :=
  option_map Wallet.balance (getWallet s userId).

(** The completed entry-fee transactions of a user for a match. *)
Definition entryFeesCharged (s : MemStorage) (userId matchId : Z) : list Transaction.t :=
  filter
    (fun t =>
       ((Transaction.userId t =? userId)
        && TxType_eqb (Transaction.type t) ty_game_entry
        && TxStatus_eqb (Transaction.status t) tx_completed
        && match Transaction.description t with
           | Some (EntryFeeFor _ m) => m =? matchId
           | _ => false
           end)%bool)
    (transactions s).

(** The sum of the amounts of a user's completed transactions. *)
Definition completedSum (s : MemStorage) (userId : Z) : Q :=
  fold_right Qplus 0%Q
    (map Transaction.amount
       (filter
          (fun t => ((Transaction.userId t =? userId)
                     && TxStatus_eqb (Transaction.status t) tx_completed)%bool)
          (transactions s))).

Definition matchStatusOf (s : MemStorage) (matchId : Z) : option MatchStatus :=
  option_map GameMatch.status (getGameMatch s matchId).

(** *** Sessions used as concrete inputs

    The first account registered is the administrator (id 1); [alice] is
    user 2 and [bob] user 3; the automated opponent, created with the first
    match, is user 4.  Game 1 is Ludo Royal (entry 200 to 1000, 10 percent
    commission). *)

Definition platformUpi : string := "8447228346@ptsbi".

Definition threeAccounts : list Event := [
  Http (Register "admin" "admin@example.com" None "K3QA") 1000;
  Http (Register "alice" "alice@example.com" None "9ZT1") 2000;
  Http (Register "bob" "bob@example.com" None "M40X") 3000
].

(** Alice and Bob each deposit [a] and [b]; the administrator approves. *)
Definition funded (a b : Q) : list Event :=
  threeAccounts ++ [
    Http (Deposit 2 a None None platformUpi) 4000;
    Http (Deposit 3 b None None platformUpi) 5000;
    Http (ApproveDeposit 1 1) 6000;
    Http (ApproveDeposit 1 2) 7000
  ].

(** Alice opens match 1 at 200, the automated opponent joins after 2 s, Bob
    joins a second later: the join schedules the automatic start. *)
Definition lobbyWithOpponent : list Event := [
  Http (CreateMatch 2 1 200) 10000;
  Fire 0 12000;
  Http (JoinMatch 3 1) 13000
].

(** Bob starts the match by hand one second after joining; the automatic
    start fires when its 3 s are over. *)
Definition manualThenAutoStart : list Event := [
  Http (StartMatch 3 1) 14000;
  Fire 0 16000
].

(** Alice withdraws her 200 while the automatic start is pending. *)
Definition withdrawThenAutoStart : list Event := [
  Http (Withdraw 2 200) 14000;
  Fire 0 16000
].

(** Alice opens match 1 at 200, Bob joins and then withdraws 100 of his 200. *)
Definition lobbyWithShortPlayer : list Event := [
  Http (CreateMatch 2 1 200) 10000;
  Http (JoinMatch 3 1) 11000;
  Http (Withdraw 3 100) 11500
].

(** The reward rows of a subscription, in the order they were created. *)
Definition rewardsOfSubscription (s : MemStorage) (subscriptionId : Z)
  : list SubscriptionReward.t :=
  filter (fun r => SubscriptionReward.subscriptionId r =? subscriptionId)
         (subscriptionRewards s).

(** Match 1 in progress with three players at an entry of 200: Alice, the
    automated opponent and Bob, each charged once by Bob's manual start. *)
Definition threePlayersInProgress : MemStorage :=
  store (run (boot 0)
           (funded 1000 1000 ++ lobbyWithOpponent ++ [Http (StartMatch 3 1) 14000])).

(** The transactions a batch writes for the rewards it pays: one completed
    [subscription_reward] per reward, numbered from [nextId]. *)
Fixpoint rewardTransactions (nextId now : Z) (rewards : list SubscriptionReward.t)
  : list Transaction.t :=
  match rewards with
  | [] => []
  | r :: rest =>
    Transaction.mk nextId (SubscriptionReward.userId r) (SubscriptionReward.amount r)
      ty_subscription_reward tx_completed
      (Some (DayReward (SubscriptionReward.day r))) (Some 0%Q) None now
    :: rewardTransactions (nextId + 1) now rest
  end.

(** The total of the rewards of a batch that belong to a user. *)
Definition creditedTo (userId : Z) (rewards : list SubscriptionReward.t) : Q :=
  fold_right Qplus 0%Q
    (map SubscriptionReward.amount
       (filter (fun r => SubscriptionReward.userId r =? userId) rewards)).

(** A reward row once [updateRewardStatus(id, "paid")] has run at [now]. *)
Definition markedPaid (r : SubscriptionReward.t) (now : Z) : SubscriptionReward.t :=
  SubscriptionReward.mk (SubscriptionReward.id r) (SubscriptionReward.subscriptionId r)
    (SubscriptionReward.userId r) (SubscriptionReward.amount r)
    (SubscriptionReward.day r) reward_paid (Some now) (SubscriptionReward.createdAt r).

(** Whether a reward is pending and falls on the calendar day of [date]. *)
Definition dueOn (s : MemStorage) (date : Z) (reward : SubscriptionReward.t) : bool :=
  match mget Subscription.id (subscriptions s) (SubscriptionReward.subscriptionId reward) with
  | None => false
  | Some sub =>
    (RewardStatus_eqb (SubscriptionReward.status reward) reward_pending
     && (startOfDay (addDays (Subscription.startDate sub) (SubscriptionReward.day reward - 1))
         =? startOfDay date))%bool
  end.

(** Alice holds a 7-day subscription bought at time 20 000 000. *)
Definition aliceSubscribed : MemStorage :=
  store (run (boot 0)
           (funded 1000 1000 ++ [Http (Subscribe 2 "Basic" 1000 6000 7) 20000000])).

(** The [n] most recent entries of a list in sending order. *)
Definition mostRecent {A : Type} (n : nat) (l : list A) : list A :=
  skipn (List.length l - n) l.

(** The messages a sequence of ['sendMessage'] events adds to a room: the
    handler drops an event without content or without room. *)
Definition acceptedFor (room : string) (sends : list Chat.SendData) : list Chat.Message :=
  map Chat.messageOf
    (filter
       (fun d => (negb (Chat.isEmpty (Chat.sd_content d))
                  && negb (Chat.isEmpty (Chat.sd_roomId d))
                  && String.eqb (Chat.sd_roomId d) room)%bool)
       sends).

(** The [i]-th message Alice sends to the global room. *)
Definition aliceSays (i : nat) : Chat.SendData :=
  Chat.mkSendData "hello" "2" "alice" "global"
    (String (ascii_of_nat (32 + i)) "-0000-4000-8000-000000000000")
    (1000 + Z.of_nat i).

(** ** Observations used by the further properties *)

(** The transactions a start writes for the players it charges: one
    completed [game_entry] of minus the entry amount per player, numbered
    from [nextId]. *)
Fixpoint entryFeeTransactions (nextId now : Z) (entryAmount : Q) (gameName : string)
  (matchId : Z) (players : list PlayerMatch.t) : list Transaction.t :=
  match players with
  | [] => []
  | p :: rest =>
    Transaction.mk nextId (PlayerMatch.userId p) (- entryAmount) ty_game_entry
      tx_completed (Some (EntryFeeFor gameName matchId)) (Some 0%Q) None now
    :: entryFeeTransactions (nextId + 1) now entryAmount gameName matchId rest
  end.

(** How many of the rows of a match belong to a user. *)
Definition seatsOf (userId : Z) (players : list PlayerMatch.t) : Z :=
  Z.of_nat (List.length
              (filter (fun p => PlayerMatch.userId p =? userId) players)).

(** The lobby of match 1 with Alice, the automated opponent and Bob, each
    holding at least the entry of 200, before anybody starts the match. *)
Definition threePlayersWaiting : MemStorage :=
  store (run (boot 0) (funded 1000 1000 ++ lobbyWithOpponent)).

(** Alice and Bob registered and funded with 1000 each, nothing else. *)
Definition twoFundedAccounts : MemStorage :=
  store (run (boot 0) (funded 1000 1000)).

(** One pending deposit of 1000 by Alice (transaction 1), not yet approved. *)
Definition aliceAwaitsApproval : MemStorage :=
  store (run (boot 0)
           (threeAccounts ++ [Http (Deposit 2 1000 None None platformUpi) 4000])).

(** ** What the client shows before a match is settled *)

Record PrizeView := mkPrizeView { pv_prize : Q; pv_commission : Q; pv_total : Q }.

(** [calculatePrize] of the match page: the commission is the plain
    percentage of the pool, without discount and without rounding. *)
Definition matchPage_calculatePrize (match_ : option GameMatch.t) (game : option Game.t)
  (players : option (list PlayerMatch.t)) : PrizeView :=
  match match_, game, players with
  | Some m, Some g, Some ps =>
    let entryAmount := GameMatch.entryAmount m in
    let totalPrize := (entryAmount * inject_Z (Z.of_nat (List.length ps)))%Q in
    let commissionPercentage := Game.commissionPercentage g in
    let commission := (totalPrize * (commissionPercentage / 100))%Q in
    let prize := (totalPrize - commission)%Q in
    mkPrizeView prize commission totalPrize
  | _, _, _ => mkPrizeView 0 0 0
  end.

(** [calculatePrize] of the Ludo page: the commission is
    [calculateGameCommission] without subscription; there is no total. *)
Definition ludoPage_calculatePrize (match_ : option GameMatch.t) (game : option Game.t)
  (players : option (list PlayerMatch.t)) : Q * Q :=
  match match_, game, players with
  | Some m, Some g, Some ps =>
    let entryAmount := GameMatch.entryAmount m in
    let totalPrize := (entryAmount * inject_Z (Z.of_nat (List.length ps)))%Q in
    let commissionPercentage := Game.commissionPercentage g in
    let commission :=
      CommissionUtils.calculateGameCommission totalPrize commissionPercentage false in
    let prize := (totalPrize - commission)%Q in
    (prize, commission)
  | _, _, _ => (0%Q, 0%Q)
  end.

(** Match 1 started by its timer, then completed by hand with Alice as
    winner, the automatic completion still pending. *)
Definition completedByHandTimerPending : System :=
  run (boot 0)
      (funded 1000 1000 ++ lobbyWithOpponent
       ++ [Fire 0 16000; Http (CompleteMatch 1 2) 18000]).

(** Carol registers with Alice's referral code: Alice then owns 125 reward
    points and a wallet of 10. *)
Definition aliceReferredCarol : MemStorage :=
  store (run (boot 0)
           (threeAccounts
            ++ [Http (Register "carol" "carol@example.com" (Some "ALIC-9ZT1") "77QP") 3500])).

(** ** Reward schedules *)

(** Every reward row carries an id the counter has already passed. *)
Definition rewardIdsIssued (s : MemStorage) : Prop :=
  Forall (fun r => SubscriptionReward.id r < subscriptionRewardIdCounter s)
         (subscriptionRewards s).

(** The rows a schedule consists of: one pending reward of [amount] per
    day, numbered from [nextId]. *)
Fixpoint plannedRewards (nextId subscriptionId userId : Z) (amount : Q) (now : Z)
  (days : list Z) : list SubscriptionReward.t :=
  match days with
  | [] => []
  | day :: rest =>
    SubscriptionReward.mk nextId subscriptionId userId amount day reward_pending None now
    :: plannedRewards (nextId + 1) subscriptionId userId amount now rest
  end.

(** The sum of the amounts of some rewards. *)
Definition totalOf (rewards : list SubscriptionReward.t) : Q :=
  fold_right Qplus 0%Q (map SubscriptionReward.amount rewards).

(** Every reward row refers to a subscription id the counter has passed. *)
Definition rewardsReferToIssued (s : MemStorage) : Prop :=
  Forall (fun r => SubscriptionReward.subscriptionId r < subscriptionIdCounter s)
         (subscriptionRewards s).

(** The rewards of one subscription that the batch of [date] would pay. *)
Definition dueOfSubscription (s : MemStorage) (subscriptionId date : Z)
  : list SubscriptionReward.t :=
  filter (fun r => SubscriptionReward.subscriptionId r =? subscriptionId)
         (getPendingRewardsByDate s date).

(** ** The loyalty system *)

(** [updateLastLogin] of [MemStorage]; [now] is the [new Date()] of the call. *)
Definition updateLastLogin (s : MemStorage) (userId now : Z)
  : option User.t * MemStorage :=
  match mget User.id (users s) userId with
  | None => (None, s)
  | Some user =>
    let lastLoginDate := User.lastLoginDate user in
    let dailyStreak := User.dailyStreak user in
    let dailyStreak :=
      match lastLoginDate with
      | Some lastLoginDay =>
        let dayDifference := (now - lastLoginDay) / msPerDay in
        if dayDifference =? 1 then dailyStreak + 1
        else if 1 <? dayDifference then 1
        else dailyStreak
      | None => 1
      end in
    let updatedUser :=
      User.mk (User.id user) (User.username user) (User.email user)
        (User.referralCode user) (User.referredBy user)
        (User.hasSubscription user) (User.subscriptionExpiryDate user)
        (User.rewardPoints user) (Some now)
        dailyStreak (User.createdAt user) in
    (Some updatedUser, with_users s (mset User.id (users s) updatedUser))
  end.

(** The points of one login: 10, and a bonus of 50 from a streak of 7 or
    of 20 from a streak of 3. *)
Definition loginPoints (streak : Z) : Z :=
  let pointsAwarded := 10 in
  if 7 <=? streak then pointsAwarded + 50
  else if 3 <=? streak then pointsAwarded + 20
  else pointsAwarded.

(** What POST /api/record-login answers. *)
Inductive LoginReply :=
| LoginRecorded (dailyStreak : option Z) (pointsAwarded : Z) (totalPoints : option Z)
| LoginRefused (code : Z) (message : string).

(** POST /api/record-login *)
Definition post_record_login (s : MemStorage) (userId now : Z) : LoginReply * MemStorage :=
  let '(updatedUser, s1) := updateLastLogin s userId now in
  match updatedUser with
  | None => (LoginRefused 404 "User not found", s1)
  | Some updatedUser =>
    let streak :=
      if User.dailyStreak updatedUser =? 0 then 1 else User.dailyStreak updatedUser in
    let pointsAwarded := loginPoints streak in
    let '(userWithPoints, s2) := addRewardPoints s1 userId pointsAwarded in
    (LoginRecorded (option_map User.dailyStreak userWithPoints) pointsAwarded
       (option_map User.rewardPoints userWithPoints), s2)
  end.

(** The same user recording a login at each of [times], in order. *)
Definition recordLogins (s : MemStorage) (userId : Z) (times : list Z) : MemStorage :=
  fold_left (fun st now => snd (post_record_login st userId now)) times s.

(** Each login comes less than 24 hours after the one before it, the first
    less than 24 hours after [last]. *)
Fixpoint lessThanADayApart (last : Z) (times : list Z) : Prop :=
  match times with
  | [] => True
  | now :: rest => now - last < msPerDay /\ lessThanADayApart now rest
  end.

Inductive Tier := Bronze | Silver | Gold | Platinum.

Record LoyaltyProfile := mkLoyaltyProfile {
  lp_rewardPoints : Z;
  lp_dailyStreak : Z;
  lp_lastLoginDate : option Z;
  lp_tier : Tier;
  lp_nextTier : option Tier;
  lp_pointsToNextTier : Z
}.

(** The tier of GET /api/loyalty-profile. *)
Definition tierOfPoints (points : Z) : Tier :=
  if 1000 <=? points then Platinum
  else if 500 <=? points then Gold
  else if 200 <=? points then Silver
  else Bronze.

(** GET /api/loyalty-profile; [None] is the 404 of an unknown user. *)
Definition get_loyalty_profile (s : MemStorage) (userId : Z) : option LoyaltyProfile :=
  match getUser s userId with
  | None => None
  | Some user =>
    let points := User.rewardPoints user in
    let tier := tierOfPoints points in
    Some (mkLoyaltyProfile points (User.dailyStreak user) (User.lastLoginDate user) tier
            (match tier with
             | Platinum => None
             | Gold => Some Platinum
             | Silver => Some Gold
             | Bronze => Some Silver
             end)
            (match tier with
             | Platinum => 0
             | Gold => 1000 - points
             | Silver => 500 - points
             | Bronze => 200 - points
             end))
  end.

(** Alice after her very first recorded login, at instant 100 000. *)
Definition aliceLoggedInOnce : MemStorage :=
  snd (post_record_login twoFundedAccounts 2 100000).

(** ** The waitlist ([waitlistEmails] and [waitlistIdCounter] of [MemStorage]) *)

Module Waitlist.

Record t := mk {
  id : Z;
  email : string;
  createdAt : Z
}.

Record Store := mkStore {
  waitlistEmails : list t;
  waitlistIdCounter : Z
}.

Definition emptyStore : Store := mkStore [] 1.

(** [addToWaitlist] *)
Definition addToWaitlist (s : Store) (insertEmail : string) (now : Z) : t * Store :=
  let existingEmail :=
    find (fun waitlistEntry =>
            String.eqb (toLowerCase (email waitlistEntry)) (toLowerCase insertEmail))
         (waitlistEmails s) in
  match existingEmail with
  | Some existing => (existing, s)
  | None =>
    let id := waitlistIdCounter s in
    let waitlistEntry := mk id insertEmail now in
    (waitlistEntry, mkStore (mset Waitlist.id (waitlistEmails s) waitlistEntry) (id + 1))
  end.

(** No two entries hold the same address up to letter case, and every id
    was issued by the counter. *)
Definition wellFormed (s : Store) : Prop :=
  NoDup (map (fun e => toLowerCase (email e)) (waitlistEmails s))
  /\ Forall (fun e => id e < waitlistIdCounter s) (waitlistEmails s).

End Waitlist.

(** ** Chat rooms (Socket.IO handlers of [registerRoutes])

    [activeUsers] is keyed by socket id, [chatRooms] and [messageHistory]
    by room id, all in insertion order.  The notices a handler only
    broadcasts, without storing them, are left out. *)

Module ChatRooms.

(** A [userId] as a client sends it.  The handlers compare ids with [===],
    [!==] and [includes], under which a number never equals a string. *)
Inductive JsId := NumId (n : Z) | StrId (s : string).

Definition JsId_eqb (a b : JsId) : bool :=
  match a, b with
  | NumId x, NumId y => x =? y
  | StrId x, StrId y => String.eqb x y
  | _, _ => false
  end.

(** [!!id] *)
Definition truthy (a : JsId) : bool :=
  match a with
  | NumId n => negb (n =? 0)
  | StrId s => negb (Chat.isEmpty s)
  end.

Section StringMap.

Variable V : Type.

Definition shas (m : list (string * V)) (k : string) : bool :=
  existsb (fun e => String.eqb (fst e) k) m.

Definition sget (m : list (string * V)) (k : string) : option V :=
  option_map snd (find (fun e => String.eqb (fst e) k) m).

Definition sset (m : list (string * V)) (k : string) (v : V) : list (string * V) :=
  if shas m k
  then map (fun e => if String.eqb (fst e) k then (k, v) else e) m
  else m ++ [(k, v)].

Definition sdelete (m : list (string * V)) (k : string) : list (string * V) :=
  filter (fun e => negb (String.eqb (fst e) k)) m.

End StringMap.

Arguments shas {V}.
Arguments sget {V}.
Arguments sset {V}.
Arguments sdelete {V}.

Record ActiveUser := mkActiveUser {
  au_userId : JsId;
  au_username : string;
  au_currentRoom : option string
}.

Inductive RoomType := GlobalRoom | GameRoom | PrivateRoom.

Record Room := mkRoom {
  room_id : string;
  room_name : string;
  room_type : RoomType;
  room_participants : list JsId
}.

Record State := mkState {
  activeUsers : list (string * ActiveUser);
  chatRooms : list (string * Room);
  messageHistory : Chat.History
}.

(** The maps once [registerRoutes] has run. *)
Definition initialState : State :=
  mkState [] [("global", mkRoom "global" "Global Chat" GlobalRoom [])]
          Chat.initialHistory.

(** [[...activeUsers.values()].filter(user => user.currentRoom === roomId).length] *)
Definition userCount (users : list (string * ActiveUser)) (roomId : string) : Z :=
  Z.of_nat
    (List.length
       (filter (fun e =>
                  match au_currentRoom (snd e) with
                  | Some r => String.eqb r roomId
                  | None => false
                  end) users)).

Fixpoint untilDash (s : string) : string :=
  match s with
  | EmptyString => EmptyString
  | String c r => if Ascii.eqb c "-" then EmptyString else String c (untilDash r)
  end.

Fixpoint afterDash (s : string) : string :=
  match s with
  | EmptyString => EmptyString
  | String c r => if Ascii.eqb c "-" then r else afterDash r
  end.

(** [roomId.split('-')[1]] of a room id that contains a dash. *)
Definition secondSegment (roomId : string) : string := untilDash (afterDash roomId).

Definition withParticipants (room : Room) (participants : list JsId) : Room :=
  mkRoom (room_id room) (room_name room) (room_type room) participants.

Definition isPrivate (t : RoomType) : bool :=
  match t with PrivateRoom => true | _ => false end.

(** [socket.on('joinRoom', ...)]: the new state, and the history and the
    user count it emits. *)
Definition joinRoom (st : State) (socketId : string) (userId : JsId)
  (username roomId : string) : State * option (list Chat.Message * Z) :=
  if Chat.isEmpty roomId then (st, None)
  else
    let users :=
      sset (activeUsers st) socketId (mkActiveUser userId username (Some roomId)) in
    let '(rooms, history) :=
      match sget (chatRooms st) roomId with
      | Some room =>
        if existsb (JsId_eqb userId) (room_participants room)
        then (chatRooms st, messageHistory st)
        else (sset (chatRooms st) roomId
                (withParticipants room (room_participants room ++ [userId])),
              messageHistory st)
      | None =>
        if String.prefix "game-" roomId
        then (sset (chatRooms st) roomId
                (mkRoom roomId ("Game Room " ++ secondSegment roomId) GameRoom [userId]),
              Chat.set (messageHistory st) roomId [])
        else (chatRooms st, messageHistory st)
      end in
    let '(history, emitted) :=
      match Chat.get history roomId with
      | Some messages => (history, messages)
      | None => (Chat.set history roomId [], [])
      end in
    (mkState users rooms history, Some (emitted, userCount users roomId)).

(** [socket.on('leaveRoom', ...)]: the new state and the user count it
    emits. *)
Definition leaveRoom (st : State) (socketId : string) (userId : JsId) (roomId : string)
  : State * option Z :=
  if Chat.isEmpty roomId then (st, None)
  else
    let users :=
      match sget (activeUsers st) socketId with
      | Some userData =>
        sset (activeUsers st) socketId
          (mkActiveUser (au_userId userData) (au_username userData) None)
      | None => activeUsers st
      end in
    let '(rooms, history) :=
      match sget (chatRooms st) roomId with
      | Some room =>
        let room :=
          withParticipants room
            (filter (fun id => negb (JsId_eqb id userId)) (room_participants room)) in
        let rooms := sset (chatRooms st) roomId room in
        if (isPrivate (room_type room)
            && (List.length (room_participants room) =? 0)%nat)%bool
        then (sdelete rooms roomId, sdelete (messageHistory st) roomId)
        else (rooms, messageHistory st)
      | None => (chatRooms st, messageHistory st)
      end in
    (mkState users rooms history, Some (userCount users roomId)).

(** What a client sends with ['createPrivateRoom']. *)
Record PrivateRoomData := mkPrivateRoomData {
  pr_userId : JsId;
  pr_username : string;
  pr_otherUserId : JsId;
  pr_otherUsername : string;
  pr_roomId : string
}.

(** [socket.on('createPrivateRoom', ...)]: the new state, and the socket of
    the other user with the room it is told about, when that user is
    active. *)
Definition createPrivateRoom (st : State) (data : PrivateRoomData)
  : State * option (string * Room) :=
  if (Chat.isEmpty (pr_roomId data) || negb (truthy (pr_userId data))
      || negb (truthy (pr_otherUserId data)))%bool
  then (st, None)
  else if shas (chatRooms st) (pr_roomId data) then (st, None)
  else
    let room :=
      mkRoom (pr_roomId data) ("Chat with " ++ pr_otherUsername data) PrivateRoom
             [pr_userId data; pr_otherUserId data] in
    let st' :=
      mkState (activeUsers st) (sset (chatRooms st) (pr_roomId data) room)
              (Chat.set (messageHistory st) (pr_roomId data) []) in
    let otherSocketId :=
      option_map fst
        (find (fun e => JsId_eqb (au_userId (snd e)) (pr_otherUserId data))
              (activeUsers st)) in
    (st',
     match otherSocketId with
     | Some socketId =>
       Some (socketId,
             mkRoom (room_id room) ("Chat with " ++ pr_username data) (room_type room)
                    (room_participants room))
     | None => None
     end).

(** [socket.on('disconnect', ...)]: the new state, and the room and user
    count it emits. *)
Definition disconnect (st : State) (socketId : string) : State * option (string * Z) :=
  match sget (activeUsers st) socketId with
  | None => (st, None)
  | Some userData =>
    let '(rooms, emitted) :=
      match au_currentRoom userData with
      | Some currentRoom =>
        if Chat.isEmpty currentRoom then (chatRooms st, None)
        else
          match sget (chatRooms st) currentRoom with
          | Some room =>
            (sset (chatRooms st) currentRoom
               (withParticipants room
                  (filter (fun id => negb (JsId_eqb id (au_userId userData)))
                          (room_participants room))),
             Some (currentRoom, userCount (activeUsers st) currentRoom - 1))
          | None => (chatRooms st, None)
          end
      | None => (chatRooms st, None)
      end in
    (mkState (sdelete (activeUsers st) socketId) rooms (messageHistory st), emitted)
  end.

(** [socket.on('sendMessage', ...)] on the state. *)
Definition sendMessage (st : State) (data : Chat.SendData) : State :=
  mkState (activeUsers st) (chatRooms st)
          (fst (Chat.sendMessage (messageHistory st) data)).

End ChatRooms.

(** Socket [s1] of Alice in the global room. *)
Definition aliceInGlobal : ChatRooms.State :=
  fst (ChatRooms.joinRoom ChatRooms.initialState "s1" (ChatRooms.NumId 2) "alice" "global").

(** One message of Alice to [room]. *)
Definition aliceWrites (room uuid : string) (now : Z) : Chat.SendData :=
  Chat.mkSendData "hello" "2" "alice" room uuid now.

(** Alice opens a private room with Bob and writes one message in it. *)
Definition privateRoomWithOneMessage : ChatRooms.State :=
  ChatRooms.sendMessage
    (fst (ChatRooms.createPrivateRoom aliceInGlobal
            (ChatRooms.mkPrivateRoomData (ChatRooms.NumId 2) "alice" (ChatRooms.NumId 3)
               "bob" "2-3")))
    (aliceWrites "2-3" "u1" 5000).

(** A message sent to the room of match 7 before anybody joined it. *)
Definition writtenBeforeAnyJoin : ChatRooms.State :=
  ChatRooms.sendMessage ChatRooms.initialState (aliceWrites "game-7" "u1" 5000).

(** ** Amounts that are not numbers

    The routes hand the text of an amount to [parseFloat] and compare the
    result with [<] and [<=].  [parseFloat] answers a number, an infinity
    or [NaN] (for ["abc"], say), and every comparison with [NaN] is false.
    This module embeds the wallets, the transactions and the withdraw
    route once more, over all these values; a finite number is still an
    exact rational. *)

Module Js.

(** The values of a JavaScript [number]. *)
Inductive number := finite (q : Q) | infinity | neg_infinity | NaN.

(** [x < y] *)
Definition ltb (x y : number) : bool :=
  match x, y with
  | NaN, _ => false
  | _, NaN => false
  | finite a, finite b => Qltb a b
  | finite _, infinity => true
  | finite _, neg_infinity => false
  | infinity, _ => false
  | neg_infinity, neg_infinity => false
  | neg_infinity, _ => true
  end.

(** [x <= y] *)
Definition leb (x y : number) : bool :=
  match x, y with
  | NaN, _ => false
  | _, NaN => false
  | finite a, finite b => Qle_bool a b
  | finite _, infinity => true
  | finite _, neg_infinity => false
  | infinity, infinity => true
  | infinity, _ => false
  | neg_infinity, _ => true
  end.

(** [x + y] *)
Definition add (x y : number) : number :=
  match x, y with
  | NaN, _ => NaN
  | _, NaN => NaN
  | finite a, finite b => finite (a + b)
  | finite _, infinity => infinity
  | finite _, neg_infinity => neg_infinity
  | infinity, neg_infinity => NaN
  | infinity, _ => infinity
  | neg_infinity, infinity => NaN
  | neg_infinity, _ => neg_infinity
  end.

(** [-x] *)
Definition opp (x : number) : number :=
  match x with
  | finite a => finite (- a)
  | infinity => neg_infinity
  | neg_infinity => infinity
  | NaN => NaN
  end.

Module Wallet.
Record t := mk { id : Z; userId : Z; balance : number; createdAt : Z }.
End Wallet.

Module Transaction.
Record t := mk {
  id : Z;
  userId : Z;
  amount : number;
  type : TxType;
  status : TxStatus;
  description : option Description;
  commissionAmount : option Q;
  metadata : option (list (string * string));
  createdAt : Z
}.
End Transaction.

Record InsertTransaction := mkInsertTransaction {
  it_userId : Z;
  it_amount : number;
  it_type : TxType;
  it_status : TxStatus;
  it_description : option Description;
  it_commissionAmount : option Q
}.

(** The ledger part of [MemStorage]. *)
Record Storage := mkStorage {
  wallets : list Wallet.t;
  transactions : list Transaction.t;
  transactionIdCounter : Z
}.

Definition getWallet (s : Storage) (userId : Z) : option Wallet.t :=
  find (fun wallet => Wallet.userId wallet =? userId) (wallets s).

(** [updateWalletBalance]: [newBalance < 0] is false for [NaN]. *)
Definition updateWalletBalance (s : Storage) (userId : Z) (amount : number)
  : option Wallet.t * Storage :=
  match getWallet s userId with
  | None => (None, s)
  | Some wallet =>
    let currentBalance := Wallet.balance wallet in
    let newBalance := add currentBalance amount in
    if ltb newBalance (finite 0) then (None, s)
    else
      let updatedWallet :=
        Wallet.mk (Wallet.id wallet) (Wallet.userId wallet) newBalance
                  (Wallet.createdAt wallet) in
      (Some updatedWallet,
       mkStorage (mset Wallet.id (wallets s) updatedWallet) (transactions s)
                 (transactionIdCounter s))
  end.

Definition createTransaction (s : Storage) (insertTransaction : InsertTransaction)
  (now : Z) : Transaction.t * Storage :=
  let id := transactionIdCounter s in
  let transaction :=
    Transaction.mk id
      (it_userId insertTransaction)
      (it_amount insertTransaction)
      (it_type insertTransaction)
      (it_status insertTransaction)
      (it_description insertTransaction)
      (it_commissionAmount insertTransaction)
      None
      now in
  (transaction,
   mkStorage (wallets s) (mset Transaction.id (transactions s) transaction) (id + 1)).

(** POST /api/wallet/withdraw; [parsedAmount] is
    [parseFloat(amount.toString())] of the text the body carries. *)
Definition post_wallet_withdraw (s : Storage) (userId : Z) (parsedAmount : number)
  (now : Z) : Reply * Storage :=
  match getWallet s userId with
  | None => (Err 404 (Msg "Wallet not found"), s)
  | Some wallet =>
    if leb parsedAmount (finite 0)
    then (Err 400 (Msg "Amount must be greater than 0"), s)
    else if ltb (Wallet.balance wallet) parsedAmount
    then (Err 400 (Msg "Insufficient funds"), s)
    else
      match updateWalletBalance s userId (opp parsedAmount) with
      | (None, s1) => (Err 500 (Msg "Error updating wallet"), s1)
      | (Some updatedWallet, s1) =>
        let '(_, s2) :=
          createTransaction s1
            (mkInsertTransaction userId (opp parsedAmount) ty_withdrawal tx_completed
               (Some WithdrewMoney) (Some 0%Q)) now in
        (Ok 201, s2)
      end
  end.

Definition balanceOf (s : Storage) (userId : Z) : option number :=
  option_map Wallet.balance (getWallet s userId).

(** [balance >= 0], the invariant of a wallet. *)
Definition nonNegative (balance : number) : bool := leb (finite 0) balance.

End Js.

(** The ledger of a store all of whose amounts are numbers. *)
Definition numericWallet (w : Wallet.t) : Js.Wallet.t :=
  Js.Wallet.mk (Wallet.id w) (Wallet.userId w) (Js.finite (Wallet.balance w))
               (Wallet.createdAt w).

Definition numericTransaction (t : Transaction.t) : Js.Transaction.t :=
  Js.Transaction.mk (Transaction.id t) (Transaction.userId t)
    (Js.finite (Transaction.amount t)) (Transaction.type t) (Transaction.status t)
    (Transaction.description t) (Transaction.commissionAmount t)
    (Transaction.metadata t) (Transaction.createdAt t).

Definition numericLedger (s : MemStorage) : Js.Storage :=
  Js.mkStorage (map numericWallet (wallets s)) (map numericTransaction (transactions s))
               (transactionIdCounter s).

(** The completed [game_win] transactions of a user. *)
Definition prizesPaid (s : MemStorage) (userId : Z) : list Transaction.t :=
  filter
    (fun t =>
       ((Transaction.userId t =? userId)
        && TxType_eqb (Transaction.type t) ty_game_win
        && TxStatus_eqb (Transaction.status t) tx_completed)%bool)
    (transactions s).

(** Whether the wallet of a user holds [q]. *)
Definition holds (s : MemStorage) (userId : Z) (q : Q) : bool :=
  match balanceOf s userId with
  | Some b => Qeq_bool b q
  | None => false
  end.

(** * Properties *)

(** ** Maps keyed by id *)

Section IdMapFacts.

Variable T : Type.
Variable key : T -> Z.

Lemma find_append (f : T -> bool) (l1 l2 : list T) :
  find f (l1 ++ l2) = match find f l1 with Some x => Some x | None => find f l2 end.
Proof.
  induction l1 as [|a l1 IH]; simpl; [reflexivity|].
  destruct (f a); [reflexivity|exact IH].
Qed.

Lemma mget_Some_key (m : list T) (k : Z) (v : T) :
  mget key m k = Some v -> key v = k.
Proof.
  unfold mget. intros H. apply find_some in H. destruct H as [_ H]. lia.
Qed.

Lemma mget_Some_In (m : list T) (k : Z) (v : T) :
  mget key m k = Some v -> In v m.
Proof.
  unfold mget. intros H. apply find_some in H. tauto.
Qed.

Lemma mget_Some_mhas (m : list T) (k : Z) (v : T) :
  mget key m k = Some v -> mhas key m k = true.
Proof.
  intros H. unfold mhas. apply existsb_exists. exists v. split.
  - eapply mget_Some_In; eauto.
  - apply mget_Some_key in H. lia.
Qed.

Lemma mset_present (m : list T) (v : T) :
  mhas key m (key v) = true ->
  mset key m v = map (fun x => if key x =? key v then v else x) m.
Proof. unfold mset. intros ->. reflexivity. Qed.

Lemma mget_map_replace (m : list T) (v : T) (k : Z) :
  mget key (map (fun x => if key x =? key v then v else x) m) k =
  if key v =? k
  then (if mhas key m k then Some v else None)
  else mget key m k.
Proof.
  unfold mget, mhas. induction m as [|a m IH]; simpl.
  - destruct (key v =? k); reflexivity.
  - destruct (Z.eqb_spec (key a) (key v)) as [Ea|Ea];
      destruct (Z.eqb_spec (key v) k) as [Ev|Ev];
      destruct (Z.eqb_spec (key a) k) as [Ek|Ek];
      try lia; simpl; try reflexivity; exact IH.
Qed.

Lemma mget_mset_same (m : list T) (v : T) :
  mget key (mset key m v) (key v) = Some v.
Proof.
  unfold mset. destruct (mhas key m (key v)) eqn:E.
  - rewrite mget_map_replace, Z.eqb_refl, E. reflexivity.
  - unfold mget. rewrite find_append.
    replace (find (fun x => key x =? key v) m) with (@None T).
    + simpl. rewrite Z.eqb_refl. reflexivity.
    + symmetry. destruct (find (fun x => key x =? key v) m) eqn:F; [|reflexivity].
      apply mget_Some_mhas in F. congruence.
Qed.

Lemma mget_mset_other (m : list T) (v : T) (k : Z) :
  key v <> k -> mget key (mset key m v) k = mget key m k.
Proof.
  intros N. unfold mset. destruct (mhas key m (key v)).
  - rewrite mget_map_replace. destruct (key v =? k) eqn:E; [lia|reflexivity].
  - unfold mget. rewrite find_append.
    destruct (find (fun x => key x =? k) m); [reflexivity|].
    simpl. destruct (key v =? k) eqn:E; [lia|reflexivity].
Qed.

Lemma Forall_mset (P : T -> Prop) (m : list T) (v : T) :
  Forall P m -> P v -> Forall P (mset key m v).
Proof.
  intros Hm Hv. unfold mset. destruct (mhas key m (key v)).
  - apply Forall_forall. intros x Hx. apply in_map_iff in Hx.
    destruct Hx as [y [<- Hy]]. destruct (key y =? key v); [exact Hv|].
    rewrite Forall_forall in Hm. auto.
  - apply Forall_app. split; [exact Hm|]. constructor; [exact Hv|constructor].
Qed.

End IdMapFacts.

Section IdMapMore.

Variable T : Type.
Variable key : T -> Z.

Lemma mhas_In (m : list T) (v : T) : In v m -> mhas key m (key v) = true.
Proof.
  intros H. unfold mhas. apply existsb_exists. exists v. split; [exact H|lia].
Qed.

Lemma mhas_false_notin (m : list T) (k : Z) :
  mhas key m k = false -> ~ In k (map key m).
Proof.
  intros H C. apply in_map_iff in C. destruct C as [x [Hk Hx]].
  assert (mhas key m k = true) as E.
  { unfold mhas. apply existsb_exists. exists x. split; [exact Hx|lia]. }
  congruence.
Qed.

Lemma keys_replace (m : list T) (v : T) :
  map key (map (fun x => if key x =? key v then v else x) m) = map key m.
Proof.
  induction m as [|a m IH]; simpl; [reflexivity|].
  rewrite IH. destruct (Z.eqb_spec (key a) (key v)) as [E|E]; congruence.
Qed.

Lemma map_replace_absent (m : list T) (v : T) :
  ~ In (key v) (map key m) ->
  map (fun x => if key x =? key v then v else x) m = m.
Proof.
  induction m as [|a m IH]; simpl; intros H; [reflexivity|].
  destruct (Z.eqb_spec (key a) (key v)) as [E|E].
  - exfalso. apply H. left. exact E.
  - f_equal. apply IH. intros C. apply H. right. exact C.
Qed.

(** Writing a value keeps the keys distinct. *)
Lemma NoDup_keys_mset (m : list T) (v : T) :
  NoDup (map key m) -> NoDup (map key (mset key m v)).
Proof.
  intros H. unfold mset. destruct (mhas key m (key v)) eqn:E.
  - rewrite keys_replace. exact H.
  - rewrite map_app. apply NoDup_app; [exact H| |].
    + simpl. constructor; [intros []|constructor].
    + intros a Ha [<-|[]]. apply mhas_false_notin in E. contradiction.
Qed.

(** A fresh key goes last. *)
Lemma mset_fresh (m : list T) (v : T) :
  Forall (fun x => key x < key v) m -> mset key m v = m ++ [v].
Proof.
  intros H. unfold mset.
  destruct (mhas key m (key v)) eqn:E; [|reflexivity].
  unfold mhas in E. apply existsb_exists in E. destruct E as [x [Hx Hk]].
  rewrite Forall_forall in H. specialize (H x Hx). lia.
Qed.

End IdMapMore.

(** ** Comparisons on numbers *)

Lemma Qltb_true (x y : Q) : Qltb x y = true <-> (x < y)%Q.
Proof.
  unfold Qltb. rewrite negb_true_iff. split.
  - intros H. apply Qnot_le_lt. intros C. apply Qle_bool_iff in C. congruence.
  - intros H. destruct (Qle_bool y x) eqn:E; [|reflexivity].
    apply Qle_bool_iff in E. apply Qlt_not_le in H. contradiction.
Qed.

Lemma Qltb_false (x y : Q) : Qltb x y = false <-> (y <= x)%Q.
Proof.
  unfold Qltb. rewrite negb_false_iff. apply Qle_bool_iff.
Qed.

(** ** The balance-mutation primitive *)

Lemma updateWalletBalance_rejects (s : MemStorage) (userId : Z) (amount : Q) (w : Wallet.t) :
  getWallet s userId = Some w ->
  (Wallet.balance w + amount < 0)%Q ->
  updateWalletBalance s userId amount = (None, s).
Proof.
  intros Hw Hneg. unfold updateWalletBalance. rewrite Hw.
  apply Qltb_true in Hneg. rewrite Hneg. reflexivity.
Qed.

Lemma updateWalletBalance_accepts (s : MemStorage) (userId : Z) (amount : Q) (w : Wallet.t) :
  getWallet s userId = Some w ->
  (0 <= Wallet.balance w + amount)%Q ->
  let w' := Wallet.mk (Wallet.id w) (Wallet.userId w) (Wallet.balance w + amount)%Q
                      (Wallet.createdAt w) in
  updateWalletBalance s userId amount
  = (Some w', with_wallets s (mset Wallet.id (wallets s) w')).
Proof.
  intros Hw Hpos. unfold updateWalletBalance. rewrite Hw.
  apply Qltb_false in Hpos. rewrite Hpos. reflexivity.
Qed.

Lemma updateWalletBalance_missing (s : MemStorage) (userId : Z) (amount : Q) :
  getWallet s userId = None ->
  updateWalletBalance s userId amount = (None, s).
Proof. intros Hw. unfold updateWalletBalance. rewrite Hw. reflexivity. Qed.

Lemma getWallet_userId (s : MemStorage) (userId : Z) (w : Wallet.t) :
  getWallet s userId = Some w -> Wallet.userId w = userId.
Proof.
  unfold getWallet. intros H. apply find_some in H. destruct H as [_ H]. lia.
Qed.

Lemma getWallet_In (s : MemStorage) (userId : Z) (w : Wallet.t) :
  getWallet s userId = Some w -> In w (wallets s).
Proof. unfold getWallet. intros H. apply find_some in H. tauto. Qed.

Lemma getWallet_frame (s s' : MemStorage) (userId : Z) :
  wallets s' = wallets s -> getWallet s' userId = getWallet s userId.
Proof. unfold getWallet. intros ->. reflexivity. Qed.

(** After an accepted update the user's wallet is the updated one. *)
Lemma find_wallet_replaced (l : list Wallet.t) (w w' : Wallet.t) (userId : Z) :
  find (fun x => Wallet.userId x =? userId) l = Some w ->
  Wallet.id w' = Wallet.id w ->
  Wallet.userId w' = userId ->
  find (fun x => Wallet.userId x =? userId)
       (map (fun x => if Wallet.id x =? Wallet.id w' then w' else x) l) = Some w'.
Proof.
  intros Hf Hid Hu. induction l as [|a l IH]; simpl in *; [discriminate|].
  destruct (Wallet.userId a =? userId) eqn:Ea.
  - inversion Hf; subst a. rewrite <- Hid, Z.eqb_refl.
    assert ((Wallet.userId w' =? userId) = true) as -> by lia. reflexivity.
  - destruct (Wallet.id a =? Wallet.id w') eqn:Ei.
    + assert ((Wallet.userId w' =? userId) = true) as -> by lia. reflexivity.
    + rewrite Ea. apply IH. exact Hf.
Qed.

Lemma getWallet_updated (s : MemStorage) (userId : Z) (amount : Q) (w : Wallet.t) :
  getWallet s userId = Some w ->
  let w' := Wallet.mk (Wallet.id w) (Wallet.userId w) (Wallet.balance w + amount)%Q
                      (Wallet.createdAt w) in
  getWallet (with_wallets s (mset Wallet.id (wallets s) w')) userId = Some w'.
Proof.
  intros Hw w'. pose proof (getWallet_In _ _ _ Hw) as Hin.
  pose proof (getWallet_userId _ _ _ Hw) as Hu.
  unfold getWallet in *. simpl.
  rewrite mset_present.
  - apply find_wallet_replaced with (w := w); [exact Hw|reflexivity|exact Hu].
  - change (Wallet.id w') with (Wallet.id w). apply mhas_In. exact Hin.
Qed.

(** With one wallet per id, an update for one user leaves the wallet the
    store finds for another user as it was. *)
Lemma find_wallet_other (l : list Wallet.t) (w' : Wallet.t) (userId : Z) :
  NoDup (map Wallet.id l) ->
  (exists w, In w l /\ Wallet.id w = Wallet.id w' /\ Wallet.userId w = Wallet.userId w') ->
  Wallet.userId w' <> userId ->
  find (fun x => Wallet.userId x =? userId)
       (map (fun x => if Wallet.id x =? Wallet.id w' then w' else x) l)
  = find (fun x => Wallet.userId x =? userId) l.
Proof.
  intros Hnd [w [Hin [Hid Hus]]] Hne.
  induction l as [|a l IH]; simpl; [reflexivity|].
  inversion Hnd as [|? ? Hnotin Hnd']; subst.
  destruct (Z.eqb_spec (Wallet.id a) (Wallet.id w')) as [E|E].
  - assert (a = w) as ->.
    { destruct Hin as [->|Hin]; [reflexivity|].
      exfalso. apply Hnotin. rewrite E, <- Hid. apply in_map. exact Hin. }
    assert ((Wallet.userId w' =? userId) = false) as -> by lia.
    assert ((Wallet.userId w =? userId) = false) as -> by lia.
    rewrite map_replace_absent; [reflexivity|]. rewrite <- E. exact Hnotin.
  - destruct (Wallet.userId a =? userId); [reflexivity|].
    apply IH; [exact Hnd'|].
    destruct Hin as [->|Hin]; [congruence|exact Hin].
Qed.

(** ** The ledger invariant *)

Arguments createUser : simpl never.
Arguments addSubscription : simpl never.
Arguments generateReferralCode : simpl never.
Arguments addRewardPoints : simpl never.
Arguments createWallet : simpl never.
Arguments updateWalletBalance : simpl never.
Arguments createTransaction : simpl never.
Arguments updateTransactionMetadata : simpl never.
Arguments createGame : simpl never.
Arguments createGameMatch : simpl never.
Arguments updateGameMatch : simpl never.
Arguments addPlayerToMatch : simpl never.
Arguments updatePlayerMatchStatus : simpl never.
Arguments updateRewardStatus : simpl never.
Arguments createSubscriptionRewards : simpl never.
Arguments createGameSubscription : simpl never.
Arguments settlePlayerStatuses : simpl never.
Arguments getWallet : simpl never.
Arguments getGameMatch : simpl never.
Arguments getGame : simpl never.
Arguments getUser : simpl never.
Arguments getMatchPlayers : simpl never.
Arguments getPendingRewardsByDate : simpl never.
Arguments getAllTransactions : simpl never.

(** Only four primitives write the ledger; the others leave it alone. *)

Lemma ledger_createUser s u now : ledger (snd (createUser s u now)) = ledger s.
Proof. reflexivity. Qed.

Lemma ledger_addSubscription s u d now :
  ledger (snd (addSubscription s u d now)) = ledger s.
Proof. unfold addSubscription. destruct (mget _ _ _); reflexivity. Qed.

Lemma ledger_generateReferralCode s u r :
  ledger (snd (generateReferralCode s u r)) = ledger s.
Proof.
  unfold generateReferralCode. destruct (mget _ _ _) as [user|]; [|reflexivity].
  destruct (User.referralCode user) as [[|c r']|]; reflexivity.
Qed.

Lemma ledger_addRewardPoints s u p :
  ledger (snd (addRewardPoints s u p)) = ledger s.
Proof. unfold addRewardPoints. destruct (mget _ _ _); reflexivity. Qed.

Lemma ledger_createGame s g now : ledger (snd (createGame s g now)) = ledger s.
Proof. reflexivity. Qed.

Lemma ledger_createGameMatch s g e st a b c now :
  ledger (snd (createGameMatch s g e st a b c now)) = ledger s.
Proof. reflexivity. Qed.

Lemma ledger_updateGameMatch s i p :
  ledger (snd (updateGameMatch s i p)) = ledger s.
Proof. unfold updateGameMatch. destruct (mget _ _ _); reflexivity. Qed.

Lemma ledger_addPlayerToMatch s m u st now :
  ledger (snd (addPlayerToMatch s m u st now)) = ledger s.
Proof. reflexivity. Qed.

Lemma ledger_updatePlayerMatchStatus s i st :
  ledger (snd (updatePlayerMatchStatus s i st)) = ledger s.
Proof. unfold updatePlayerMatchStatus. destruct (mget _ _ _); reflexivity. Qed.

Lemma ledger_updateRewardStatus s i st p now :
  ledger (snd (updateRewardStatus s i st p now)) = ledger s.
Proof. unfold updateRewardStatus. destruct (mget _ _ _); reflexivity. Qed.

Lemma ledger_createSubscriptionRewards s rewards now :
  ledger (createSubscriptionRewards s rewards now) = ledger s.
Proof.
  unfold createSubscriptionRewards. revert s.
  induction rewards as [|r rewards IH]; intros s; simpl; [reflexivity|].
  rewrite IH. reflexivity.
Qed.

Lemma ledger_createGameSubscription s u n a r d sd ed st now :
  ledger (snd (createGameSubscription s u n a r d sd ed st now)) = ledger s.
Proof.
  unfold createGameSubscription. simpl.
  rewrite ledger_createSubscriptionRewards. reflexivity.
Qed.

Lemma ledger_settlePlayerStatuses s players winnerId :
  ledger (settlePlayerStatuses s players winnerId) = ledger s.
Proof.
  unfold settlePlayerStatuses. revert s.
  induction players as [|p players IH]; intros s; simpl; [reflexivity|].
  rewrite IH. apply ledger_updatePlayerMatchStatus.
Qed.

Lemma ledger_seedGames s now : ledger (seedGames s now) = ledger s.
Proof.
  unfold seedGames. generalize seedCatalogue. intros l. revert s.
  induction l as [|g l IH]; intros s; simpl; [reflexivity|].
  rewrite IH. reflexivity.
Qed.

Lemma ledger_fields (s s' : MemStorage) :
  ledger s' = ledger s ->
  wallets s' = wallets s /\ walletIdCounter s' = walletIdCounter s
  /\ transactions s' = transactions s
  /\ transactionIdCounter s' = transactionIdCounter s.
Proof. unfold ledger. intros H. inversion H. auto. Qed.

Lemma sound_frame (s s' : MemStorage) :
  ledger s' = ledger s -> ledgerSound s -> ledgerSound s'.
Proof.
  intros E. apply ledger_fields in E. destruct E as [E1 [E2 [E3 E4]]].
  unfold ledgerSound, walletsNonNegative, walletIdsDistinct, walletIdsIssued,
    transactionIdsIssued.
  rewrite E1, E2, E3, E4. auto.
Qed.

Lemma Forall_weaken_lt {T : Type} (key : T -> Z) (c : Z) (l : list T) :
  Forall (fun x => key x < c) l -> Forall (fun x => key x < c + 1) l.
Proof. apply Forall_impl. intros a H. lia. Qed.

Lemma updateWalletBalance_sound (s : MemStorage) (userId : Z) (amount : Q) :
  ledgerSound s -> ledgerSound (snd (updateWalletBalance s userId amount)).
Proof.
  intros H. unfold updateWalletBalance.
  destruct (getWallet s userId) as [w|] eqn:Hw; [|exact H].
  destruct (Qltb (Wallet.balance w + amount) 0) eqn:E; [exact H|].
  destruct H as [Hn [Hd [Hi Ht]]].
  pose proof (getWallet_In _ _ _ Hw) as Hin.
  unfold ledgerSound, walletsNonNegative, walletIdsDistinct, walletIdsIssued,
    transactionIdsIssued in *. simpl. repeat split.
  - apply Forall_mset; [exact Hn|]. simpl. apply Qltb_false. exact E.
  - apply NoDup_keys_mset. exact Hd.
  - apply Forall_mset; [exact Hi|]. simpl.
    rewrite Forall_forall in Hi. apply Hi. exact Hin.
  - exact Ht.
Qed.

Lemma createWallet_sound (s : MemStorage) (userId : Z) (balance : Q) (now : Z) :
  (0 <= balance)%Q ->
  ledgerSound s -> ledgerSound (snd (createWallet s userId balance now)).
Proof.
  intros Hb [Hn [Hd [Hi Ht]]].
  unfold ledgerSound, walletsNonNegative, walletIdsDistinct, walletIdsIssued,
    transactionIdsIssued, createWallet in *. simpl. repeat split.
  - apply Forall_mset; [exact Hn|exact Hb].
  - apply NoDup_keys_mset. exact Hd.
  - apply Forall_mset; [|simpl; lia]. apply Forall_weaken_lt. exact Hi.
  - exact Ht.
Qed.

Lemma createTransaction_sound (s : MemStorage) (t : InsertTransaction) (now : Z) :
  ledgerSound s -> ledgerSound (snd (createTransaction s t now)).
Proof.
  intros [Hn [Hd [Hi Ht]]].
  unfold ledgerSound, walletsNonNegative, walletIdsDistinct, walletIdsIssued,
    transactionIdsIssued, createTransaction in *. simpl. repeat split; auto.
  apply Forall_mset; [|simpl; lia].
  apply (Forall_weaken_lt Transaction.id). exact Ht.
Qed.

Lemma updateTransactionMetadata_sound (s : MemStorage) (id : Z)
  (metadata : list (string * string)) :
  ledgerSound s -> ledgerSound (snd (updateTransactionMetadata s id metadata)).
Proof.
  intros H. unfold updateTransactionMetadata.
  destruct (mget Transaction.id (transactions s) id) as [t|] eqn:Ht'; [|exact H].
  destruct H as [Hn [Hd [Hi Ht]]].
  unfold ledgerSound, walletsNonNegative, walletIdsDistinct, walletIdsIssued,
    transactionIdsIssued in *. simpl. repeat split; auto.
  apply Forall_mset; [exact Ht|]. simpl.
  rewrite Forall_forall in Ht. apply Ht. eapply mget_Some_In. exact Ht'.
Qed.

Create HintDb ledger_frame.

#[local] Hint Resolve ledger_createUser ledger_addSubscription
  ledger_generateReferralCode ledger_addRewardPoints ledger_createGame
  ledger_createGameMatch ledger_updateGameMatch ledger_addPlayerToMatch
  ledger_updatePlayerMatchStatus ledger_updateRewardStatus
  ledger_createSubscriptionRewards ledger_createGameSubscription
  ledger_settlePlayerStatuses : ledger_frame.

(** Walk back from the store a handler returns to the store it was given,
    one primitive at a time. *)
Ltac sound_back :=
  repeat match goal with
  | H : ledgerSound ?s |- ledgerSound ?s => exact H
  | |- ledgerSound (snd (updateWalletBalance _ _ _)) =>
    apply updateWalletBalance_sound
  | |- ledgerSound (snd (createWallet _ _ _ _)) =>
    apply createWallet_sound; [unfold Qle; simpl; lia|]
  | |- ledgerSound (snd (createTransaction _ _ _)) =>
    apply createTransaction_sound
  | |- ledgerSound (snd (updateTransactionMetadata _ _ _)) =>
    apply updateTransactionMetadata_sound
  | |- ledgerSound _ =>
    eapply sound_frame; [solve [eauto with ledger_frame nocore]|]
  | H : ?f = (_, ?s1) |- ledgerSound ?s1 =>
    replace s1 with (snd f) by (rewrite H; reflexivity)
  end.

Ltac split_matches :=
  repeat match goal with
  | |- context [match ?x with _ => _ end] => destruct x eqn:?
  end.

Ltac sound_solve :=
  repeat first [progress cbn [fst snd] | progress split_matches | progress sound_back].

Lemma startDeductionLoop_sound players : forall s entryAmount game matchId now,
  ledgerSound s ->
  ledgerSound (snd (startDeductionLoop s players entryAmount game matchId now)).
Proof.
  induction players as [|p players IH]; intros s e g m now H;
    cbn [startDeductionLoop]; [exact H|].
  destruct (getWallet s (PlayerMatch.userId p)) as [w|]; [|exact H].
  destruct (Qltb (Wallet.balance w) e); [exact H|].
  split_matches. apply IH. sound_back.
Qed.

Lemma autoStartDeductionLoop_sound players : forall s entryAmount game matchId now,
  ledgerSound s ->
  ledgerSound (autoStartDeductionLoop s players entryAmount game matchId now).
Proof.
  induction players as [|p players IH]; intros s e g m now H;
    cbn [autoStartDeductionLoop]; [exact H|].
  split_matches. apply IH. sound_back.
Qed.

Lemma payReward_sound s reward now :
  ledgerSound s -> ledgerSound (payReward s reward now).
Proof.
  intros H. unfold payReward. sound_solve.
Qed.

Lemma payRewards_sound rewards : forall s now,
  ledgerSound s ->
  ledgerSound (fold_left (fun st reward => payReward st reward now) rewards s).
Proof.
  induction rewards as [|r rewards IH]; intros s now H; simpl; [exact H|].
  apply IH. apply payReward_sound. exact H.
Qed.

Lemma storage_sound now : ledgerSound (storage now).
Proof.
  apply (sound_frame emptyStorage).
  - apply ledger_seedGames.
  - repeat split; constructor.
Qed.

Lemma handle_sound (s : MemStorage) (req : Request) (now : Z) :
  ledgerSound s -> ledgerSound (snd (fst (handle s req now))).
Proof.
  intros H. destruct req; cbn [handle noTimers fst snd].
  - unfold post_register. sound_solve.
  - unfold post_matches. sound_solve.
  - unfold post_matches_join. sound_solve.
  - unfold post_matches_start. sound_solve.
    all: apply startDeductionLoop_sound; exact H.
  - unfold post_matches_complete. sound_solve.
  - unfold post_wallet_deposit. sound_solve.
  - unfold post_wallet_approve_deposit. sound_solve.
  - unfold post_wallet_withdraw. sound_solve.
  - unfold post_subscriptions. sound_solve.
  - unfold post_subscription_purchase. sound_solve.
  - unfold post_admin_process_subscription_rewards. sound_solve.
    all: apply payRewards_sound; exact H.
  - unfold post_redeem_points. sound_solve.
Qed.

Lemma fire_sound (s : MemStorage) (t : Timer) (now : Z) :
  ledgerSound s -> ledgerSound (fst (fire s t now)).
Proof.
  intros H. destruct t; cbn [fire fst snd].
  - unfold aiJoinTimer. sound_solve.
  - unfold autoStartTimer. sound_solve.
    apply autoStartDeductionLoop_sound. sound_solve.
  - unfold autoCompleteTimer. sound_solve.
Qed.

Lemma step_sound (sys : System) (e : Event) :
  ledgerSound (store sys) -> ledgerSound (store (step sys e)).
Proof.
  intros H. destruct e as [req now|n now]; simpl.
  - pose proof (handle_sound (store sys) req now H) as P.
    destruct (handle (store sys) req now) as [[r s'] ts]. exact P.
  - destruct (nth_error (timers sys) n) as [t|]; [|exact H].
    pose proof (fire_sound (store sys) t now H) as P.
    destruct (fire (store sys) t now) as [s' ts]. exact P.
Qed.

Lemma run_sound (events : list Event) : forall sys,
  ledgerSound (store sys) -> ledgerSound (store (run sys events)).
Proof.
  unfold run. induction events as [|e events IH]; intros sys H; simpl; [exact H|].
  apply IH. apply step_sound. exact H.
Qed.

(** Every store the server can reach is sound. *)
Lemma reachable_sound (now : Z) (events : list Event) :
  ledgerSound (store (run (boot now) events)).
Proof. apply run_sound. apply storage_sound. Qed.

Lemma updateWalletBalance_nonneg (s : MemStorage) (userId : Z) (amount : Q) :
  walletsNonNegative s ->
  walletsNonNegative (snd (updateWalletBalance s userId amount)).
Proof.
  intros H. unfold updateWalletBalance.
  destruct (getWallet s userId) as [w|]; [|exact H].
  destruct (Qltb (Wallet.balance w + amount) 0) eqn:E; [exact H|].
  simpl. unfold walletsNonNegative. simpl.
  apply Forall_mset; [exact H|]. simpl. apply Qltb_false. exact E.
Qed.

(** As long as every amount is a number: [updateWalletBalance] reads the
    balance and adds the delta; a result below zero is rejected with
    [undefined] and the store untouched, any other result is written back
    and is what the wallet then holds; no update takes a balance below
    zero; and after every sequence of requests with numeric amounts and of
    timers, from server start, every wallet holds a balance of at least
    zero. *)
Lemma numeric_requests_keep_balances_non_negative :
  (forall (s : MemStorage) (userId : Z) (delta : Q) (w : Wallet.t),
      getWallet s userId = Some w ->
      ((Wallet.balance w + delta < 0)%Q ->
       updateWalletBalance s userId delta = (None, s))
      /\
      ((0 <= Wallet.balance w + delta)%Q ->
       exists w' s',
         updateWalletBalance s userId delta = (Some w', s')
         /\ Wallet.balance w' = (Wallet.balance w + delta)%Q
         /\ getWallet s' userId = Some w'))
  /\
  (forall (s : MemStorage) (userId : Z) (delta : Q),
      walletsNonNegative s ->
      walletsNonNegative (snd (updateWalletBalance s userId delta)))
  /\
  (forall (now : Z) (events : list Event),
      walletsNonNegative (store (run (boot now) events))).
Proof.
  split; [|split].
  - intros s userId delta w Hw. split.
    + intros Hneg. exact (updateWalletBalance_rejects s userId delta w Hw Hneg).
    + intros Hpos. eexists. eexists. split; [|split].
      * exact (updateWalletBalance_accepts s userId delta w Hw Hpos).
      * reflexivity.
      * apply getWallet_updated. exact Hw.
  - exact updateWalletBalance_nonneg.
  - intros now events. apply (reachable_sound now events).
Qed.

(** C1. Not after every sequence of operations.  The test [newBalance < 0]
    of [updateWalletBalance] is false for [NaN], and so are the guards
    [parsedAmount <= 0] and [balance < parsedAmount] of the withdraw route.
    Alice holds 1000 and asks to withdraw ["abc"], which [parseFloat] reads
    as [NaN]: the update is accepted, the route answers 201, her wallet
    holds [NaN], of which [balance >= 0] is false, and a completed
    withdrawal of [NaN] is recorded.  From then on the wallet covers any
    amount: a withdrawal of 5000 is answered 201 as well. *)
Theorem withdraw_of_a_non_number_stores_NaN :
  let s := numericLedger (store (run (boot 0) (funded 1000 1000))) in
  let result := Js.post_wallet_withdraw s 2 Js.NaN 20000 in
  (Js.balanceOf s 2 = Some (Js.finite 1000)
   /\ option_map Js.nonNegative (Js.balanceOf s 2) = Some true)
  /\ fst (Js.updateWalletBalance s 2 (Js.opp Js.NaN))
     = Some (Js.Wallet.mk 2 2 Js.NaN 2000)
  /\ fst result = Ok 201
  /\ Js.balanceOf (snd result) 2 = Some Js.NaN
  /\ option_map Js.nonNegative (Js.balanceOf (snd result) 2) = Some false
  /\ Js.transactions (snd result)
     = Js.transactions s
       ++ [Js.Transaction.mk 5 2 Js.NaN ty_withdrawal tx_completed (Some WithdrewMoney)
             (Some 0%Q) None 20000]
  /\ fst (Js.post_wallet_withdraw (snd result) 2 (Js.finite 5000) 21000) = Ok 201.
Proof. vm_compute. repeat split. Qed.

(** ** Entry fees: the manual start against the automatic start *)

(** C2. Not once per match: Alice and Bob hold 1000 each and sit with the
    automated opponent in match 1 (entry 200), whose automatic start was
    scheduled when Bob joined.  Bob starts the match by hand: 200 leaves
    each wallet and the match is in progress.  Then the timer fires: its
    body never looks at the match status, 200 leaves each wallet again,
    and each player has two completed entry-fee transactions for match 1. *)
Theorem manual_start_then_auto_start_debits_twice :
  let lobby := run (boot 0) (funded 1000 1000 ++ lobbyWithOpponent) in
  let started := run lobby [Http (StartMatch 3 1) 14000] in
  let fired := run started [Fire 0 16000] in
  (balanceOf (store lobby) 2 = Some 1000%Q
   /\ matchStatusOf (store lobby) 1 = Some waiting
   /\ List.length (timers lobby) = 1%nat)
  /\ (matchStatusOf (store started) 1 = Some in_progress
      /\ balanceOf (store started) 2 = Some 800%Q
      /\ balanceOf (store started) 3 = Some 800%Q
      /\ List.length (entryFeesCharged (store started) 2 1) = 1%nat
      /\ List.length (entryFeesCharged (store started) 3 1) = 1%nat)
  /\ (matchStatusOf (store fired) 1 = Some in_progress
      /\ balanceOf (store fired) 2 = Some 600%Q
      /\ balanceOf (store fired) 3 = Some 600%Q
      /\ List.length (entryFeesCharged (store fired) 2 1) = 2%nat
      /\ List.length (entryFeesCharged (store fired) 3 1) = 2%nat).
Proof. vm_compute. repeat split. Qed.

(** ** Reconciliation of balances and completed transactions *)

(** C3. Not on the automatic start: Alice (wallet created at 0, one approved
    deposit of 200) sits in match 1 (entry 200) and withdraws her 200 while
    the automatic start is pending; her completed transactions sum to her
    balance, 0.  The timer then asks for 200 more, the store rejects the
    update, and the timer records the completed entry-fee transaction all
    the same: the balance is still 0, the completed transactions sum to
    -200. *)
Theorem auto_start_records_rejected_deduction :
  let lobby := run (boot 0) (funded 200 200 ++ lobbyWithOpponent) in
  let withdrawn := run lobby [Http (Withdraw 2 200) 14000] in
  let fired := run withdrawn [Fire 0 16000] in
  (balanceOf (store withdrawn) 2 = Some 0%Q
   /\ completedSum (store withdrawn) 2 = 0%Q)
  /\ updateWalletBalance (store withdrawn) 2 (- (200))
     = (None, store withdrawn)
  /\ (balanceOf (store fired) 2 = Some 0%Q
      /\ completedSum (store fired) 2 = (- (200))%Q
      /\ List.length (entryFeesCharged (store fired) 2 1) = 1%nat).
Proof. vm_compute. repeat split. Qed.

(** ** The manual start is not all-or-nothing *)

(** The guards ahead of the loop answer without writing: no match, a match
    that is not waiting, fewer than two players, a requester who does not
    play. *)
Lemma start_guards_write_nothing (s : MemStorage) (matchId userId now : Z) :
  match getGameMatch s matchId with
  | None => True
  | Some m =>
    GameMatch.status m <> waiting
    \/ (List.length (getMatchPlayers s matchId) < 2)%nat
    \/ isPlayer (getMatchPlayers s matchId) userId = false
  end ->
  snd (post_matches_start s matchId userId now) = s.
Proof.
  unfold post_matches_start.
  destruct (getGameMatch s matchId) as [m|]; [|reflexivity].
  intros [H|[H|H]].
  - destruct (GameMatch.status m); try reflexivity. contradiction.
  - destruct (negb (MatchStatus_eqb (GameMatch.status m) waiting)); [reflexivity|].
    assert ((Z.of_nat (List.length (getMatchPlayers s matchId)) <? 2) = true) as ->
      by lia.
    reflexivity.
  - destruct (negb (MatchStatus_eqb (GameMatch.status m) waiting)); [reflexivity|].
    destruct (Z.of_nat (List.length (getMatchPlayers s matchId)) <? 2); [reflexivity|].
    rewrite H. reflexivity.
Qed.

(** C4. Not atomic: Alice (1000) and Bob (100 left of his 200) sit in match 1
    (entry 200).  Alice starts it: the loop charges Alice, then finds Bob
    short and answers 400.  The request failed, the match is still
    waiting, and Alice is 200 poorer with a completed entry-fee
    transaction to her name; Bob was not charged. *)
Theorem failed_start_leaves_first_player_charged :
  let lobby := store (run (boot 0) (funded 1000 200 ++ lobbyWithShortPlayer)) in
  let result := post_matches_start lobby 1 2 12000 in
  (matchStatusOf lobby 1 = Some waiting
   /\ balanceOf lobby 2 = Some 1000%Q
   /\ balanceOf lobby 3 = Some 100%Q)
  /\ fst result = Err 400 (PlayerNotEnoughBalance 3 200)
  /\ (matchStatusOf (snd result) 1 = Some waiting
      /\ balanceOf (snd result) 2 = Some 800%Q
      /\ List.length (entryFeesCharged (snd result) 2 1) = 1%nat
      /\ balanceOf (snd result) 3 = Some 100%Q
      /\ List.length (entryFeesCharged (snd result) 3 1) = 0%nat).
Proof. vm_compute. repeat split. Qed.

(** ** Commission *)

Lemma calculateCommission_zero (amount percentage : Q) (hasSubscription : bool) :
  (amount <= 0)%Q \/ (percentage <= 0)%Q ->
  calculateCommission amount percentage hasSubscription = 0%Q.
Proof.
  intros H. unfold calculateCommission.
  destruct H as [H|H]; apply Qle_bool_iff in H; rewrite H;
    [reflexivity|apply orb_true_r || (destruct (Qle_bool amount 0); reflexivity)].
Qed.

(** The server returns the raw product. *)
Lemma calculateCommission_raw (amount percentage : Q) (hasSubscription : bool) :
  (0 < amount)%Q -> (0 < percentage)%Q ->
  calculateCommission amount percentage hasSubscription
  = ((amount * (if hasSubscription then percentage * 0.75 else percentage)) / 100)%Q.
Proof.
  intros Ha Hp. unfold calculateCommission.
  assert (Qle_bool amount 0 = false) as ->.
  { destruct (Qle_bool amount 0) eqn:E; [|reflexivity].
    apply Qle_bool_iff in E. lra. }
  assert (Qle_bool percentage 0 = false) as ->.
  { destruct (Qle_bool percentage 0) eqn:E; [|reflexivity].
    apply Qle_bool_iff in E. lra. }
  reflexivity.
Qed.

(** The client helper rounds the same product to whole cents, ties up. *)
Lemma calculateGameCommission_rounds (prizePool commissionPercentage : Q)
  (hasSubscription : bool) :
  (0 < prizePool)%Q -> (0 < commissionPercentage)%Q ->
  let raw :=
    ((prizePool * (if hasSubscription then commissionPercentage * 0.75
                   else commissionPercentage)) / 100)%Q in
  exists cents : Z,
    CommissionUtils.calculateGameCommission prizePool commissionPercentage hasSubscription
    = (inject_Z cents / 100)%Q
    /\ (inject_Z cents - (1 # 2) <= raw * 100)%Q
    /\ (raw * 100 < inject_Z cents + (1 # 2))%Q.
Proof.
  intros Ha Hp raw.
  exists (Qfloor (raw * 100 + (1 # 2))).
  unfold CommissionUtils.calculateGameCommission.
  assert (Qle_bool prizePool 0 = false) as ->.
  { destruct (Qle_bool prizePool 0) eqn:E; [|reflexivity].
    apply Qle_bool_iff in E. lra. }
  assert (Qle_bool commissionPercentage 0 = false) as ->.
  { destruct (Qle_bool commissionPercentage 0) eqn:E; [|reflexivity].
    apply Qle_bool_iff in E. lra. }
  split; [reflexivity|].
  pose proof (Qfloor_le (raw * 100 + (1 # 2))) as Hlo.
  pose proof (Qlt_floor (raw * 100 + (1 # 2))) as Hhi.
  rewrite inject_Z_plus in Hhi. change (inject_Z 1) with 1%Q in Hhi.
  split; lra.
Qed.

(** C7. The commission the server applies at settlement is not rounded:
    on a prize pool of 609 at 10 percent with the subscriber discount the
    product is 45.675, its rounding to cents (ties up) is 45.68, which is
    what the client helper [calculateGameCommission] returns, and the
    server's [calculateCommission] returns 45.675. *)
Theorem server_commission_is_not_rounded :
  (calculateCommission 609 10 true == 45.675)%Q
  /\ (toFixed2 (609 * (10 * 0.75) / 100) == 45.68)%Q
  /\ (CommissionUtils.calculateGameCommission 609 10 true == 45.68)%Q
  /\ ~ (calculateCommission 609 10 true
        == CommissionUtils.calculateGameCommission 609 10 true)%Q.
Proof.
  repeat split; try (vm_compute; reflexivity).
  intros H. vm_compute in H. discriminate H.
Qed.

(** ** Subscription purchase *)

(** C8. Not [duration] rows: Alice (1000 in her wallet) buys a 7-day
    subscription at 1000 with a total reward of 6000.  [createGameSubscription]
    writes 7 pending rows of 857.14 for days 1 to 7, and the handler then
    writes 7 more of its own, of 857, for the same subscription and the same
    days: 14 rows, none of them of 6000 / 7. *)
Theorem purchase_writes_the_reward_schedule_twice :
  let s := store (run (boot 0) (funded 1000 1000)) in
  let result := post_subscriptions s 2 "Basic" 1000 6000 7 20000 in
  let rows := rewardsOfSubscription (snd result) 1 in
  rewardsOfSubscription s 1 = []
  /\ fst result = Ok 201
  /\ List.length rows = 14%nat
  /\ map SubscriptionReward.day rows = [1; 2; 3; 4; 5; 6; 7; 1; 2; 3; 4; 5; 6; 7]
  /\ forallb (fun r => RewardStatus_eqb (SubscriptionReward.status r) reward_pending) rows
     = true
  /\ forallb (fun r => Qeq_bool (SubscriptionReward.amount r) 857.14) (firstn 7 rows) = true
  /\ forallb (fun r => Qeq_bool (SubscriptionReward.amount r) 857) (skipn 7 rows) = true
  /\ ~ (857.14 == 6000 / 7)%Q
  /\ ~ (857 == 6000 / 7)%Q.
Proof.
  repeat split; try (vm_compute; reflexivity).
  - intros H. vm_compute in H. discriminate H.
  - intros H. vm_compute in H. discriminate H.
Qed.

(** ** Completing a match *)

Lemma payout_nonneg (prizePool percentage : Q) (hasSubscription : bool) :
  (0 <= prizePool)%Q -> (percentage <= 100)%Q ->
  (0 <= prizePool - calculateCommission prizePool percentage hasSubscription)%Q.
Proof.
  intros Hp Hc.
  destruct (Qlt_le_dec 0 prizePool) as [Hp'|Hp'].
  - destruct (Qlt_le_dec 0 percentage) as [Hc'|Hc'].
    + rewrite calculateCommission_raw by assumption.
      destruct hasSubscription.
      * assert (prizePool - prizePool * (percentage * 0.75) / 100
                == prizePool * ((100 - percentage * 0.75) / 100))%Q as -> by field.
        apply Qmult_le_0_compat; [lra|]. apply Qle_shift_div_l; lra.
      * assert (prizePool - prizePool * percentage / 100
                == prizePool * ((100 - percentage) / 100))%Q as -> by field.
        apply Qmult_le_0_compat; [lra|]. apply Qle_shift_div_l; lra.
    + rewrite calculateCommission_zero by (right; exact Hc'). lra.
  - rewrite calculateCommission_zero by (left; exact Hp'). lra.
Qed.

Lemma getGameMatch_updated (s : MemStorage) (matchId : Z) (m : GameMatch.t)
  (patch : GameMatchPatch) :
  getGameMatch s matchId = Some m ->
  getGameMatch (snd (updateGameMatch s matchId patch)) matchId
  = Some (applyGameMatchPatch m patch).
Proof.
  intros H. unfold getGameMatch, updateGameMatch in *. rewrite H. simpl.
  pose proof (mget_Some_key _ _ _ _ _ H) as K. subst matchId.
  apply (mget_mset_same _ GameMatch.id (gameMatches s) (applyGameMatchPatch m patch)).
Qed.

Lemma gameMatches_settlePlayerStatuses s players winnerId :
  gameMatches (settlePlayerStatuses s players winnerId) = gameMatches s.
Proof.
  unfold settlePlayerStatuses. revert s.
  induction players as [|p players IH]; intros s; simpl; [reflexivity|].
  rewrite IH. unfold updatePlayerMatchStatus. destruct (mget _ _ _); reflexivity.
Qed.

Lemma gameMatches_updateWalletBalance s u a :
  gameMatches (snd (updateWalletBalance s u a)) = gameMatches s.
Proof.
  unfold updateWalletBalance. destruct (getWallet s u); [|reflexivity].
  destruct (Qltb _ _); reflexivity.
Qed.

(** C5. Completing a match in progress: the prize pool is the entry amount
    times the number of players, the commission is [calculateCommission] of
    the pool at the game's percentage (discounted when the winner's
    subscription has not expired), the payout is the pool less the
    commission; the winner's wallet grows by exactly the payout, exactly
    one transaction is appended, a completed [game_win] of the payout that
    carries the commission, and the match is completed. *)
Theorem complete_pays_the_winner_once
  (s : MemStorage) (matchId winnerId now : Z)
  (m : GameMatch.t) (g : Game.t) (w : Wallet.t) :
  ledgerSound s ->
  getGameMatch s matchId = Some m ->
  GameMatch.status m = in_progress ->
  getGame s (GameMatch.gameId m) = Some g ->
  isPlayer (getMatchPlayers s matchId) winnerId = true ->
  getWallet s winnerId = Some w ->
  (0 <= GameMatch.entryAmount m)%Q ->
  (Game.commissionPercentage g <= 100)%Q ->
  let playerCount := inject_Z (Z.of_nat (List.length (getMatchPlayers s matchId))) in
  let prizePool := (GameMatch.entryAmount m * playerCount)%Q in
  let discount := subscriptionActive (getUser s winnerId) now in
  let commission := calculateCommission prizePool (Game.commissionPercentage g) discount in
  let payout := (prizePool - commission)%Q in
  let s' := snd (post_matches_complete s matchId winnerId now) in
  balanceOf s' winnerId = Some (Wallet.balance w + payout)%Q
  /\ transactions s'
     = transactions s
       ++ [Transaction.mk (transactionIdCounter s) winnerId payout ty_game_win
             tx_completed (Some (PrizeForWinning (Game.name g) discount))
             (Some commission) None now]
  /\ matchStatusOf s' matchId = Some completed.
Proof.
  intros Hs Hm Hst Hg Hp Hw He Hc playerCount prizePool discount commission payout s'.
  assert (0 <= payout)%Q as Hpay.
  { apply payout_nonneg; [|exact Hc].
    apply Qmult_le_0_compat; [exact He|].
    unfold playerCount. change 0%Q with (inject_Z 0). rewrite <- Zle_Qle. lia. }
  destruct Hs as [Hn [_ [_ Ht]]].
  assert (0 <= Wallet.balance w)%Q as Hb.
  { unfold walletsNonNegative in Hn. rewrite Forall_forall in Hn.
    apply Hn. eapply getWallet_In. exact Hw. }
  subst s'. unfold post_matches_complete.
  rewrite Hm, Hst. cbn [MatchStatus_eqb negb]. rewrite Hg, Hp. cbn [negb].
  fold playerCount. fold prizePool. fold discount. fold commission. fold payout.
  set (patch := mkGameMatchPatch (Some completed) (Some (Some winnerId)) None
                                 (Some (Some now))).
  destruct (updateGameMatch s matchId patch) as [o1 s1] eqn:E1.
  assert (s1 = snd (updateGameMatch s matchId patch)) as Hs1 by (rewrite E1; reflexivity).
  set (s2 := settlePlayerStatuses s1 (getMatchPlayers s matchId) winnerId).
  assert (ledger s2 = ledger s) as L2.
  { unfold s2. rewrite ledger_settlePlayerStatuses, Hs1. apply ledger_updateGameMatch. }
  apply ledger_fields in L2. destruct L2 as [Lw [_ [Lt Lc]]].
  assert (getWallet s2 winnerId = Some w) as Hw2.
  { rewrite (getWallet_frame s s2 winnerId Lw). exact Hw. }
  assert (0 <= Wallet.balance w + payout)%Q as Hacc by lra.
  rewrite (updateWalletBalance_accepts s2 winnerId payout w Hw2 Hacc).
  cbv zeta.
  set (w' := Wallet.mk (Wallet.id w) (Wallet.userId w) (Wallet.balance w + payout)%Q
                       (Wallet.createdAt w)).
  set (s3 := with_wallets s2 (mset Wallet.id (wallets s2) w')).
  unfold createTransaction. cbn [fst snd].
  change (transactionIdCounter s3) with (transactionIdCounter s2).
  change (transactions s3) with (transactions s2).
  rewrite Lc, Lt.
  split; [|split].
  - unfold balanceOf.
    match goal with
    | |- option_map _ (getWallet ?x winnerId) = _ =>
      rewrite (getWallet_frame s3 x winnerId eq_refl)
    end.
    pose proof (getWallet_updated s2 winnerId payout w Hw2) as G.
    cbv zeta in G. fold w' in G. fold s3 in G. rewrite G. reflexivity.
  - cbn [transactions with_transactions]. apply mset_fresh. exact Ht.
  - unfold matchStatusOf, getGameMatch. cbn [gameMatches with_transactions
      with_transactionIdCounter with_wallets].
    change (gameMatches s3) with (gameMatches s2).
    unfold s2. rewrite gameMatches_settlePlayerStatuses, Hs1.
    fold (getGameMatch (snd (updateGameMatch s matchId patch)) matchId).
    rewrite (getGameMatch_updated s matchId m patch Hm). reflexivity.
Qed.

(** Three players at 200 and 10 percent, no discount: the pool is 600, the
    commission 60 and Alice, the winner, is paid 540. *)
Lemma complete_three_players_at_200 :
  List.length (getMatchPlayers threePlayersInProgress 1) = 3%nat
  /\ balanceOf threePlayersInProgress 2 = Some 800%Q
  /\ exists paidTo tx,
       balanceOf (snd (post_matches_complete threePlayersInProgress 1 2 20000)) 2
       = Some paidTo
       /\ (paidTo == 800 + 540)%Q
       /\ transactions (snd (post_matches_complete threePlayersInProgress 1 2 20000))
          = transactions threePlayersInProgress ++ [tx]
       /\ Transaction.userId tx = 2
       /\ Transaction.type tx = ty_game_win
       /\ Transaction.status tx = tx_completed
       /\ (Transaction.amount tx == 540)%Q
       /\ exists c, Transaction.commissionAmount tx = Some c /\ (c == 60)%Q.
Proof.
  split; [vm_compute; reflexivity|].
  split; [vm_compute; reflexivity|].
  pose (m := GameMatch.mk 1 1 200 in_progress None (Some 14000) None 10000).
  pose (g := Game.mk 1 "Ludo Royal" 200 1000 10 true 0).
  pose (w := Wallet.mk 2 2 (0 + 1000 + - (200)) 2000).
  assert (ledgerSound threePlayersInProgress) as H0 by apply reachable_sound.
  assert (getGameMatch threePlayersInProgress 1 = Some m) as H1
    by (vm_compute; reflexivity).
  assert (GameMatch.status m = in_progress) as H2 by reflexivity.
  assert (getGame threePlayersInProgress (GameMatch.gameId m) = Some g) as H3
    by (vm_compute; reflexivity).
  assert (isPlayer (getMatchPlayers threePlayersInProgress 1) 2 = true) as H4
    by (vm_compute; reflexivity).
  assert (getWallet threePlayersInProgress 2 = Some w) as H5
    by (vm_compute; reflexivity).
  assert (0 <= GameMatch.entryAmount m)%Q as H6 by (vm_compute; discriminate).
  assert (Game.commissionPercentage g <= 100)%Q as H7 by (vm_compute; discriminate).
  destruct (complete_pays_the_winner_once threePlayersInProgress 1 2 20000 m g w
              H0 H1 H2 H3 H4 H5 H6 H7) as [Hb [Ht Hc]].
  eexists. eexists.
  split; [exact Hb|].
  split; [vm_compute; reflexivity|].
  split; [exact Ht|].
  repeat split; try (vm_compute; reflexivity).
  eexists. split; [reflexivity|vm_compute; reflexivity].
Defined.

(** A match that is not in progress is not completed, and nothing is written. *)
Lemma complete_guard (s : MemStorage) (matchId winnerId now : Z) (m : GameMatch.t) :
  getGameMatch s matchId = Some m ->
  GameMatch.status m <> in_progress ->
  post_matches_complete s matchId winnerId now
  = (Err 400 (Msg "Match is not in progress"), s).
Proof.
  intros Hm Hst. unfold post_matches_complete. rewrite Hm.
  destruct (GameMatch.status m); try reflexivity. contradiction.
Qed.

Lemma gameMatches_createTransaction s t now o s' :
  createTransaction s t now = (o, s') -> gameMatches s' = gameMatches s.
Proof. intros H. apply (f_equal snd) in H. cbn [snd] in H. subst s'. reflexivity. Qed.

Lemma gameMatches_updateWalletBalance_eq s u a o s' :
  updateWalletBalance s u a = (o, s') -> gameMatches s' = gameMatches s.
Proof.
  intros H. apply (f_equal snd) in H. cbn [snd] in H. subst s'.
  apply gameMatches_updateWalletBalance.
Qed.

(** A [complete] that comes right after a [complete] that succeeded on the
    same match, whatever winner it names, is answered 400 "Match is not in
    progress" and returns the store as it found it: no balance, no
    transaction, no match and no player row changes. *)
Lemma complete_right_after_complete_is_rejected
  (s s1 : MemStorage) (matchId winner1 winner2 now1 now2 : Z)
  (body : option GameMatch.t) :
  post_matches_complete s matchId winner1 now1 = (OkMatch 200 body, s1) ->
  post_matches_complete s1 matchId winner2 now2
  = (Err 400 (Msg "Match is not in progress"), s1).
Proof.
  intros H. unfold post_matches_complete in H.
  destruct (getGameMatch s matchId) as [m|] eqn:Hm; [|discriminate H].
  destruct (negb (MatchStatus_eqb (GameMatch.status m) in_progress)); [discriminate H|].
  destruct (getGame s (GameMatch.gameId m)) as [g|]; [|discriminate H].
  destruct (negb (isPlayer (getMatchPlayers s matchId) winner1)); [discriminate H|].
  set (patch := mkGameMatchPatch (Some completed) (Some (Some winner1)) None
                                 (Some (Some now1))) in H.
  destruct (updateGameMatch s matchId patch) as [o1 a] eqn:E1.
  destruct (updateWalletBalance _ winner1 _) as [o3 c] eqn:E3 in H.
  destruct (createTransaction c _ now1) as [o4 d] eqn:E4 in H.
  inversion H; subst d; clear H.
  apply complete_guard with (m := applyGameMatchPatch m patch).
  - unfold getGameMatch.
    rewrite (gameMatches_createTransaction _ _ _ _ _ E4).
    rewrite (gameMatches_updateWalletBalance_eq _ _ _ _ _ E3).
    rewrite gameMatches_settlePlayerStatuses.
    replace a with (snd (updateGameMatch s matchId patch)) by (rewrite E1; reflexivity).
    apply (getGameMatch_updated s matchId m patch Hm).
  - simpl. discriminate.
Qed.

(** Alice is paid for match 1; a second [complete], a second later, changes
    nothing. *)
Lemma complete_twice_pays_once :
  fst (post_matches_complete threePlayersInProgress 1 2 20000)
  = OkMatch 200
      (Some (GameMatch.mk 1 1 200 completed (Some 2) (Some 14000) (Some 20000) 10000))
  /\ post_matches_complete
       (snd (post_matches_complete threePlayersInProgress 1 2 20000)) 1 2 21000
     = (Err 400 (Msg "Match is not in progress"),
        snd (post_matches_complete threePlayersInProgress 1 2 20000)).
Proof.
  split; [vm_compute; reflexivity|].
  apply (complete_right_after_complete_is_rejected threePlayersInProgress _ 1 2 2 20000 21000
           (Some (GameMatch.mk 1 1 200 completed (Some 2) (Some 14000) (Some 20000)
                               10000))).
  vm_compute. reflexivity.
Defined.

(** C6. Not when the automatic start fires in between.  Bob starts match 1
    by hand and Alice is declared winner and paid 540, all before the
    automatic start that Bob's join scheduled is due.  When that timer
    fires, its body, which never reads the match status, puts the completed
    match back [in_progress] and charges the entry fee again.  A second
    [complete] is then answered 200 and pays Alice 540 once more: she holds
    1680 and two completed [game_win] transactions for the one match. *)
Theorem auto_start_reopens_a_completed_match :
  let started :=
    run (boot 0) (funded 1000 1000 ++ lobbyWithOpponent ++ [Http (StartMatch 3 1) 14000]) in
  let completedOnce := run started [Http (CompleteMatch 1 2) 15000] in
  let fired := run completedOnce [Fire 0 16000] in
  let second := post_matches_complete (store fired) 1 2 17000 in
  (matchStatusOf (store started) 1 = Some in_progress
   /\ holds (store started) 2 800 = true
   /\ List.length (timers started) = 1%nat)
  /\ (matchStatusOf (store completedOnce) 1 = Some completed
      /\ holds (store completedOnce) 2 1340 = true
      /\ List.length (prizesPaid (store completedOnce) 2) = 1%nat)
  /\ (matchStatusOf (store fired) 1 = Some in_progress
      /\ holds (store fired) 2 1140 = true)
  /\ (fst second
      = OkMatch 200
          (Some (GameMatch.mk 1 1 200 completed (Some 2) (Some 16000) (Some 17000) 10000))
      /\ matchStatusOf (snd second) 1 = Some completed
      /\ holds (snd second) 2 1680 = true
      /\ List.length (prizesPaid (snd second) 2) = 2%nat
      /\ List.length (transactions (snd second))
         = S (List.length (transactions (store fired)))).
Proof. vm_compute. repeat split. Qed.

(** ** Paying the rewards of a date *)

Lemma getPendingRewardsByDate_dueOn (s : MemStorage) (date : Z) :
  getPendingRewardsByDate s date = filter (dueOn s date) (subscriptionRewards s).
Proof. reflexivity. Qed.

Lemma payReward_subscriptions (s : MemStorage) (r : SubscriptionReward.t) (now : Z) :
  subscriptions (payReward s r now) = subscriptions s.
Proof.
  unfold payReward, updateRewardStatus, createTransaction, updateWalletBalance.
  destruct (getWallet s (SubscriptionReward.userId r)) as [w|];
    [destruct (Qltb _ _)|]; cbn [fst snd];
    match goal with
    | |- context [mget SubscriptionReward.id ?l ?k] =>
      destruct (mget SubscriptionReward.id l k)
    end; reflexivity.
Qed.

Lemma payReward_rewards (s : MemStorage) (r : SubscriptionReward.t) (now : Z) :
  subscriptionRewards (payReward s r now)
  = match mget SubscriptionReward.id (subscriptionRewards s) (SubscriptionReward.id r) with
    | None => subscriptionRewards s
    | Some x =>
      map (fun y => if SubscriptionReward.id y =? SubscriptionReward.id r
                    then markedPaid x now else y)
          (subscriptionRewards s)
    end.
Proof.
  assert (forall s0 : MemStorage,
             subscriptionRewards
               (snd (updateRewardStatus s0 (SubscriptionReward.id r) reward_paid None now))
             = match mget SubscriptionReward.id (subscriptionRewards s0)
                       (SubscriptionReward.id r) with
               | None => subscriptionRewards s0
               | Some x =>
                 map (fun y => if SubscriptionReward.id y =? SubscriptionReward.id r
                               then markedPaid x now else y)
                     (subscriptionRewards s0)
               end) as U.
  { intros s0. unfold updateRewardStatus.
    destruct (mget SubscriptionReward.id (subscriptionRewards s0) (SubscriptionReward.id r))
      as [x|] eqn:E; [|reflexivity].
    cbn [snd subscriptionRewards with_subscriptionRewards RewardStatus_eqb].
    fold (markedPaid x now).
    pose proof (mget_Some_key _ _ _ _ _ E) as K.
    rewrite mset_present.
    - change (SubscriptionReward.id (markedPaid x now)) with (SubscriptionReward.id x).
      rewrite K. reflexivity.
    - change (SubscriptionReward.id (markedPaid x now)) with (SubscriptionReward.id x).
      apply mhas_In. eapply mget_Some_In. exact E. }
  unfold payReward, createTransaction, updateWalletBalance.
  destruct (getWallet s (SubscriptionReward.userId r)) as [w|];
    [destruct (Qltb _ _)|]; cbn [fst snd];
    match goal with
    | |- context [updateRewardStatus ?s0 _ _ _ _] =>
      specialize (U s0); destruct (updateRewardStatus s0 _ _ _ _) as [o s3]
    end; exact U.
Qed.

Lemma dueOn_paid (s : MemStorage) (date : Z) (r : SubscriptionReward.t) :
  SubscriptionReward.status r = reward_paid -> dueOn s date r = false.
Proof.
  intros H. unfold dueOn. rewrite H.
  destruct (mget Subscription.id _ _); reflexivity.
Qed.

Lemma dueOn_frame (s s' : MemStorage) (date : Z) (r : SubscriptionReward.t) :
  subscriptions s' = subscriptions s -> dueOn s' date r = dueOn s date r.
Proof. unfold dueOn. intros ->. reflexivity. Qed.

Lemma mget_None_keys {T : Type} (key : T -> Z) (m : list T) (k : Z) (x : T) :
  mget key m k = None -> In x m -> key x <> k.
Proof.
  unfold mget. intros H Hin E.
  apply (find_none _ _ H) in Hin. lia.
Qed.

(** What the loop of a batch keeps true, [processed] being the rewards paid
    so far: the subscriptions and the ids of the reward rows are those of
    the start, and a row is either paid or an untouched row whose id the
    loop has not met. *)
Lemma payRewards_rows (processed : list SubscriptionReward.t) :
  forall (s s0 : MemStorage) (now : Z) (seen : list Z),
    subscriptions s = subscriptions s0 ->
    map SubscriptionReward.id (subscriptionRewards s)
    = map SubscriptionReward.id (subscriptionRewards s0) ->
    (forall y, In y (subscriptionRewards s) ->
               SubscriptionReward.status y = reward_paid
               \/ (In y (subscriptionRewards s0) /\ ~ In (SubscriptionReward.id y) seen)) ->
    let s' := fold_left (fun st reward => payReward st reward now) processed s in
    subscriptions s' = subscriptions s0
    /\ map SubscriptionReward.id (subscriptionRewards s')
       = map SubscriptionReward.id (subscriptionRewards s0)
    /\ (forall y, In y (subscriptionRewards s') ->
                  SubscriptionReward.status y = reward_paid
                  \/ (In y (subscriptionRewards s0)
                      /\ ~ In (SubscriptionReward.id y)
                              (seen ++ map SubscriptionReward.id processed))).
Proof.
  induction processed as [|r processed IH]; intros s s0 now seen Hsub Hids Hrows; simpl.
  - rewrite app_nil_r. auto.
  - specialize (IH (payReward s r now) s0 now (seen ++ [SubscriptionReward.id r])).
    cbv zeta in IH. rewrite <- app_assoc in IH. simpl in IH. apply IH.
    + rewrite payReward_subscriptions. exact Hsub.
    + rewrite payReward_rewards.
      destruct (mget SubscriptionReward.id (subscriptionRewards s) (SubscriptionReward.id r))
        as [x|] eqn:E; [|exact Hids].
      rewrite <- Hids.
      pose proof (mget_Some_key _ _ _ _ _ E) as K.
      rewrite <- K.
      change (SubscriptionReward.id x) with (SubscriptionReward.id (markedPaid x now)).
      apply keys_replace.
    + intros y Hy. rewrite payReward_rewards in Hy.
      destruct (mget SubscriptionReward.id (subscriptionRewards s) (SubscriptionReward.id r))
        as [x|] eqn:E.
      * apply in_map_iff in Hy. destruct Hy as [z [Hz Hin]].
        destruct (Z.eqb_spec (SubscriptionReward.id z) (SubscriptionReward.id r)) as [Ez|Ez].
        -- left. subst y. reflexivity.
        -- subst y. destruct (Hrows z Hin) as [Hp|[H0 Hn]]; [left; exact Hp|].
           right. split; [exact H0|]. intros C. apply in_app_or in C.
           destruct C as [C|[C|[]]]; [contradiction|]. apply Ez. symmetry. exact C.
      * destruct (Hrows y Hy) as [Hp|[H0 Hn]]; [left; exact Hp|].
        right. split; [exact H0|]. intros C. apply in_app_or in C.
        destruct C as [C|[C|[]]]; [contradiction|].
        apply (mget_None_keys _ _ _ y E Hy). symmetry. exact C.
Qed.

Lemma filter_nil_forall {T : Type} (f : T -> bool) (l : list T) :
  (forall x, In x l -> f x = false) -> filter f l = [].
Proof.
  induction l as [|a l IH]; intros H; simpl; [reflexivity|].
  rewrite (H a (or_introl eq_refl)). apply IH. intros x Hx. apply H. right. exact Hx.
Qed.

(** After the batch, no reward is due on that date any more. *)
Lemma nothing_due_after_batch (s : MemStorage) (date now : Z) :
  let s1 := fold_left (fun st reward => payReward st reward now)
                      (getPendingRewardsByDate s date) s in
  getPendingRewardsByDate s1 date = [].
Proof.
  intros s1.
  destruct (payRewards_rows (getPendingRewardsByDate s date) s s now []
              eq_refl eq_refl) as [Hsub [_ Hrows]].
  { intros y Hy. right. split; [exact Hy|intros []]. }
  fold s1 in Hsub, Hrows. simpl in Hrows.
  rewrite getPendingRewardsByDate_dueOn. apply filter_nil_forall.
  intros y Hy. destruct (Hrows y Hy) as [Hp|[H0 Hn]].
  - apply dueOn_paid. exact Hp.
  - rewrite (dueOn_frame s s1 date y Hsub).
    destruct (dueOn s date y) eqn:D; [|reflexivity].
    exfalso. apply Hn. apply in_map.
    rewrite getPendingRewardsByDate_dueOn. apply filter_In. split; assumption.
Qed.

(** After the batch, every reward that was due is marked paid. *)
Lemma due_rewards_paid_after_batch (s : MemStorage) (date now : Z)
  (r : SubscriptionReward.t) :
  let s1 := fold_left (fun st reward => payReward st reward now)
                      (getPendingRewardsByDate s date) s in
  In r (getPendingRewardsByDate s date) ->
  exists r', mget SubscriptionReward.id (subscriptionRewards s1) (SubscriptionReward.id r)
             = Some r'
             /\ SubscriptionReward.status r' = reward_paid.
Proof.
  intros s1 Hr.
  destruct (payRewards_rows (getPendingRewardsByDate s date) s s now []
              eq_refl eq_refl) as [Hsub [Hids Hrows]].
  { intros y Hy. right. split; [exact Hy|intros []]. }
  fold s1 in Hsub, Hids, Hrows. simpl in Hrows.
  assert (In r (subscriptionRewards s)) as Hin.
  { rewrite getPendingRewardsByDate_dueOn in Hr. apply filter_In in Hr. tauto. }
  destruct (mget SubscriptionReward.id (subscriptionRewards s1) (SubscriptionReward.id r))
    as [r'|] eqn:E.
  - exists r'. split; [reflexivity|].
    destruct (Hrows r' (mget_Some_In _ _ _ _ _ E)) as [Hp|[_ Hn]]; [exact Hp|].
    exfalso. apply Hn. rewrite (mget_Some_key _ _ _ _ _ E). apply in_map. exact Hr.
  - exfalso.
    assert (In (SubscriptionReward.id r) (map SubscriptionReward.id (subscriptionRewards s1)))
      as Hk by (rewrite Hids; apply in_map; exact Hin).
    apply in_map_iff in Hk. destruct Hk as [z [Hz Hzin]].
    exact (mget_None_keys _ _ _ z E Hzin Hz).
Qed.

Lemma payReward_wallets (s : MemStorage) (r : SubscriptionReward.t) (now : Z) :
  wallets (payReward s r now)
  = wallets (snd (updateWalletBalance s (SubscriptionReward.userId r)
                                      (SubscriptionReward.amount r))).
Proof.
  unfold payReward.
  destruct (updateWalletBalance s _ _) as [o1 s1].
  destruct (createTransaction s1 _ now) as [o2 s2] eqn:E2.
  destruct (updateRewardStatus s2 _ _ _ _) as [o3 s3] eqn:E3.
  cbn [snd].
  replace s3 with (snd (updateRewardStatus s2 (SubscriptionReward.id r) reward_paid None now))
    by (rewrite E3; reflexivity).
  pose proof (ledger_updateRewardStatus s2 (SubscriptionReward.id r) reward_paid None now) as L.
  apply ledger_fields in L. destruct L as [-> _].
  apply (f_equal snd) in E2. cbn [snd] in E2. subst s2. reflexivity.
Qed.

Lemma payReward_transactions (s : MemStorage) (r : SubscriptionReward.t) (now : Z) :
  transactionIdsIssued s ->
  transactions (payReward s r now)
  = transactions s ++ rewardTransactions (transactionIdCounter s) now [r]
  /\ transactionIdCounter (payReward s r now) = transactionIdCounter s + 1.
Proof.
  intros Hi. unfold payReward.
  destruct (updateWalletBalance s _ _) as [o1 s1] eqn:E1.
  assert (transactions s1 = transactions s /\ transactionIdCounter s1 = transactionIdCounter s)
    as [T1 C1].
  { apply (f_equal snd) in E1. cbn [snd] in E1. subst s1.
    unfold updateWalletBalance. destruct (getWallet s _); [|auto].
    destruct (Qltb _ _); auto. }
  destruct (createTransaction s1 _ now) as [o2 s2] eqn:E2.
  destruct (updateRewardStatus s2 _ _ _ _) as [o3 s3] eqn:E3.
  replace s3 with (snd (updateRewardStatus s2 (SubscriptionReward.id r) reward_paid None now))
    by (rewrite E3; reflexivity).
  pose proof (ledger_updateRewardStatus s2 (SubscriptionReward.id r) reward_paid None now) as L.
  apply ledger_fields in L. destruct L as [_ [_ [-> ->]]].
  apply (f_equal snd) in E2. cbn [snd] in E2. subst s2.
  unfold createTransaction. cbn [snd transactions transactionIdCounter with_transactions
    with_transactionIdCounter].
  rewrite T1, C1. split; [|reflexivity].
  simpl. apply mset_fresh. exact Hi.
Qed.

Lemma payRewards_transactions (due : list SubscriptionReward.t) :
  forall (s : MemStorage) (now : Z),
    transactionIdsIssued s ->
    transactions (fold_left (fun st reward => payReward st reward now) due s)
    = transactions s ++ rewardTransactions (transactionIdCounter s) now due.
Proof.
  induction due as [|r due IH]; intros s now Hi; simpl.
  - rewrite app_nil_r. reflexivity.
  - destruct (payReward_transactions s r now Hi) as [T C].
    rewrite IH.
    + rewrite T, C. simpl. rewrite <- app_assoc. reflexivity.
    + unfold transactionIdsIssued. rewrite T, C. apply Forall_app. split.
      * apply (Forall_weaken_lt Transaction.id). exact Hi.
      * simpl. constructor; [simpl; lia|constructor].
Qed.

(** A batch credits a user's wallet with the rewards of that user, once each. *)
Lemma payRewards_credit (userId : Z) (due : list SubscriptionReward.t) :
  forall (s : MemStorage) (now : Z) (w : Wallet.t),
    ledgerSound s ->
    Forall (fun r => (0 <= SubscriptionReward.amount r)%Q) due ->
    getWallet s userId = Some w ->
    exists w',
      getWallet (fold_left (fun st reward => payReward st reward now) due s) userId
      = Some w'
      /\ (Wallet.balance w' == Wallet.balance w + creditedTo userId due)%Q.
Proof.
  induction due as [|r due IH]; intros s now w Hs Ha Hw; simpl.
  - exists w. split; [exact Hw|]. unfold creditedTo. simpl. ring.
  - inversion Ha as [|? ? Har Ha']; subst.
    pose proof (payReward_sound s r now Hs) as Hs'.
    destruct (Z.eqb_spec (SubscriptionReward.userId r) userId) as [E|E].
    + (* the reward is this user's: the wallet grows by its amount *)
      assert (0 <= Wallet.balance w)%Q as Hb.
      { destruct Hs as [Hn _]. unfold walletsNonNegative in Hn.
        rewrite Forall_forall in Hn. apply Hn. eapply getWallet_In. exact Hw. }
      assert (0 <= Wallet.balance w + SubscriptionReward.amount r)%Q as Hacc by lra.
      set (w1 := Wallet.mk (Wallet.id w) (Wallet.userId w)
                   (Wallet.balance w + SubscriptionReward.amount r)%Q
                   (Wallet.createdAt w)).
      assert (getWallet (payReward s r now) userId = Some w1) as Hw1.
      { rewrite (getWallet_frame _ _ userId (payReward_wallets s r now)).
        rewrite E.
        rewrite (updateWalletBalance_accepts s userId _ w Hw Hacc). cbn [snd].
        apply getWallet_updated. exact Hw. }
      destruct (IH (payReward s r now) now w1 Hs' Ha' Hw1) as [w' [G B]].
      exists w'. split; [exact G|].
      rewrite B. unfold creditedTo. simpl.
      assert ((SubscriptionReward.userId r =? userId) = true) as -> by lia.
      simpl. unfold w1. simpl. ring.
    + (* somebody else's reward: this user's wallet is as it was *)
      assert (getWallet (payReward s r now) userId = Some w) as Hw1.
      { rewrite (getWallet_frame _ _ userId (payReward_wallets s r now)).
        unfold updateWalletBalance.
        destruct (getWallet s (SubscriptionReward.userId r)) as [wr|] eqn:Hr;
          [|exact Hw].
        destruct (Qltb _ _); [exact Hw|]. cbn [snd].
        unfold getWallet. cbn [wallets with_wallets].
        rewrite mset_present.
        - rewrite find_wallet_other; [exact Hw| | |].
          + destruct Hs as [_ [Hd _]]. exact Hd.
          + exists wr. split; [eapply getWallet_In; exact Hr|]. split; reflexivity.
          + simpl. rewrite (getWallet_userId _ _ _ Hr). exact E.
        - simpl. apply mhas_In. eapply getWallet_In. exact Hr. }
      destruct (IH (payReward s r now) now w Hs' Ha' Hw1) as [w' [G B]].
      exists w'. split; [exact G|].
      rewrite B. unfold creditedTo. simpl.
      assert ((SubscriptionReward.userId r =? userId) = false) as -> by lia.
      reflexivity.
Qed.

Lemma process_rewards_store (s : MemStorage) (date now : Z) :
  snd (post_admin_process_subscription_rewards s 1 (Some date) now)
  = fold_left (fun st reward => payReward st reward now)
              (getPendingRewardsByDate s date) s.
Proof.
  unfold post_admin_process_subscription_rewards. cbn [Z.eqb Pos.eqb negb orElse].
  destruct (getPendingRewardsByDate s date); reflexivity.
Qed.

Lemma process_rewards_reply (s : MemStorage) (date now : Z) :
  fst (post_admin_process_subscription_rewards s 1 (Some date) now)
  = OkProcessed (Z.of_nat (List.length (getPendingRewardsByDate s date))).
Proof.
  unfold post_admin_process_subscription_rewards. cbn [Z.eqb Pos.eqb negb orElse].
  destruct (getPendingRewardsByDate s date); reflexivity.
Qed.

(** C9. The batch for a date, run by the administrator on a sound store:
    it selects exactly the reward rows that are pending and whose reward
    date (start date of the subscription plus [day - 1] days) falls on the
    calendar day of [date]; it answers with their number; it appends
    exactly one completed [subscription_reward] transaction per selected
    reward; when the amounts are not negative, each wallet grows by
    exactly the selected rewards of its user; every selected reward is
    marked paid.  After it, no reward is due on that date, and a second
    run for the same date answers "processed 0" and returns the store
    as it found it. *)
Theorem rewards_of_a_date_are_paid_once (s : MemStorage) (date now later : Z) :
  ledgerSound s ->
  let due := getPendingRewardsByDate s date in
  let s1 := snd (post_admin_process_subscription_rewards s 1 (Some date) now) in
  (forall r, In r due <-> In r (subscriptionRewards s) /\ dueOn s date r = true)
  /\ fst (post_admin_process_subscription_rewards s 1 (Some date) now)
     = OkProcessed (Z.of_nat (List.length due))
  /\ transactions s1
     = transactions s ++ rewardTransactions (transactionIdCounter s) now due
  /\ (Forall (fun r => (0 <= SubscriptionReward.amount r)%Q) due ->
      forall userId w,
        getWallet s userId = Some w ->
        exists w',
          getWallet s1 userId = Some w'
          /\ (Wallet.balance w' == Wallet.balance w + creditedTo userId due)%Q)
  /\ (forall r, In r due ->
        exists r',
          mget SubscriptionReward.id (subscriptionRewards s1) (SubscriptionReward.id r)
          = Some r'
          /\ SubscriptionReward.status r' = reward_paid)
  /\ getPendingRewardsByDate s1 date = []
  /\ post_admin_process_subscription_rewards s1 1 (Some date) later
     = (OkProcessed 0, s1).
Proof.
  intros Hs due s1.
  assert (s1 = fold_left (fun st reward => payReward st reward now) due s) as E
    by apply process_rewards_store.
  assert (getPendingRewardsByDate s1 date = []) as Hnone
    by (rewrite E; apply nothing_due_after_batch).
  split; [|repeat split].
  - intros r. unfold due. rewrite getPendingRewardsByDate_dueOn. apply filter_In.
  - apply process_rewards_reply.
  - rewrite E. apply payRewards_transactions. destruct Hs as [_ [_ [_ Ht]]]. exact Ht.
  - intros Ha userId w Hw. rewrite E. apply payRewards_credit; assumption.
  - intros r Hr. rewrite E. apply due_rewards_paid_after_batch. exact Hr.
  - exact Hnone.
  - unfold post_admin_process_subscription_rewards.
    cbn [Z.eqb Pos.eqb negb orElse]. rewrite Hnone. reflexivity.
Qed.

(** On the day Alice bought her subscription the batch pays the rewards of
    day 1 once, and a second run that day pays nothing. *)
Lemma rewards_of_day_one_paid_once :
  fst (post_admin_process_subscription_rewards aliceSubscribed 1 (Some 20000000) 30000000)
  = OkProcessed 2
  /\ balanceOf aliceSubscribed 2 = Some 0%Q
  /\ (exists w',
         getWallet
           (snd (post_admin_process_subscription_rewards aliceSubscribed 1
                   (Some 20000000) 30000000)) 2 = Some w'
         /\ (Wallet.balance w' == 857.14 + 857)%Q)
  /\ post_admin_process_subscription_rewards
       (snd (post_admin_process_subscription_rewards aliceSubscribed 1
               (Some 20000000) 30000000))
       1 (Some 20000000) 40000000
     = (OkProcessed 0,
        snd (post_admin_process_subscription_rewards aliceSubscribed 1
               (Some 20000000) 30000000)).
Proof.
  assert (ledgerSound aliceSubscribed) as H0 by apply reachable_sound.
  destruct (rewards_of_a_date_are_paid_once aliceSubscribed 20000000 30000000 40000000 H0)
    as [_ [Hreply [_ [Hcredit [_ [_ Hagain]]]]]].
  split; [vm_compute; reflexivity|].
  split; [vm_compute; reflexivity|].
  split; [|exact Hagain].
  destruct (Hcredit) with (userId := 2) (w := Wallet.mk 2 2 (0 + 1000 + - (1000)) 2000)
    as [w' [G B]].
  - vm_compute. repeat constructor; discriminate.
  - vm_compute. reflexivity.
  - exists w'. split; [exact G|]. rewrite B. vm_compute. reflexivity.
Defined.

(** ** The bounded message history *)

Lemma mostRecent_app {A : Type} (n : nat) (a b : list A) :
  mostRecent n (mostRecent n a ++ b) = mostRecent n (a ++ b).
Proof.
  unfold mostRecent.
  destruct (Nat.le_gt_cases (List.length a) n) as [H|H].
  - replace (List.length a - n)%nat with 0%nat by lia. reflexivity.
  - rewrite !length_app, length_skipn.
    replace (List.length a - (List.length a - n) + List.length b - n)%nat
      with (List.length b) by lia.
    replace (List.length a + List.length b - n)%nat
      with (List.length b + (List.length a - n))%nat by lia.
    rewrite <- skipn_skipn.
    f_equal. rewrite skipn_app.
    replace (List.length a - n - List.length a)%nat with 0%nat by lia.
    reflexivity.
Qed.

Lemma mostRecent_length {A : Type} (n : nat) (l : list A) :
  List.length (mostRecent n l) = Nat.min (List.length l) n.
Proof. unfold mostRecent. rewrite length_skipn. lia. Qed.

Lemma mostRecent_short {A : Type} (n : nat) (l : list A) :
  (List.length l <= n)%nat -> mostRecent n l = l.
Proof.
  intros H. unfold mostRecent.
  replace (List.length l - n)%nat with 0%nat by lia. reflexivity.
Qed.

Lemma chat_get_set_same (h : Chat.History) (room : string) (v : list Chat.Message) :
  Chat.get (Chat.set h room v) room = Some v.
Proof.
  unfold Chat.get, Chat.set, Chat.has.
  destruct (existsb (fun e => String.eqb (fst e) room) h) eqn:E.
  - induction h as [|[k x] h IH]; simpl in *; [discriminate|].
    destruct (String.eqb k room) eqn:Ek; simpl.
    + rewrite String.eqb_refl. reflexivity.
    + rewrite Ek. apply IH. exact E.
  - induction h as [|[k x] h IH]; simpl in *.
    + rewrite String.eqb_refl. reflexivity.
    + destruct (String.eqb k room) eqn:Ek; simpl in *; [discriminate|].
      apply IH. exact E.
Qed.

Lemma chat_get_set_other (h : Chat.History) (room other : string)
  (v : list Chat.Message) :
  room <> other -> Chat.get (Chat.set h room v) other = Chat.get h other.
Proof.
  intros N. apply String.eqb_neq in N.
  unfold Chat.get, Chat.set, Chat.has.
  destruct (existsb (fun e => String.eqb (fst e) room) h).
  - induction h as [|[k x] h IH]; simpl; [reflexivity|].
    destruct (String.eqb k room) eqn:Ek; simpl.
    + rewrite N. apply String.eqb_eq in Ek. subst k. rewrite N. exact IH.
    + destruct (String.eqb k other); [reflexivity|exact IH].
  - induction h as [|[k x] h IH]; simpl.
    + rewrite N. reflexivity.
    + destruct (String.eqb k other); [reflexivity|exact IH].
Qed.

(** One ['sendMessage'] event, seen from a room. *)
Lemma sendMessage_history (h : Chat.History) (d : Chat.SendData) (room : string) :
  (List.length (Chat.getMessageHistory h room) <= 100)%nat ->
  Chat.getMessageHistory (fst (Chat.sendMessage h d)) room
  = mostRecent 100 (Chat.getMessageHistory h room ++ acceptedFor room [d]).
Proof.
  intros Hlen. unfold Chat.sendMessage, acceptedFor. simpl.
  destruct (Chat.isEmpty (Chat.sd_content d)); simpl.
  { rewrite app_nil_r. symmetry. apply mostRecent_short. exact Hlen. }
  destruct (Chat.isEmpty (Chat.sd_roomId d)); simpl.
  { rewrite app_nil_r. symmetry. apply mostRecent_short. exact Hlen. }
  destruct (String.eqb_spec (Chat.sd_roomId d) room) as [E|E]; simpl.
  - subst room. unfold Chat.getMessageHistory in *.
    destruct (Chat.get h (Chat.sd_roomId d)) as [history|] eqn:G.
    + rewrite chat_get_set_same.
      destruct (100 <=? Z.of_nat (List.length history)) eqn:L.
      * assert (List.length history = 100%nat) as L100 by lia.
        destruct history as [|m0 history]; [discriminate L100|].
        unfold mostRecent.
        replace (List.length ((m0 :: history) ++ [Chat.messageOf d]) - 100)%nat
          with 1%nat by (rewrite length_app; simpl in *; lia).
        reflexivity.
      * symmetry. apply mostRecent_short. rewrite length_app. simpl. lia.
    + rewrite chat_get_set_same. reflexivity.
  - unfold Chat.getMessageHistory in *.
    assert (Chat.get
              match Chat.get h (Chat.sd_roomId d) with
              | Some history =>
                Chat.set h (Chat.sd_roomId d)
                  ((if 100 <=? Z.of_nat (List.length history)
                    then Chat.shift history else history) ++ [Chat.messageOf d])
              | None => Chat.set h (Chat.sd_roomId d) [Chat.messageOf d]
              end room = Chat.get h room) as ->.
    { destruct (Chat.get h (Chat.sd_roomId d)); apply chat_get_set_other; exact E. }
    rewrite app_nil_r. symmetry. apply mostRecent_short. exact Hlen.
Qed.

Lemma acceptedFor_cons (room : string) (d : Chat.SendData) (sends : list Chat.SendData) :
  acceptedFor room (d :: sends) = acceptedFor room [d] ++ acceptedFor room sends.
Proof.
  unfold acceptedFor. simpl.
  destruct (negb (Chat.isEmpty (Chat.sd_content d))
            && negb (Chat.isEmpty (Chat.sd_roomId d))
            && String.eqb (Chat.sd_roomId d) room)%bool; reflexivity.
Qed.

(** C10. For every room whose history holds at most 100 messages (as every
    history the handler builds does), after any sequence of ['sendMessage']
    events the history of the room is the most recent 100 of the earlier
    history followed by the messages sent to the room, in sending order;
    its length is the smaller of their number and 100. *)
Theorem history_keeps_the_most_recent_hundred
  (h : Chat.History) (room : string) (sends : list Chat.SendData) :
  (List.length (Chat.getMessageHistory h room) <= 100)%nat ->
  Chat.getMessageHistory (Chat.sendAll h sends) room
  = mostRecent 100 (Chat.getMessageHistory h room ++ acceptedFor room sends)
  /\ List.length (Chat.getMessageHistory (Chat.sendAll h sends) room)
     = Nat.min (List.length (Chat.getMessageHistory h room)
                + List.length (acceptedFor room sends)) 100.
Proof.
  intros Hlen.
  assert (Chat.getMessageHistory (Chat.sendAll h sends) room
          = mostRecent 100 (Chat.getMessageHistory h room ++ acceptedFor room sends)) as E.
  { revert h Hlen. induction sends as [|d sends IH]; intros h Hlen.
    - unfold acceptedFor. simpl. rewrite app_nil_r. symmetry.
      apply mostRecent_short. exact Hlen.
    - unfold Chat.sendAll. simpl. fold (Chat.sendAll (fst (Chat.sendMessage h d)) sends).
      rewrite IH.
      + rewrite (sendMessage_history h d room Hlen).
        rewrite mostRecent_app, <- app_assoc, <- acceptedFor_cons. reflexivity.
      + rewrite (sendMessage_history h d room Hlen), mostRecent_length. lia. }
  split; [exact E|].
  rewrite E, mostRecent_length, length_app. reflexivity.
Qed.

(** One message to the empty global room leaves that message; 101 messages
    leave the last 100. *)
Lemma one_message_and_a_hundred_and_one :
  Chat.getMessageHistory (Chat.sendAll Chat.initialHistory [aliceSays 1]) "global"
  = [Chat.messageOf (aliceSays 1)]
  /\ Chat.getMessageHistory
       (Chat.sendAll Chat.initialHistory (map aliceSays (seq 1 101))) "global"
     = map Chat.messageOf (map aliceSays (seq 2 100))
  /\ List.length
       (Chat.getMessageHistory
          (Chat.sendAll Chat.initialHistory (map aliceSays (seq 1 101))) "global")
     = 100%nat.
Proof.
  assert (List.length (Chat.getMessageHistory Chat.initialHistory "global") <= 100)%nat
    as H0 by (vm_compute; lia).
  destruct (history_keeps_the_most_recent_hundred Chat.initialHistory "global"
              [aliceSays 1] H0) as [E1 _].
  destruct (history_keeps_the_most_recent_hundred Chat.initialHistory "global"
              (map aliceSays (seq 1 101)) H0) as [E2 L2].
  split; [rewrite E1; vm_compute; reflexivity|].
  split; [rewrite E2; vm_compute; reflexivity|].
  rewrite L2. vm_compute. reflexivity.
Defined.

(** * Further properties of the handlers *)

(** ** Joining a match *)


(** X1. Whatever the request and whatever its outcome, joining a match
    writes no wallet and no transaction: the ledger after the handler is
    the ledger before it. *)
Theorem join_never_moves_money (s : MemStorage) (matchId userId now : Z) :
  ledger (snd (fst (post_matches_join s matchId userId now))) = ledger s.
Proof.
  unfold post_matches_join.
  destruct (getGameMatch s matchId) as [m|]; [|reflexivity].
  destruct (negb (MatchStatus_eqb (GameMatch.status m) waiting)); [reflexivity|].
  destruct (isPlayer (getMatchPlayers s matchId) userId); [reflexivity|].
  destruct (getWallet s userId) as [w|]; [|reflexivity].
  destruct (Qltb (Wallet.balance w) 200); [reflexivity|].
  destruct (Qltb (Wallet.balance w) (GameMatch.entryAmount m)); reflexivity.
Qed.




(** ** Starting a match by hand *)

Lemma updateWalletBalance_other (s : MemStorage) (payer userId : Z) (amount : Q) :
  walletIdsDistinct s ->
  payer <> userId ->
  getWallet (snd (updateWalletBalance s payer amount)) userId = getWallet s userId.
Proof.
  intros Hd Hne. unfold updateWalletBalance.
  destruct (getWallet s payer) as [wp|] eqn:Hp; [|reflexivity].
  destruct (Qltb _ _); [reflexivity|]. cbn [snd].
  unfold getWallet. cbn [wallets with_wallets].
  rewrite mset_present.
  - apply find_wallet_other.
    + exact Hd.
    + exists wp. split; [eapply getWallet_In; exact Hp|]. split; reflexivity.
    + simpl. rewrite (getWallet_userId _ _ _ Hp). exact Hne.
  - simpl. apply mhas_In. eapply getWallet_In. exact Hp.
Qed.

Lemma store_of_pair {A : Type} (f : A * MemStorage) (a : A) (s' : MemStorage) :
  f = (a, s') -> s' = snd f.
Proof. intros ->. reflexivity. Qed.

(** What a start loop that runs to its end has done. *)
Lemma startDeductionLoop_done (players : list PlayerMatch.t) :
  forall (s s' : MemStorage) (entryAmount : Q) (game : Game.t) (matchId now : Z),
    ledgerSound s ->
    startDeductionLoop s players entryAmount game matchId now = (None, s') ->
    ledgerSound s'
    /\ gameMatches s' = gameMatches s
    /\ transactions s'
       = transactions s
         ++ entryFeeTransactions (transactionIdCounter s) now entryAmount
              (Game.name game) matchId players
    /\ transactionIdCounter s'
       = transactionIdCounter s + Z.of_nat (List.length players)
    /\ forall userId w,
         getWallet s userId = Some w ->
         exists w',
           getWallet s' userId = Some w'
           /\ (Wallet.balance w'
               == Wallet.balance w - entryAmount * inject_Z (seatsOf userId players))%Q.
Proof.
  induction players as [|p players IH]; intros s s' e g m now Hs H;
    cbn [startDeductionLoop] in H.
  - inversion H; subst s'.
    split; [exact Hs|]. split; [reflexivity|]. split; [|split].
    + simpl. rewrite app_nil_r. reflexivity.
    + simpl. lia.
    + intros u w Hw. exists w. split; [exact Hw|].
      unfold seatsOf. simpl. ring.
  - destruct (getWallet s (PlayerMatch.userId p)) as [wp|] eqn:Hp; [|discriminate H].
    destruct (Qltb (Wallet.balance wp) e) eqn:Hlt; [discriminate H|].
    apply Qltb_false in Hlt.
    assert (0 <= Wallet.balance wp + - e)%Q as Hacc by lra.
    pose proof (updateWalletBalance_accepts s (PlayerMatch.userId p) (- e) wp Hp Hacc) as U.
    cbv zeta in U.
    set (wp' := Wallet.mk (Wallet.id wp) (Wallet.userId wp) (Wallet.balance wp + - e)%Q
                          (Wallet.createdAt wp)) in U.
    set (s1 := with_wallets s (mset Wallet.id (wallets s) wp')) in U.
    rewrite U in H.
    assert (ledgerSound s1) as Hs1.
    { replace s1 with (snd (updateWalletBalance s (PlayerMatch.userId p) (- e)))
        by (rewrite U; reflexivity).
      apply updateWalletBalance_sound. exact Hs. }
    destruct (createTransaction s1
                (entryFeeTransaction (PlayerMatch.userId p) e (Game.name g) m) now)
      as [t s2] eqn:E2.
    pose proof (store_of_pair _ _ _ E2) as Hs2eq.
    assert (ledgerSound s2) as Hs2
      by (rewrite Hs2eq; apply createTransaction_sound; exact Hs1).
    destruct (IH s2 s' e g m now Hs2 H) as [Hs' [Hgm [Htx [Hc Hbal]]]].
    assert (transactions s2
            = transactions s
              ++ [Transaction.mk (transactionIdCounter s) (PlayerMatch.userId p) (- e)
                    ty_game_entry tx_completed (Some (EntryFeeFor (Game.name g) m))
                    (Some 0%Q) None now]
            /\ transactionIdCounter s2 = transactionIdCounter s + 1
            /\ wallets s2 = wallets s1 /\ gameMatches s2 = gameMatches s) as [T2 [C2 [W2 G2]]].
    { rewrite Hs2eq. unfold createTransaction, entryFeeTransaction.
      cbn [snd transactions transactionIdCounter wallets gameMatches with_transactions
        with_transactionIdCounter it_userId it_amount it_type it_status it_description
        it_commissionAmount].
      repeat split. apply mset_fresh. destruct Hs as [_ [_ [_ Ht]]]. exact Ht. }
    split; [exact Hs'|]. split; [rewrite Hgm; exact G2|].
    split; [rewrite Htx, T2, C2, <- app_assoc; reflexivity|].
    split; [rewrite Hc, C2; cbn [List.length]; lia|].
    intros u w Hw.
    destruct (Z.eqb_spec (PlayerMatch.userId p) u) as [E|E].
    + subst u. rewrite Hp in Hw. inversion Hw; subst w.
      assert (getWallet s2 (PlayerMatch.userId p) = Some wp') as Hw2.
      { rewrite (getWallet_frame s1 s2 _ W2).
        apply (getWallet_updated s (PlayerMatch.userId p) (- e) wp Hp). }
      destruct (Hbal _ _ Hw2) as [w' [G B]].
      exists w'. split; [exact G|]. rewrite B. unfold seatsOf, wp'.
      cbn [filter Wallet.balance]. rewrite Z.eqb_refl. cbn [List.length].
      rewrite Nat2Z.inj_succ, <- Z.add_1_r, inject_Z_plus. simpl (inject_Z 1). ring.
    + assert (getWallet s2 u = Some w) as Hw2.
      { rewrite (getWallet_frame s1 s2 _ W2).
        replace s1 with (snd (updateWalletBalance s (PlayerMatch.userId p) (- e)))
          by (rewrite U; reflexivity).
        rewrite updateWalletBalance_other; [exact Hw| |exact E].
        destruct Hs as [_ [Hd _]]. exact Hd. }
      destruct (Hbal _ _ Hw2) as [w' [G B]].
      exists w'. split; [exact G|]. rewrite B. unfold seatsOf.
      cbn [filter]. assert ((PlayerMatch.userId p =? u) = false) as -> by lia.
      reflexivity.
Qed.

Lemma startDeductionLoop_gameMatches (players : list PlayerMatch.t) :
  forall (s : MemStorage) (entryAmount : Q) (game : Game.t) (matchId now : Z),
    gameMatches (snd (startDeductionLoop s players entryAmount game matchId now))
    = gameMatches s.
Proof.
  induction players as [|p players IH]; intros s e g m now;
    cbn [startDeductionLoop]; [reflexivity|].
  destruct (getWallet s (PlayerMatch.userId p)) as [w|]; [|reflexivity].
  destruct (Qltb (Wallet.balance w) e); [reflexivity|].
  destruct (updateWalletBalance s (PlayerMatch.userId p) (- e)) as [o s1] eqn:E1.
  destruct (createTransaction s1 _ now) as [t s2] eqn:E2.
  rewrite IH.
  rewrite (gameMatches_createTransaction _ _ _ _ _ E2).
  apply (gameMatches_updateWalletBalance_eq _ _ _ _ _ E1).
Qed.

(** The loop only ever returns early with an error. *)
Lemma startDeductionLoop_early_return (players : list PlayerMatch.t) :
  forall (s s1 : MemStorage) (entryAmount : Q) (game : Game.t) (matchId now : Z)
         (r : Reply),
    startDeductionLoop s players entryAmount game matchId now = (Some r, s1) ->
    exists message, r = Err 400 message.
Proof.
  induction players as [|p players IH]; intros s s1 e g m now r E;
    cbn [startDeductionLoop] in E; [discriminate E|].
  destruct (getWallet s (PlayerMatch.userId p)) as [w|].
  - destruct (Qltb (Wallet.balance w) e).
    + inversion E. eexists. reflexivity.
    + destruct (updateWalletBalance s _ _) as [o a].
      destruct (createTransaction a _ now) as [t b].
      exact (IH _ _ _ _ _ _ _ E).
  - inversion E. eexists. reflexivity.
Qed.

Lemma start_success_inv (s s' : MemStorage) (matchId userId now : Z)
  (body : option GameMatch.t) :
  post_matches_start s matchId userId now = (OkMatch 200 body, s') ->
  exists m g s1,
    getGameMatch s matchId = Some m
    /\ GameMatch.status m = waiting
    /\ (2 <= List.length (getMatchPlayers s matchId))%nat
    /\ isPlayer (getMatchPlayers s matchId) userId = true
    /\ getGame s (GameMatch.gameId m) = Some g
    /\ startDeductionLoop s (getMatchPlayers s matchId) (GameMatch.entryAmount m) g
         matchId now = (None, s1)
    /\ s' = snd (updateGameMatch s1 matchId
                   (mkGameMatchPatch (Some in_progress) None (Some (Some now)) None))
    /\ body = getGameMatch s' matchId.
Proof.
  unfold post_matches_start.
  destruct (getGameMatch s matchId) as [m|]; [|discriminate].
  destruct (GameMatch.status m) eqn:St; cbn [MatchStatus_eqb negb]; try discriminate.
  destruct (Z.of_nat (List.length (getMatchPlayers s matchId)) <? 2) eqn:L;
    [discriminate|].
  destruct (isPlayer (getMatchPlayers s matchId) userId) eqn:P; cbn [negb];
    [|discriminate].
  destruct (getGame s (GameMatch.gameId m)) as [g|] eqn:Hg; [|discriminate].
  destruct (startDeductionLoop s (getMatchPlayers s matchId) (GameMatch.entryAmount m) g
              matchId now) as [[r|] s1] eqn:E.
  - intros H. exfalso.
    destruct (startDeductionLoop_early_return _ _ _ _ _ _ _ _ E) as [msg ->].
    discriminate H.
  - destruct (updateGameMatch s1 matchId _) as [o s2] eqn:E2.
    intros H. inversion H; subst. exists m, g, s1.
    repeat split; try assumption; try reflexivity; try lia.
    rewrite E2. reflexivity.
Qed.

(** X3. A manual start that succeeds has charged every seat of the match
    once: it appends exactly one completed [game_entry] transaction of minus
    the entry amount per player row, every wallet is lower by the entry
    amount times the rows of its user (so by exactly the entry amount for a
    user seated once, and not at all for an outsider), and the match is in
    progress with the request time as start time. *)
Theorem manual_start_charges_every_seat_once
  (s s' : MemStorage) (matchId userId now : Z) (body : option GameMatch.t) :
  ledgerSound s ->
  post_matches_start s matchId userId now = (OkMatch 200 body, s') ->
  exists m g,
    getGameMatch s matchId = Some m
    /\ GameMatch.status m = waiting
    /\ getGame s (GameMatch.gameId m) = Some g
    /\ transactions s'
       = transactions s
         ++ entryFeeTransactions (transactionIdCounter s) now (GameMatch.entryAmount m)
              (Game.name g) matchId (getMatchPlayers s matchId)
    /\ (forall u w,
          getWallet s u = Some w ->
          exists w',
            getWallet s' u = Some w'
            /\ (Wallet.balance w'
                == Wallet.balance w
                   - GameMatch.entryAmount m
                     * inject_Z (seatsOf u (getMatchPlayers s matchId)))%Q)
    /\ getGameMatch s' matchId
       = Some (applyGameMatchPatch m
                 (mkGameMatchPatch (Some in_progress) None (Some (Some now)) None))
    /\ body = getGameMatch s' matchId.
Proof.
  intros Hs H.
  destruct (start_success_inv _ _ _ _ _ _ H)
    as [m [g [s1 [Hm [St [_ [_ [Hg [Hloop [Hs' Hbody]]]]]]]]]].
  destruct (startDeductionLoop_done _ _ _ _ _ _ _ Hs Hloop)
    as [_ [Hgm [Htx [_ Hbal]]]].
  set (patch := mkGameMatchPatch (Some in_progress) None (Some (Some now)) None) in *.
  pose proof (ledger_updateGameMatch s1 matchId patch) as L.
  rewrite <- Hs' in L. apply ledger_fields in L. destruct L as [Lw [_ [Lt _]]].
  exists m, g. repeat split; try assumption.
  - rewrite Lt. exact Htx.
  - intros u w Hw. destruct (Hbal u w Hw) as [w' [G B]].
    exists w'. split; [|exact B]. rewrite (getWallet_frame s1 s' u Lw). exact G.
  - rewrite Hs'. apply getGameMatch_updated.
    unfold getGameMatch. rewrite Hgm. exact Hm.
Qed.

(** Three players at 200: Bob's start takes 200 from Alice, from Bob and
    from the automated opponent and writes three entry-fee transactions. *)
Lemma start_three_players_at_200 :
  exists s' body,
    post_matches_start threePlayersWaiting 1 3 14000 = (OkMatch 200 body, s')
    /\ List.length (transactions s')
       = (List.length (transactions threePlayersWaiting) + 3)%nat
    /\ (exists w, getWallet s' 2 = Some w /\ (Wallet.balance w == 1000 - 200)%Q)
    /\ (exists w, getWallet s' 3 = Some w /\ (Wallet.balance w == 1000 - 200)%Q)
    /\ (exists w, getWallet s' 4 = Some w /\ (Wallet.balance w == 10000 - 200)%Q)
    /\ (exists w, getWallet s' 1 = Some w /\ (Wallet.balance w == 0)%Q).
Proof.
  destruct (post_matches_start threePlayersWaiting 1 3 14000) as [r s'] eqn:E.
  assert (r = OkMatch 200
                (Some (GameMatch.mk 1 1 200 in_progress None (Some 14000) None 10000))) as Hr.
  { apply (f_equal fst) in E. cbn [fst] in E. rewrite <- E. vm_compute. reflexivity. }
  subst r.
  assert (ledgerSound threePlayersWaiting) as H0 by apply reachable_sound.
  destruct (manual_start_charges_every_seat_once _ _ _ _ _ _ H0 E)
    as [m [g [Hm [_ [Hg [Htx [Hbal _]]]]]]].
  assert (m = GameMatch.mk 1 1 200 waiting None None None 10000) as ->.
  { assert (getGameMatch threePlayersWaiting 1
            = Some (GameMatch.mk 1 1 200 waiting None None None 10000)) as C
      by (vm_compute; reflexivity).
    rewrite C in Hm. inversion Hm. reflexivity. }
  exists s', (Some (GameMatch.mk 1 1 200 in_progress None (Some 14000) None 10000)).
  split; [reflexivity|].
  split; [rewrite Htx, length_app; f_equal|].
  split; [|split; [|split]].
  - destruct (Hbal 2 (Wallet.mk 2 2 (0 + 1000) 2000)) as [w [G B]];
      [vm_compute; reflexivity|].
    exists w. split; [exact G|]. rewrite B. vm_compute. reflexivity.
  - destruct (Hbal 3 (Wallet.mk 3 3 (0 + 1000) 3000)) as [w [G B]];
      [vm_compute; reflexivity|].
    exists w. split; [exact G|]. rewrite B. vm_compute. reflexivity.
  - destruct (Hbal 4 (Wallet.mk 4 4 10000 10000)) as [w [G B]];
      [vm_compute; reflexivity|].
    exists w. split; [exact G|]. rewrite B. vm_compute. reflexivity.
  - destruct (Hbal 1 (Wallet.mk 1 1 0 1000)) as [w [G B]];
      [vm_compute; reflexivity|].
    exists w. split; [exact G|]. rewrite B. vm_compute. reflexivity.
Defined.

(** X4. A match that was started by hand takes no more players: every later
    join, by any user, is answered 400 "Match is no longer accepting
    players", schedules no timer and returns the store as it found it. *)
Theorem no_join_after_manual_start
  (s s' : MemStorage) (matchId userId joiner now later : Z) (body : option GameMatch.t) :
  post_matches_start s matchId userId now = (OkMatch 200 body, s') ->
  post_matches_join s' matchId joiner later
  = (Err 400 (Msg "Match is no longer accepting players"), s', []).
Proof.
  intros H.
  destruct (start_success_inv _ _ _ _ _ _ H)
    as [m [g [s1 [Hm [St [_ [_ [Hg [Hloop [Hs' Hbody]]]]]]]]]].
  assert (getGameMatch s1 matchId = Some m) as Hm1.
  { unfold getGameMatch. rewrite (store_of_pair _ _ _ Hloop).
    rewrite startDeductionLoop_gameMatches. exact Hm. }
  unfold post_matches_join. rewrite Hs'.
  rewrite (getGameMatch_updated s1 matchId m _ Hm1). reflexivity.
Qed.

(** Once Bob has started match 1, the administrator cannot join it. *)
Lemma admin_cannot_join_started_match :
  post_matches_join (snd (post_matches_start threePlayersWaiting 1 3 14000)) 1 1 15000
  = (Err 400 (Msg "Match is no longer accepting players"),
     snd (post_matches_start threePlayersWaiting 1 3 14000), []).
Proof.
  apply (no_join_after_manual_start threePlayersWaiting _ 1 3 1 14000 15000
           (Some (GameMatch.mk 1 1 200 in_progress None (Some 14000) None 10000))).
  vm_compute. reflexivity.
Defined.

(** ** Withdrawals, deposit requests and approvals *)

Lemma createTransaction_appends (s : MemStorage) (t : InsertTransaction) (now : Z) :
  transactionIdsIssued s ->
  transactions (snd (createTransaction s t now))
  = transactions s ++ [fst (createTransaction s t now)].
Proof.
  intros H. unfold createTransaction. cbn [fst snd transactions with_transactions].
  apply mset_fresh. exact H.
Qed.

Lemma Qle_bool_false (x y : Q) : Qle_bool x y = false <-> (y < x)%Q.
Proof.
  split.
  - intros H. apply Qnot_le_lt. intros C. apply Qle_bool_iff in C. congruence.
  - intros H. destruct (Qle_bool x y) eqn:E; [|reflexivity].
    apply Qle_bool_iff in E. lra.
Qed.

(** *** The withdraw route on every value [parseFloat] can answer *)

Lemma map_mset {A B : Type} (keyA : A -> Z) (keyB : B -> Z) (f : A -> B)
  (l : list A) (v : A) :
  (forall x, keyB (f x) = keyA x) ->
  map f (mset keyA l v) = mset keyB (map f l) (f v).
Proof.
  intros Hk. unfold mset.
  assert (mhas keyB (map f l) (keyB (f v)) = mhas keyA l (keyA v)) as ->.
  { unfold mhas. rewrite Hk. induction l as [|a l IH]; simpl; [reflexivity|].
    rewrite Hk, IH. reflexivity. }
  destruct (mhas keyA l (keyA v)).
  - rewrite !map_map. apply map_ext. intros x. rewrite !Hk.
    destruct (keyA x =? keyA v); reflexivity.
  - rewrite map_app. reflexivity.
Qed.

Lemma numeric_getWallet (s : MemStorage) (userId : Z) :
  Js.getWallet (numericLedger s) userId = option_map numericWallet (getWallet s userId).
Proof.
  unfold Js.getWallet, getWallet, numericLedger. cbn [Js.wallets].
  induction (wallets s) as [|a l IH]; simpl; [reflexivity|].
  destruct (Wallet.userId a =? userId); [reflexivity|exact IH].
Qed.

Lemma numeric_balanceOf (s : MemStorage) (userId : Z) :
  Js.balanceOf (numericLedger s) userId = option_map Js.finite (balanceOf s userId).
Proof.
  unfold Js.balanceOf, balanceOf. rewrite numeric_getWallet.
  destruct (getWallet s userId); reflexivity.
Qed.

Lemma numeric_updateWalletBalance (s : MemStorage) (userId : Z) (amount : Q) :
  Js.updateWalletBalance (numericLedger s) userId (Js.finite amount)
  = (option_map numericWallet (fst (updateWalletBalance s userId amount)),
     numericLedger (snd (updateWalletBalance s userId amount))).
Proof.
  unfold Js.updateWalletBalance, updateWalletBalance. rewrite numeric_getWallet.
  destruct (getWallet s userId) as [w|]; [|reflexivity].
  cbn [option_map numericWallet Js.Wallet.balance Js.add Js.ltb Js.Wallet.id
         Js.Wallet.userId Js.Wallet.createdAt].
  destruct (Qltb (Wallet.balance w + amount) 0); [reflexivity|].
  cbn [fst snd option_map]. f_equal.
  unfold numericLedger. cbn [wallets transactions transactionIdCounter with_wallets
                              Js.wallets Js.transactions Js.transactionIdCounter].
  f_equal. symmetry.
  apply (map_mset Wallet.id Js.Wallet.id numericWallet). reflexivity.
Qed.

Lemma numeric_createTransaction (s : MemStorage) (userId : Z) (amount : Q)
  (type : TxType) (status : TxStatus) (description : option Description)
  (commission : option Q) (now : Z) :
  Js.createTransaction (numericLedger s)
    (Js.mkInsertTransaction userId (Js.finite amount) type status description commission)
    now
  = (numericTransaction
       (fst (createTransaction s
               (mkInsertTransaction userId amount type status description commission) now)),
     numericLedger
       (snd (createTransaction s
               (mkInsertTransaction userId amount type status description commission)
               now))).
Proof.
  unfold Js.createTransaction, createTransaction, numericLedger.
  cbn [fst snd wallets transactions transactionIdCounter with_transactions
         with_transactionIdCounter Js.wallets Js.transactions Js.transactionIdCounter
         Js.it_userId Js.it_amount Js.it_type Js.it_status Js.it_description
         Js.it_commissionAmount it_userId it_amount it_type it_status it_description
         it_commissionAmount].
  f_equal. f_equal. symmetry.
  apply (map_mset Transaction.id Js.Transaction.id numericTransaction). reflexivity.
Qed.

(** On a store of numbers and for an amount that is a number, the route
    on all values is the numeric route. *)
Lemma withdraw_of_a_number_is_the_numeric_withdraw
  (s : MemStorage) (userId : Z) (amount : Q) (now : Z) :
  Js.post_wallet_withdraw (numericLedger s) userId (Js.finite amount) now
  = (fst (post_wallet_withdraw s userId amount now),
     numericLedger (snd (post_wallet_withdraw s userId amount now))).
Proof.
  unfold Js.post_wallet_withdraw, post_wallet_withdraw. rewrite numeric_getWallet.
  destruct (getWallet s userId) as [w|]; [|reflexivity].
  cbn [option_map numericWallet Js.Wallet.balance Js.leb Js.ltb Js.opp].
  destruct (Qle_bool amount 0); [reflexivity|].
  destruct (Qltb (Wallet.balance w) amount); [reflexivity|].
  rewrite numeric_updateWalletBalance.
  destruct (updateWalletBalance s userId (- amount)) as [[w1|] s1]; [|reflexivity].
  cbn [fst snd option_map]. rewrite numeric_createTransaction.
  destruct (createTransaction s1 _ now) as [t s2]. reflexivity.
Qed.

Lemma Js_getWallet_updated (s : Js.Storage) (userId : Z) (w : Js.Wallet.t)
  (newBalance : Js.number) :
  Js.getWallet s userId = Some w ->
  let w' := Js.Wallet.mk (Js.Wallet.id w) (Js.Wallet.userId w) newBalance
              (Js.Wallet.createdAt w) in
  find (fun x => Js.Wallet.userId x =? userId) (mset Js.Wallet.id (Js.wallets s) w')
  = Some w'.
Proof.
  intros Hw w'. unfold Js.getWallet in Hw.
  pose proof (find_some _ _ Hw) as [Hin Hu].
  rewrite mset_present by (change (Js.Wallet.id w') with (Js.Wallet.id w);
                           apply mhas_In; exact Hin).
  clear Hin. induction (Js.wallets s) as [|a l IH]; simpl in *; [discriminate|].
  destruct (Js.Wallet.userId a =? userId) eqn:Ea.
  - inversion Hw; subst a. rewrite Z.eqb_refl. simpl. rewrite Hu. reflexivity.
  - destruct (Js.Wallet.id a =? Js.Wallet.id w); simpl.
    + rewrite Hu. reflexivity.
    + rewrite Ea. apply IH. exact Hw.
Qed.

(** A withdrawal that passes the three comparisons is answered 201, writes
    the sum into the wallet and appends the withdrawal. *)
Lemma Js_withdraw_accepted (s : Js.Storage) (userId : Z) (w : Js.Wallet.t)
  (parsedAmount : Js.number) (now : Z) :
  Forall (fun t => Js.Transaction.id t < Js.transactionIdCounter s) (Js.transactions s) ->
  Js.getWallet s userId = Some w ->
  Js.leb parsedAmount (Js.finite 0) = false ->
  Js.ltb (Js.Wallet.balance w) parsedAmount = false ->
  Js.ltb (Js.add (Js.Wallet.balance w) (Js.opp parsedAmount)) (Js.finite 0) = false ->
  fst (Js.post_wallet_withdraw s userId parsedAmount now) = Ok 201
  /\ Js.balanceOf (snd (Js.post_wallet_withdraw s userId parsedAmount now)) userId
     = Some (Js.add (Js.Wallet.balance w) (Js.opp parsedAmount))
  /\ Js.transactions (snd (Js.post_wallet_withdraw s userId parsedAmount now))
     = Js.transactions s
       ++ [Js.Transaction.mk (Js.transactionIdCounter s) userId (Js.opp parsedAmount)
             ty_withdrawal tx_completed (Some WithdrewMoney) (Some 0%Q) None now].
Proof.
  intros Hids Hw H1 H2 H3.
  unfold Js.post_wallet_withdraw, Js.updateWalletBalance. rewrite Hw, H1, H2, H3.
  cbv zeta. unfold Js.createTransaction.
  cbn [fst snd Js.wallets Js.transactions Js.transactionIdCounter Js.it_userId
         Js.it_amount Js.it_type Js.it_status Js.it_description Js.it_commissionAmount].
  split; [reflexivity|]. split.
  - unfold Js.balanceOf, Js.getWallet. cbn [Js.wallets].
    rewrite (Js_getWallet_updated s userId w _ Hw). reflexivity.
  - apply mset_fresh. exact Hids.
Qed.

(** X5. The withdraw route on every value [parseFloat] can answer, for a
    user with a wallet on a sound store of numbers.  A number is paid
    exactly when it is positive and the balance covers it: the wallet then
    holds the balance less the amount and one completed [withdrawal] of
    minus the amount is appended; any other number, and either infinity,
    is refused with 400 and writes nothing.  An amount that is not a
    number passes every guard: the route answers 201, the wallet holds
    [NaN] and a completed withdrawal of [NaN] is appended. *)
Theorem withdraw_pays_out_refuses_or_stores_NaN
  (s : MemStorage) (userId now : Z) (w : Wallet.t) :
  ledgerSound s ->
  getWallet s userId = Some w ->
  let appended (parsedAmount : Js.number) :=
    Js.transactions (numericLedger s)
    ++ [Js.Transaction.mk (transactionIdCounter s) userId (Js.opp parsedAmount)
          ty_withdrawal tx_completed (Some WithdrewMoney) (Some 0%Q) None now] in
  (forall amount : Q,
      ((0 < amount)%Q /\ (amount <= Wallet.balance w)%Q ->
       fst (Js.post_wallet_withdraw (numericLedger s) userId (Js.finite amount) now)
       = Ok 201
       /\ Js.balanceOf
            (snd (Js.post_wallet_withdraw (numericLedger s) userId (Js.finite amount) now))
            userId
          = Some (Js.finite (Wallet.balance w + - amount))
       /\ Js.transactions
            (snd (Js.post_wallet_withdraw (numericLedger s) userId (Js.finite amount) now))
          = appended (Js.finite amount))
      /\ (~ ((0 < amount)%Q /\ (amount <= Wallet.balance w)%Q) ->
          exists message,
            Js.post_wallet_withdraw (numericLedger s) userId (Js.finite amount) now
            = (Err 400 message, numericLedger s)))
  /\ (forall parsedAmount,
         parsedAmount = Js.infinity \/ parsedAmount = Js.neg_infinity ->
         exists message,
           Js.post_wallet_withdraw (numericLedger s) userId parsedAmount now
           = (Err 400 message, numericLedger s))
  /\ (fst (Js.post_wallet_withdraw (numericLedger s) userId Js.NaN now) = Ok 201
      /\ Js.balanceOf (snd (Js.post_wallet_withdraw (numericLedger s) userId Js.NaN now))
           userId
         = Some Js.NaN
      /\ Js.transactions
           (snd (Js.post_wallet_withdraw (numericLedger s) userId Js.NaN now))
         = appended Js.NaN).
Proof.
  intros Hs Hw appended.
  assert (Js.getWallet (numericLedger s) userId = Some (numericWallet w)) as HW
    by (rewrite numeric_getWallet, Hw; reflexivity).
  assert (Forall (fun t => Js.Transaction.id t < Js.transactionIdCounter (numericLedger s))
                 (Js.transactions (numericLedger s))) as Hids.
  { destruct Hs as [_ [_ [_ Ht]]]. unfold transactionIdsIssued in Ht.
    unfold numericLedger. cbn [Js.transactions Js.transactionIdCounter].
    apply Forall_map. eapply Forall_impl; [|exact Ht]. intros t Ht'. exact Ht'. }
  split; [|split].
  - intros amount. split.
    + intros [Hpos Hcov].
      destruct (Js_withdraw_accepted (numericLedger s) userId (numericWallet w)
                  (Js.finite amount) now Hids HW) as [R [B T]].
      * cbn [Js.leb]. apply Qle_bool_false. exact Hpos.
      * cbn [Js.ltb numericWallet Js.Wallet.balance]. apply Qltb_false. exact Hcov.
      * cbn [Js.ltb Js.add Js.opp numericWallet Js.Wallet.balance].
        apply Qltb_false. lra.
      * split; [exact R|]. split; [exact B|exact T].
    + intros Hnot. unfold Js.post_wallet_withdraw. rewrite HW.
      cbn [Js.leb Js.ltb numericWallet Js.Wallet.balance].
      destruct (Qle_bool amount 0) eqn:Ez; [eexists; reflexivity|].
      destruct (Qltb (Wallet.balance w) amount) eqn:El; [eexists; reflexivity|].
      exfalso. apply Hnot. apply Qle_bool_false in Ez. apply Qltb_false in El.
      split; assumption.
  - intros parsedAmount [->| ->]; unfold Js.post_wallet_withdraw; rewrite HW;
      cbn [Js.leb Js.ltb numericWallet Js.Wallet.balance]; eexists; reflexivity.
  - apply (Js_withdraw_accepted (numericLedger s) userId (numericWallet w) Js.NaN now
             Hids HW); reflexivity.
Qed.

(** Alice holds 1000.  She is paid 300 of it; had she asked for ["abc"]
    instead, the route would have answered 201 too and left [NaN] in her
    wallet. *)
Lemma alice_asks_for_300_or_for_abc :
  (fst (Js.post_wallet_withdraw (numericLedger twoFundedAccounts) 2 (Js.finite 300) 20000)
   = Ok 201
   /\ Js.balanceOf
        (snd (Js.post_wallet_withdraw (numericLedger twoFundedAccounts) 2 (Js.finite 300)
                20000)) 2
      = Some (Js.finite (0 + 1000 + - (300))))
  /\ (fst (Js.post_wallet_withdraw (numericLedger twoFundedAccounts) 2 Js.NaN 20000)
      = Ok 201
      /\ Js.balanceOf
           (snd (Js.post_wallet_withdraw (numericLedger twoFundedAccounts) 2 Js.NaN 20000))
           2
         = Some Js.NaN).
Proof.
  assert (ledgerSound twoFundedAccounts) as H0 by apply reachable_sound.
  assert (getWallet twoFundedAccounts 2 = Some (Wallet.mk 2 2 (0 + 1000) 2000)) as H1
    by (vm_compute; reflexivity).
  destruct (withdraw_pays_out_refuses_or_stores_NaN twoFundedAccounts 2 20000 _ H0 H1)
    as [N [_ [R [B _]]]].
  split.
  - destruct (N 300%Q) as [[R3 [B3 _]] _].
    + split; [reflexivity|vm_compute; discriminate].
    + split; [exact R3|exact B3].
  - split; [exact R|exact B].
Defined.

Lemma In_insertNewestFirst {A : Type} (createdAt : A -> Z) (x y : A) (l : list A) :
  In y (insertNewestFirst createdAt x l) <-> y = x \/ In y l.
Proof.
  induction l as [|a l IH]; simpl.
  - intuition congruence.
  - destruct (createdAt a <=? createdAt x); simpl.
    + intuition congruence.
    + rewrite IH. intuition congruence.
Qed.

(** Rows that are newest first already, ties included, keep their order. *)
Lemma sortNewestFirst_of_sorted {A : Type} (createdAt : A -> Z) (l : list A) :
  ForallOrdPairs (fun a b => createdAt b <= createdAt a) l ->
  sortNewestFirst createdAt l = l.
Proof.
  unfold sortNewestFirst. induction 1 as [|a l Ha _ IH]; [reflexivity|].
  cbn [fold_right]. rewrite IH. destruct Ha as [|y r Hy _]; [reflexivity|].
  cbn [insertNewestFirst].
  destruct (Z.leb_spec (createdAt y) (createdAt a)); [reflexivity|lia].
Qed.

Lemma In_sortNewestFirst {A : Type} (createdAt : A -> Z) (y : A) (l : list A) :
  In y (sortNewestFirst createdAt l) <-> In y l.
Proof.
  unfold sortNewestFirst. induction l as [|a l IH]; simpl; [tauto|].
  rewrite In_insertNewestFirst, IH. intuition congruence.
Qed.

Lemma updateWalletBalance_Some (s s1 : MemStorage) (userId : Z) (amount : Q)
  (w' : Wallet.t) :
  updateWalletBalance s userId amount = (Some w', s1) ->
  exists w,
    getWallet s userId = Some w
    /\ (0 <= Wallet.balance w + amount)%Q
    /\ w' = Wallet.mk (Wallet.id w) (Wallet.userId w) (Wallet.balance w + amount)%Q
                      (Wallet.createdAt w)
    /\ s1 = with_wallets s (mset Wallet.id (wallets s) w').
Proof.
  unfold updateWalletBalance.
  destruct (getWallet s userId) as [w|]; [|discriminate].
  destruct (Qltb (Wallet.balance w + amount) 0) eqn:E; [discriminate|].
  intros H. inversion H; subst. exists w. apply Qltb_false in E.
  repeat split; try reflexivity. exact E.
Qed.

(** A deposit request of at least 100 on a sound store appends one pending
    deposit and nothing else. *)
Lemma deposit_request_transactions (s : MemStorage) (userId : Z) (amount : Q)
  (paymentScreenshotUrl paymentReference : option string) (upiId : string) (now : Z) :
  ledgerSound s ->
  Qltb amount 100 = false ->
  exists t,
    transactions (snd (post_wallet_deposit s userId amount paymentScreenshotUrl
                         paymentReference upiId now))
    = transactions s ++ [t]
    /\ Transaction.id t = transactionIdCounter s
    /\ Transaction.userId t = userId
    /\ Transaction.amount t = amount
    /\ Transaction.type t = ty_deposit
    /\ Transaction.status t = tx_pending.
Proof.
  intros [_ [_ [_ Ht]]] Ha. unfold post_wallet_deposit. rewrite Ha.
  set (ins := mkInsertTransaction userId amount ty_deposit tx_pending _ (Some 0%Q)).
  pose proof (createTransaction_appends s ins now Ht) as App.
  destruct (createTransaction s ins now) as [t s1] eqn:E1. cbn [fst snd] in App.
  assert (t = Transaction.mk (transactionIdCounter s) userId amount ty_deposit tx_pending
                (it_description ins) (Some 0%Q) None now) as Et.
  { apply (f_equal fst) in E1. cbn [fst] in E1. subst t. reflexivity. }
  assert (Forall (fun x => Transaction.id x < Transaction.id t) (transactions s)) as Hlt
    by (rewrite Et; exact Ht).
  destruct paymentScreenshotUrl as [[|c r]|]; cbn [snd].
  1, 3: exists t; split; [exact App|]; rewrite Et; repeat split.
  unfold updateTransactionMetadata.
  assert (mget Transaction.id (transactions s1) (Transaction.id t) = Some t) as G.
  { rewrite App. unfold mget. rewrite find_append.
    destruct (find (fun x => Transaction.id x =? Transaction.id t) (transactions s))
      as [x|] eqn:F.
    - apply find_some in F. destruct F as [Hin Hk].
      rewrite Forall_forall in Hlt. specialize (Hlt x Hin). lia.
    - simpl. rewrite Z.eqb_refl. reflexivity. }
  rewrite G. cbn [snd transactions with_transactions].
  set (t' := Transaction.mk _ _ _ _ _ _ _ _ _).
  exists t'. split.
  - rewrite mset_present.
    + rewrite App, map_app.
      rewrite (map_replace_absent _ Transaction.id (transactions s) t').
      * cbn [map]. change (Transaction.id t') with (Transaction.id t).
        rewrite Z.eqb_refl. reflexivity.
      * change (Transaction.id t') with (Transaction.id t). intros C.
        apply in_map_iff in C. destruct C as [x [Hx Hin]].
        rewrite Forall_forall in Hlt. specialize (Hlt x Hin). lia.
    + change (Transaction.id t') with (Transaction.id t).
      eapply mget_Some_mhas. exact G.
  - unfold t'. rewrite Et. repeat split.
Qed.

Lemma ledger_fields_updateTransactionMetadata (s : MemStorage) (id : Z)
  (metadata : list (string * string)) :
  wallets (snd (updateTransactionMetadata s id metadata)) = wallets s
  /\ walletIdCounter (snd (updateTransactionMetadata s id metadata)) = walletIdCounter s.
Proof.
  unfold updateTransactionMetadata. destruct (mget _ _ _); split; reflexivity.
Qed.

Lemma completedSum_pending (s s' : MemStorage) (t : Transaction.t) (userId : Z) :
  transactions s' = transactions s ++ [t] ->
  Transaction.status t = tx_pending ->
  completedSum s' userId = completedSum s userId.
Proof.
  intros E P. unfold completedSum. rewrite E, filter_app. cbn [filter].
  rewrite P. cbn [TxStatus_eqb]. rewrite andb_false_r, app_nil_r. reflexivity.
Qed.

(** X6. A deposit request moves no money: whatever is asked, every wallet
    and every user's completed total stay as they were; a request below 100
    writes nothing at all, and a request of 100 or more appends exactly one
    transaction, a pending [deposit] of the amount in the requester's name. *)
Theorem deposit_request_moves_no_money
  (s : MemStorage) (userId : Z) (amount : Q)
  (paymentScreenshotUrl paymentReference : option string) (upiId : string) (now : Z) :
  ledgerSound s ->
  wallets (snd (post_wallet_deposit s userId amount paymentScreenshotUrl
                  paymentReference upiId now)) = wallets s
  /\ (forall u,
        completedSum (snd (post_wallet_deposit s userId amount paymentScreenshotUrl
                             paymentReference upiId now)) u
        = completedSum s u)
  /\ ((amount < 100)%Q ->
      post_wallet_deposit s userId amount paymentScreenshotUrl paymentReference upiId now
      = (Err 400 (Msg "Minimum deposit amount is 100"), s))
  /\ ((100 <= amount)%Q ->
      fst (post_wallet_deposit s userId amount paymentScreenshotUrl paymentReference
             upiId now) = Ok 201
      /\ exists t,
           transactions (snd (post_wallet_deposit s userId amount paymentScreenshotUrl
                                paymentReference upiId now))
           = transactions s ++ [t]
           /\ Transaction.userId t = userId
           /\ Transaction.amount t = amount
           /\ Transaction.type t = ty_deposit
           /\ Transaction.status t = tx_pending).
Proof.
  intros Hs.
  destruct (Qltb amount 100) eqn:Ea.
  - assert (post_wallet_deposit s userId amount paymentScreenshotUrl paymentReference
              upiId now = (Err 400 (Msg "Minimum deposit amount is 100"), s)) as E
      by (unfold post_wallet_deposit; rewrite Ea; reflexivity).
    rewrite E. cbn [fst snd]. apply Qltb_true in Ea.
    repeat split; try reflexivity; intros; lra.
  - destruct (deposit_request_transactions s userId amount paymentScreenshotUrl
                paymentReference upiId now Hs Ea) as [t [Tx [Ti [Tu [Ta [Tt Tp]]]]]].
    apply Qltb_false in Ea.
    split; [|split; [|split]].
    + unfold post_wallet_deposit.
      destruct (Qltb amount 100); [reflexivity|].
      destruct (createTransaction s _ now) as [t0 s1] eqn:E1.
      pose proof (store_of_pair _ _ _ E1) as Hs1.
      destruct paymentScreenshotUrl as [[|c r]|]; cbn [snd];
        try (rewrite Hs1; reflexivity).
      destruct (ledger_fields_updateTransactionMetadata s1 (Transaction.id t0)
                  [("paymentScreenshotUrl", String c r); ("upiId", upiId)]) as [-> _].
      rewrite Hs1. reflexivity.
    + intros u. apply (completedSum_pending s _ t u Tx Tp).
    + intros C. lra.
    + intros _. split.
      * unfold post_wallet_deposit.
        assert (Qltb amount 100 = false) as -> by (apply Qltb_false; exact Ea).
        destruct (createTransaction s _ now) as [t0 s1]. reflexivity.
      * exists t. repeat split; assumption.
Qed.

(** Alice asks to deposit 500 with a screenshot: her balance stays 1000 and a
    pending deposit of 500 is on file. *)
Lemma alice_asks_to_deposit_500 :
  fst (post_wallet_deposit twoFundedAccounts 2 500 (Some "proof.png") None platformUpi
         20000) = Ok 201
  /\ balanceOf (snd (post_wallet_deposit twoFundedAccounts 2 500 (Some "proof.png") None
                       platformUpi 20000)) 2
     = balanceOf twoFundedAccounts 2
  /\ completedSum (snd (post_wallet_deposit twoFundedAccounts 2 500 (Some "proof.png")
                          None platformUpi 20000)) 2
     = completedSum twoFundedAccounts 2.
Proof.
  assert (ledgerSound twoFundedAccounts) as H0 by apply reachable_sound.
  destruct (deposit_request_moves_no_money twoFundedAccounts 2 500 (Some "proof.png")
              None platformUpi 20000 H0) as [W [C [_ A]]].
  split; [apply A; vm_compute; discriminate|].
  split; [|apply C].
  unfold balanceOf. rewrite (getWallet_frame _ _ 2 W). reflexivity.
Defined.

(** X7. An approval by the administrator that succeeds found a pending
    deposit with the given id, credits the wallet of the user who asked (not
    the administrator's) with its amount and appends one completed
    [deposit] transaction of that amount.  It does not mark the request:
    the request is still on file as a pending deposit afterwards, so the
    same id is found again by the next approval. *)
Theorem approval_credits_the_depositor_and_keeps_the_request
  (s s' : MemStorage) (transactionId now later : Z) :
  ledgerSound s ->
  post_wallet_approve_deposit s 1 transactionId now = (Ok 200, s') ->
  exists t w,
    In t (transactions s)
    /\ Transaction.id t = transactionId
    /\ Transaction.type t = ty_deposit
    /\ Transaction.status t = tx_pending
    /\ getWallet s (Transaction.userId t) = Some w
    /\ balanceOf s' (Transaction.userId t)
       = Some (Wallet.balance w + Transaction.amount t)%Q
    /\ transactions s'
       = transactions s
         ++ [Transaction.mk (transactionIdCounter s) (Transaction.userId t)
               (Transaction.amount t) ty_deposit tx_completed (Some DepositApproved)
               (Some 0%Q) None now]
    /\ In t (transactions s')
    /\ fst (post_wallet_approve_deposit s' 1 transactionId later)
       <> Err 404 (Msg "Pending deposit transaction not found").
Proof.
  intros Hs H. unfold post_wallet_approve_deposit in H. cbn [Z.eqb Pos.eqb negb] in H.
  set (P := fun t => ((Transaction.id t =? transactionId)
                      && TxType_eqb (Transaction.type t) ty_deposit
                      && TxStatus_eqb (Transaction.status t) tx_pending)%bool) in H.
  destruct (find P (getAllTransactions s)) as [t|] eqn:F; [|discriminate H].
  apply find_some in F. destruct F as [Hin HP].
  apply In_sortNewestFirst in Hin.
  unfold P in HP. apply andb_true_iff in HP. destruct HP as [HP Hst].
  apply andb_true_iff in HP. destruct HP as [Hid Hty].
  destruct (updateWalletBalance s (Transaction.userId t) (Transaction.amount t))
    as [[w'|] s1] eqn:U; [|discriminate H].
  destruct (updateWalletBalance_Some _ _ _ _ _ U) as [w [Hw [Hacc [Ew' Es1]]]].
  destruct (createTransaction s1 _ now) as [t2 s2] eqn:E2.
  inversion H; subst s2; clear H.
  pose proof (store_of_pair _ _ _ E2) as Hs'.
  assert (transactions s'
          = transactions s
            ++ [Transaction.mk (transactionIdCounter s) (Transaction.userId t)
                  (Transaction.amount t) ty_deposit tx_completed (Some DepositApproved)
                  (Some 0%Q) None now]) as Htx.
  { rewrite Hs', createTransaction_appends.
    - rewrite Es1. reflexivity.
    - rewrite Es1. destruct Hs as [_ [_ [_ Ht]]]. exact Ht. }
  assert (In t (transactions s')) as Hin'
    by (rewrite Htx; apply in_or_app; left; exact Hin).
  exists t, w. repeat split; try assumption.
  - lia.
  - destruct (Transaction.type t); try discriminate Hty. reflexivity.
  - destruct (Transaction.status t); try discriminate Hst. reflexivity.
  - unfold balanceOf.
    rewrite (getWallet_frame s1 s' _) by (rewrite Hs'; reflexivity).
    rewrite Es1, Ew'.
    rewrite (getWallet_updated s (Transaction.userId t) (Transaction.amount t) w Hw).
    reflexivity.
  - unfold post_wallet_approve_deposit. cbn [Z.eqb Pos.eqb negb]. fold P.
    destruct (find P (getAllTransactions s')) as [t3|] eqn:F3.
    + destruct (updateWalletBalance s' _ _) as [[w3|] s3].
      * destruct (createTransaction s3 _ later). discriminate.
      * discriminate.
    + exfalso. assert (P t = false) as C.
      { apply (find_none _ _ F3). apply In_sortNewestFirst. exact Hin'. }
      unfold P in C. rewrite Hid, Hty, Hst in C. discriminate C.
Qed.

(** The administrator approves Alice's deposit of 1000 twice: both approvals
    succeed and Alice holds 2000. *)
Lemma one_request_approved_twice :
  fst (post_wallet_approve_deposit aliceAwaitsApproval 1 1 6000) = Ok 200
  /\ fst (post_wallet_approve_deposit
            (snd (post_wallet_approve_deposit aliceAwaitsApproval 1 1 6000)) 1 1 7000)
     <> Err 404 (Msg "Pending deposit transaction not found")
  /\ balanceOf
       (snd (post_wallet_approve_deposit
               (snd (post_wallet_approve_deposit aliceAwaitsApproval 1 1 6000)) 1 1 7000))
       2
     = Some (0 + 1000 + 1000)%Q.
Proof.
  split; [vm_compute; reflexivity|].
  split; [|vm_compute; reflexivity].
  assert (ledgerSound aliceAwaitsApproval) as H0 by apply reachable_sound.
  destruct (post_wallet_approve_deposit aliceAwaitsApproval 1 1 6000) as [r s'] eqn:E.
  assert (r = Ok 200) as ->.
  { apply (f_equal fst) in E. cbn [fst] in E. rewrite <- E. vm_compute. reflexivity. }
  destruct (approval_credits_the_depositor_and_keeps_the_request _ _ 1 6000 7000 H0 E)
    as [t [w [_ [_ [_ [_ [_ [_ [_ [_ N]]]]]]]]]].
  exact N.
Defined.

(** ** Commission *)

Lemma discounted_commission_gap (amount percentage : Q) :
  (calculateCommission amount percentage true
   == 0.75 * calculateCommission amount percentage false)%Q.
Proof.
  unfold calculateCommission.
  destruct (Qle_bool amount 0 || Qle_bool percentage 0)%bool.
  - ring.
  - field.
Qed.

(** X8. The subscriber discount of the server is exactly a quarter: for
    every prize pool and percentage, the discounted commission is 0.75 times
    the undiscounted one. *)
Theorem discounted_commission_is_three_quarters (amount percentage : Q) :
  (calculateCommission amount percentage true
   == 0.75 * calculateCommission amount percentage false)%Q.
Proof. apply discounted_commission_gap. Qed.

(** X9. On a pool that is not negative and at a percentage of at most 100
    the server's commission lies between 0 and the pool, so the payout is
    never negative and never more than the pool. *)
Theorem commission_within_the_pool (amount percentage : Q) (hasSubscription : bool) :
  (0 <= amount)%Q -> (percentage <= 100)%Q ->
  (0 <= calculateCommission amount percentage hasSubscription)%Q
  /\ (calculateCommission amount percentage hasSubscription <= amount)%Q.
Proof.
  intros Ha Hp. split.
  - destruct (Qlt_le_dec 0 amount) as [Ha'|Ha'];
      [|rewrite calculateCommission_zero by (left; exact Ha'); lra].
    destruct (Qlt_le_dec 0 percentage) as [Hp'|Hp'];
      [|rewrite calculateCommission_zero by (right; exact Hp'); lra].
    rewrite calculateCommission_raw by assumption.
    apply Qle_shift_div_l; [lra|].
    assert (0 * 100 == 0)%Q as -> by ring.
    apply Qmult_le_0_compat; [lra|]. destruct hasSubscription; lra.
  - pose proof (payout_nonneg amount percentage hasSubscription Ha Hp). lra.
Qed.

(** A pool of 600 at 10 percent, discounted: the commission is between 0
    and 600. *)
Lemma commission_of_600_within_the_pool :
  (0 <= calculateCommission 600 10 true)%Q /\ (calculateCommission 600 10 true <= 600)%Q.
Proof.
  apply (commission_within_the_pool 600 10 true); vm_compute; discriminate.
Defined.

Lemma calculateGameCommission_zero (prizePool commissionPercentage : Q)
  (hasSubscription : bool) :
  (prizePool <= 0)%Q \/ (commissionPercentage <= 0)%Q ->
  CommissionUtils.calculateGameCommission prizePool commissionPercentage hasSubscription
  = 0%Q.
Proof.
  intros H. unfold CommissionUtils.calculateGameCommission.
  destruct H as [H|H]; apply Qle_bool_iff in H; rewrite H;
    [reflexivity|rewrite orb_true_r; reflexivity].
Qed.

Lemma game_commission_gap
  (prizePool commissionPercentage : Q) (hasSubscription : bool) :
  (exists cents : Z,
      (CommissionUtils.calculateGameCommission prizePool commissionPercentage
         hasSubscription == inject_Z cents / 100)%Q)
  /\ (CommissionUtils.calculateGameCommission prizePool commissionPercentage
        hasSubscription
      - calculateCommission prizePool commissionPercentage hasSubscription
      <= 1 # 200)%Q
  /\ (calculateCommission prizePool commissionPercentage hasSubscription
      - CommissionUtils.calculateGameCommission prizePool commissionPercentage
          hasSubscription
      < 1 # 200)%Q.
Proof.
  destruct (Qlt_le_dec 0 prizePool) as [Ha|Ha].
  - destruct (Qlt_le_dec 0 commissionPercentage) as [Hp|Hp].
    + destruct (calculateGameCommission_rounds prizePool commissionPercentage
                  hasSubscription Ha Hp) as [cents [E [Lo Hi]]].
      rewrite calculateCommission_raw by assumption.
      rewrite E. split; [exists cents; reflexivity|].
      set (raw := (prizePool
                   * (if hasSubscription then commissionPercentage * 0.75
                      else commissionPercentage) / 100)%Q) in *.
      assert (inject_Z cents / 100 == inject_Z cents * (1 # 100))%Q as -> by field.
      split; lra.
    + rewrite calculateGameCommission_zero by (right; exact Hp).
      rewrite calculateCommission_zero by (right; exact Hp).
      split; [exists 0; vm_compute; reflexivity|]. split; lra.
  - rewrite calculateGameCommission_zero by (left; exact Ha).
    rewrite calculateCommission_zero by (left; exact Ha).
    split; [exists 0; vm_compute; reflexivity|]. split; lra.
Qed.

(** X10. The commission the client computes with [calculateGameCommission]
    is a whole number of cents and is never more than half a cent away from
    the commission the server applies to the same pool, percentage and
    subscription. *)
Theorem client_commission_within_half_a_cent
  (prizePool commissionPercentage : Q) (hasSubscription : bool) :
  (exists cents : Z,
      (CommissionUtils.calculateGameCommission prizePool commissionPercentage
         hasSubscription == inject_Z cents / 100)%Q)
  /\ (CommissionUtils.calculateGameCommission prizePool commissionPercentage
        hasSubscription
      - calculateCommission prizePool commissionPercentage hasSubscription
      <= 1 # 200)%Q
  /\ (calculateCommission prizePool commissionPercentage hasSubscription
      - CommissionUtils.calculateGameCommission prizePool commissionPercentage
          hasSubscription
      < 1 # 200)%Q.
Proof. apply game_commission_gap. Qed.

Lemma Math_round_bounds (x : Q) :
  (inject_Z (Math_round x) - (1 # 2) <= x)%Q /\ (x < inject_Z (Math_round x) + (1 # 2))%Q.
Proof.
  unfold Math_round.
  pose proof (Qfloor_le (x + (1 # 2))) as Hlo.
  pose proof (Qlt_floor (x + (1 # 2))) as Hhi.
  rewrite inject_Z_plus in Hhi. change (inject_Z 1) with 1%Q in Hhi.
  split; lra.
Qed.

(** The banded commission of a positive amount is the rounding of the
    amount times the rate of its band. *)
Lemma banded_commission_rate (amount : Q) :
  (0 < amount)%Q ->
  exists rate : Q,
    ((1000 < amount /\ rate = 0.02)
     \/ (500 < amount /\ amount <= 1000 /\ rate = 0.0225)
     \/ (amount < 100 /\ rate = 0.03)
     \/ (100 <= amount /\ amount <= 500 /\ rate = 0.025))%Q
    /\ CommissionUtils.calculateCommission amount
       = (inject_Z (Math_round (amount * rate * 100)) / 100)%Q.
Proof.
  intros Ha. unfold CommissionUtils.calculateCommission.
  assert (Qle_bool amount 0 = false) as -> by (apply Qle_bool_false; exact Ha).
  unfold Qgtb.
  destruct (Qltb 1000 amount) eqn:E1.
  { apply Qltb_true in E1. exists 0.02%Q. split; [left; split; [exact E1|reflexivity]|].
    reflexivity. }
  apply Qltb_false in E1.
  destruct (Qltb 500 amount) eqn:E2.
  { apply Qltb_true in E2. exists 0.0225%Q.
    split; [right; left; repeat split; assumption|reflexivity]. }
  apply Qltb_false in E2.
  destruct (Qltb amount 100) eqn:E3.
  { apply Qltb_true in E3. exists 0.03%Q.
    split; [right; right; left; split; [exact E3|reflexivity]|reflexivity]. }
  apply Qltb_false in E3. exists 0.025%Q.
  split; [right; right; right; repeat split; assumption|reflexivity].
Qed.

Lemma banded_commission_near_rate (amount : Q) :
  (0 < amount)%Q ->
  exists rate : Q,
    ((1000 < amount /\ rate = 0.02)
     \/ (500 < amount /\ amount <= 1000 /\ rate = 0.0225)
     \/ (amount < 100 /\ rate = 0.03)
     \/ (100 <= amount /\ amount <= 500 /\ rate = 0.025))%Q
    /\ (amount * rate - (1 # 200) < CommissionUtils.calculateCommission amount)%Q
    /\ (CommissionUtils.calculateCommission amount <= amount * rate + (1 # 200))%Q.
Proof.
  intros Ha. destruct (banded_commission_rate amount Ha) as [rate [Hband E]].
  exists rate. split; [exact Hband|]. rewrite E.
  destruct (Math_round_bounds (amount * rate * 100)) as [Lo Hi].
  assert (inject_Z (Math_round (amount * rate * 100)) / 100
          == inject_Z (Math_round (amount * rate * 100)) * (1 # 100))%Q as -> by field.
  split; lra.
Qed.

(** X11. The banded commission of [commission.ts]: nothing for an amount
    that is not positive; for a positive amount a whole number of cents that
    is not negative, more than 2 percent of the amount less half a cent and
    at most 3 percent of the amount plus half a cent. *)
Theorem banded_commission_bounds (amount : Q) :
  ((amount <= 0)%Q -> CommissionUtils.calculateCommission amount = 0%Q)
  /\ ((0 < amount)%Q ->
      (exists cents : Z,
          (0 <= cents)%Z
          /\ CommissionUtils.calculateCommission amount = (inject_Z cents / 100)%Q)
      /\ (0 <= CommissionUtils.calculateCommission amount)%Q
      /\ (amount * 0.02 - (1 # 200) < CommissionUtils.calculateCommission amount)%Q
      /\ (CommissionUtils.calculateCommission amount <= amount * 0.03 + (1 # 200))%Q).
Proof.
  split.
  - intros H. unfold CommissionUtils.calculateCommission.
    apply Qle_bool_iff in H. rewrite H. reflexivity.
  - intros Ha.
    destruct (banded_commission_rate amount Ha) as [rate [Hband E]].
    destruct (banded_commission_near_rate amount Ha) as [rate' [Hband' [Lo Hi]]].
    assert (0.02 <= rate' /\ rate' <= 0.03)%Q as [R1 R2].
    { destruct Hband' as [[_ ->]|[[_ [_ ->]]|[[_ ->]|[_ [_ ->]]]]];
        split; vm_compute; discriminate. }
    assert (amount * 0.02 <= amount * rate')%Q as B1.
    { rewrite (Qmult_comm amount 0.02), (Qmult_comm amount rate').
      apply Qmult_le_compat_r; lra. }
    assert (amount * rate' <= amount * 0.03)%Q as B2.
    { rewrite (Qmult_comm amount 0.03), (Qmult_comm amount rate').
      apply Qmult_le_compat_r; lra. }
    assert (0 <= Math_round (amount * rate * 100))%Z as Hc.
    { destruct (Math_round_bounds (amount * rate * 100)) as [_ Hi'].
      assert (0.02 <= rate)%Q as R.
      { destruct Hband as [[_ ->]|[[_ [_ ->]]|[[_ ->]|[_ [_ ->]]]]];
          vm_compute; discriminate. }
      assert (0 <= amount * rate * 100)%Q as P.
      { apply Qmult_le_0_compat; [|lra]. apply Qmult_le_0_compat; lra. }
      assert (- (1) < inject_Z (Math_round (amount * rate * 100)))%Q as Q1 by lra.
      change (- (1))%Q with (inject_Z (-1)) in Q1. rewrite <- Zlt_Qlt in Q1. lia. }
    split; [exists (Math_round (amount * rate * 100)); split; [exact Hc|exact E]|].
    split; [|split; lra].
    rewrite E. apply Qle_shift_div_l; [lra|].
    assert (0 * 100 == 0)%Q as -> by ring.
    change 0%Q with (inject_Z 0). rewrite <- Zle_Qle. exact Hc.
Qed.

(** An amount of 250 is charged between 2 and 3 percent, up to half a
    cent. *)
Lemma banded_commission_of_250 :
  (250 * 0.02 - (1 # 200) < CommissionUtils.calculateCommission 250)%Q
  /\ (CommissionUtils.calculateCommission 250 <= 250 * 0.03 + (1 # 200))%Q.
Proof.
  destruct (banded_commission_bounds 250) as [_ H].
  destruct H as [_ [_ [A B]]]; [reflexivity|].
  split; assumption.
Defined.

(** X12. The bands make the commission drop at a band edge: every amount
    above 1000 up to 1100 is charged less than 1000 itself, and every amount
    above 500 up to 550 is charged less than 500 itself. *)
Theorem banded_commission_drops_at_band_edges (amount : Q) :
  ((1000 < amount)%Q -> (amount <= 1100)%Q ->
   (CommissionUtils.calculateCommission amount
    < CommissionUtils.calculateCommission 1000)%Q)
  /\ ((500 < amount)%Q -> (amount <= 550)%Q ->
      (CommissionUtils.calculateCommission amount
       < CommissionUtils.calculateCommission 500)%Q).
Proof.
  split; intros H1 H2.
  - assert (0 < amount)%Q as Ha by lra.
    destruct (banded_commission_near_rate amount Ha) as [rate [Hband [_ Hi]]].
    assert (rate = 0.02%Q) as ->.
    { destruct Hband as [[_ E]|[[_ [C _]]|[[C _]|[_ [C _]]]]]; [exact E|lra|lra|lra]. }
    assert (CommissionUtils.calculateCommission 1000 == 22.5)%Q as ->
      by (vm_compute; reflexivity).
    lra.
  - assert (0 < amount)%Q as Ha by lra.
    destruct (banded_commission_near_rate amount Ha) as [rate [Hband [_ Hi]]].
    assert (rate = 0.0225%Q) as ->.
    { destruct Hband as [[C _]|[[_ [_ E]]|[[C _]|[_ [C _]]]]]; [lra|exact E|lra|lra]. }
    assert (CommissionUtils.calculateCommission 500 == 12.5)%Q as ->
      by (vm_compute; reflexivity).
    lra.
Qed.

(** An amount of 1050 is charged less than an amount of 1000. *)
Lemma commission_of_1050_below_that_of_1000 :
  (CommissionUtils.calculateCommission 1050 < CommissionUtils.calculateCommission 1000)%Q.
Proof.
  apply (proj1 (banded_commission_drops_at_band_edges 1050)).
  - reflexivity.
  - vm_compute. discriminate.
Defined.

(** ** What the pages show against what the server pays *)

(** X13. The prize the match page shows is the payout of a winner without
    subscription: for an entry amount and a game percentage that are not
    negative, [pv_prize] equals the pool less the server's undiscounted
    commission.  A winner with an active subscription is paid the shown
    prize plus a quarter of the shown commission, which is more than the
    page shows whenever the pool and the percentage are positive. *)
Theorem match_page_shows_the_undiscounted_payout
  (m : GameMatch.t) (g : Game.t) (ps : list PlayerMatch.t) :
  (0 <= GameMatch.entryAmount m)%Q -> (0 <= Game.commissionPercentage g)%Q ->
  let pool := (GameMatch.entryAmount m * inject_Z (Z.of_nat (List.length ps)))%Q in
  let view := matchPage_calculatePrize (Some m) (Some g) (Some ps) in
  pv_total view = pool
  /\ (pv_commission view == calculateCommission pool (Game.commissionPercentage g) false)%Q
  /\ (pv_prize view == pool - calculateCommission pool (Game.commissionPercentage g) false)%Q
  /\ (pool - calculateCommission pool (Game.commissionPercentage g) true
      == pv_prize view + 0.25 * pv_commission view)%Q
  /\ ((0 < pool)%Q -> (0 < Game.commissionPercentage g)%Q ->
      (pv_prize view < pool - calculateCommission pool (Game.commissionPercentage g) true)%Q).
Proof.
  intros He Hp pool view.
  assert (0 <= pool)%Q as Hpool.
  { apply Qmult_le_0_compat; [exact He|].
    change 0%Q with (inject_Z 0). rewrite <- Zle_Qle. lia. }
  assert (pv_commission view
          == calculateCommission pool (Game.commissionPercentage g) false)%Q as Ec.
  { unfold view, matchPage_calculatePrize. cbn [pv_commission]. fold pool.
    destruct (Qlt_le_dec 0 pool) as [A|A].
    - destruct (Qlt_le_dec 0 (Game.commissionPercentage g)) as [B|B].
      + rewrite calculateCommission_raw by assumption. field.
      + rewrite calculateCommission_zero by (right; exact B).
        assert (Game.commissionPercentage g == 0)%Q as -> by lra. field.
    - rewrite calculateCommission_zero by (left; exact A).
      assert (pool == 0)%Q as -> by lra. ring. }
  split; [reflexivity|]. split; [exact Ec|].
  assert (pv_prize view == pool - pv_commission view)%Q as Epr by reflexivity.
  pose proof (discounted_commission_gap pool (Game.commissionPercentage g)) as D.
  split; [rewrite Epr, Ec; reflexivity|].
  split.
  - rewrite Epr, Ec, D. ring.
  - intros Hpool' Hp'. rewrite Epr, D, Ec.
    assert (0 < calculateCommission pool (Game.commissionPercentage g) false)%Q as N.
    { rewrite calculateCommission_raw by assumption.
      apply Qlt_shift_div_l; [reflexivity|].
      assert (0 * 100 == 0)%Q as -> by ring.
      apply Qmult_lt_0_compat; assumption. }
    lra.
Qed.

(** Three players at 200 in a game at 10 percent: the page shows 540 of
    600, and a subscribed winner is paid 555. *)
Lemma match_page_shows_540_of_600 :
  exists view,
    view = matchPage_calculatePrize
             (getGameMatch threePlayersWaiting 1) (getGame threePlayersWaiting 1)
             (Some (getMatchPlayers threePlayersWaiting 1))
    /\ (pv_total view == 600)%Q
    /\ (pv_prize view == 540)%Q
    /\ (pv_prize view
        == 600
           - calculateCommission 600 10 false)%Q
    /\ (200 * inject_Z 3 - calculateCommission (200 * inject_Z 3) 10 true == 555)%Q
    /\ (pv_prize view
        < 200 * inject_Z 3 - calculateCommission (200 * inject_Z 3) 10 true)%Q.
Proof.
  eexists. split; [reflexivity|].
  split; [vm_compute; reflexivity|].
  split; [vm_compute; reflexivity|].
  destruct (match_page_shows_the_undiscounted_payout
              (GameMatch.mk 1 1 200 waiting None None None 10000)
              (Game.mk 1 "Ludo Royal" 200 1000 10 true 0)
              (getMatchPlayers threePlayersWaiting 1)) as [_ [_ [E [_ L]]]].
  - vm_compute. discriminate.
  - vm_compute. discriminate.
  - split; [vm_compute; reflexivity|].
    split; [vm_compute; reflexivity|].
    assert (getGameMatch threePlayersWaiting 1
            = Some (GameMatch.mk 1 1 200 waiting None None None 10000)) as ->
      by (vm_compute; reflexivity).
    assert (getGame threePlayersWaiting 1
            = Some (Game.mk 1 "Ludo Royal" 200 1000 10 true 0)) as ->
      by (vm_compute; reflexivity).
    assert (List.length (getMatchPlayers threePlayersWaiting 1) = 3%nat) as P
      by (vm_compute; reflexivity).
    cbn [GameMatch.entryAmount Game.commissionPercentage] in L.
    rewrite P in L. apply L; reflexivity.
Defined.

(** X14. The prize the Ludo page shows, computed with the rounded
    [calculateGameCommission], is within half a cent of the payout the
    server makes to a winner without subscription. *)
Theorem ludo_page_prize_within_half_a_cent
  (m : GameMatch.t) (g : Game.t) (ps : list PlayerMatch.t) :
  let pool := (GameMatch.entryAmount m * inject_Z (Z.of_nat (List.length ps)))%Q in
  let shown := fst (ludoPage_calculatePrize (Some m) (Some g) (Some ps)) in
  let paid := (pool - calculateCommission pool (Game.commissionPercentage g) false)%Q in
  (paid - shown <= 1 # 200)%Q /\ (shown - paid < 1 # 200)%Q.
Proof.
  intros pool shown paid.
  destruct (game_commission_gap pool (Game.commissionPercentage g) false)
    as [_ [A B]].
  unfold shown, paid, ludoPage_calculatePrize. cbn [fst]. fold pool.
  split; lra.
Qed.

(** ** Reward points and the monthly subscription *)

Lemma users_updateWalletBalance s u a :
  users (snd (updateWalletBalance s u a)) = users s.
Proof.
  unfold updateWalletBalance. destruct (getWallet s u); [|reflexivity].
  destruct (Qltb _ _); reflexivity.
Qed.

Lemma getUser_addRewardPoints (s : MemStorage) (userId points : Z) (user : User.t) :
  getUser s userId = Some user ->
  exists user',
    getUser (snd (addRewardPoints s userId points)) userId = Some user'
    /\ User.rewardPoints user' = User.rewardPoints user + points
    /\ User.id user' = User.id user
    /\ User.username user' = User.username user.
Proof.
  intros H. unfold getUser in H. unfold addRewardPoints. rewrite H. cbn [snd].
  pose proof (mget_Some_key _ _ _ _ _ H) as K.
  subst userId. eexists. split.
  - unfold getUser. cbn [users with_users].
    match goal with
    | |- mget User.id (mset User.id _ ?v) _ = _ =>
      exact (mget_mset_same _ User.id (users s) v)
    end.
  - cbn. auto.
Qed.

(** X15. Redeeming reward points, for a user with a wallet on a sound store:
    fewer than 50 points or more points than the user owns are refused with
    nothing written; otherwise the points leave the user's account, the
    wallet grows by a tenth of a unit per point and one completed
    [reward_redemption] transaction of that amount is appended. *)
Theorem redeem_converts_points_to_money
  (s : MemStorage) (userId points now : Z) (user : User.t) (w : Wallet.t) :
  ledgerSound s ->
  getUser s userId = Some user ->
  getWallet s userId = Some w ->
  ((points < 50 \/ User.rewardPoints user < points) ->
   snd (post_redeem_points s userId points now) = s
   /\ exists message, fst (post_redeem_points s userId points now) = Err 400 message)
  /\ (50 <= points <= User.rewardPoints user ->
      fst (post_redeem_points s userId points now) = Ok 200
      /\ (exists user',
             getUser (snd (post_redeem_points s userId points now)) userId = Some user'
             /\ User.rewardPoints user' = User.rewardPoints user - points)
      /\ balanceOf (snd (post_redeem_points s userId points now)) userId
         = Some (Wallet.balance w + inject_Z points * 0.1)%Q
      /\ transactions (snd (post_redeem_points s userId points now))
         = transactions s
           ++ [Transaction.mk (transactionIdCounter s) userId (inject_Z points * 0.1)%Q
                 ty_reward_redemption tx_completed (Some (RedeemedPoints points))
                 (Some 0%Q) None now]).
Proof.
  intros Hs Hu Hw. split.
  - intros H. unfold post_redeem_points.
    destruct ((points =? 0) || (points <? 50))%bool eqn:E.
    + split; [reflexivity|eexists; reflexivity].
    + rewrite Hu. apply orb_false_iff in E. destruct E as [_ E].
      destruct H as [H|H]; [lia|].
      assert ((User.rewardPoints user <? points) = true) as -> by lia.
      split; [reflexivity|eexists; reflexivity].
  - intros [H50 Hown]. unfold post_redeem_points.
    assert (((points =? 0) || (points <? 50))%bool = false) as ->
      by (apply orb_false_iff; split; lia).
    rewrite Hu.
    assert ((User.rewardPoints user <? points) = false) as -> by lia.
    destruct (getUser_addRewardPoints s userId (- points) user Hu)
      as [user' [Gu [Pu _]]].
    pose proof (ledger_addRewardPoints s userId (- points)) as L.
    destruct (addRewardPoints s userId (- points)) as [o1 s1] eqn:E1. cbn [snd] in *.
    pose proof (ledger_fields _ _ L) as [Lw [_ [Lt Lc]]].
    assert (getWallet s1 userId = Some w) as Hw1
      by (rewrite (getWallet_frame s s1 userId Lw); exact Hw).
    assert (0 <= Wallet.balance w)%Q as Hb.
    { destruct Hs as [Hn _]. unfold walletsNonNegative in Hn.
      rewrite Forall_forall in Hn. apply Hn. eapply getWallet_In. exact Hw. }
    assert (0 <= inject_Z points * 0.1)%Q as Hcr.
    { apply Qmult_le_0_compat; [|vm_compute; discriminate].
      change 0%Q with (inject_Z 0). rewrite <- Zle_Qle. lia. }
    assert (0 <= Wallet.balance w + inject_Z points * 0.1)%Q as Hacc by lra.
    pose proof (users_updateWalletBalance s1 userId (inject_Z points * 0.1)%Q) as Uu.
    rewrite (updateWalletBalance_accepts s1 userId _ w Hw1 Hacc) in *. cbv zeta in *.
    set (w' := Wallet.mk (Wallet.id w) (Wallet.userId w)
                 (Wallet.balance w + inject_Z points * 0.1)%Q (Wallet.createdAt w)) in *.
    set (s2 := with_wallets s1 (mset Wallet.id (wallets s1) w')) in *.
    cbn [snd] in Uu.
    destruct (createTransaction s2 _ now) as [t s3] eqn:E3.
    pose proof (store_of_pair _ _ _ E3) as Hs3. cbn [fst snd].
    split; [reflexivity|]. split; [|split].
    + exists user'. split; [|lia].
      unfold getUser. rewrite Hs3. unfold createTransaction.
      cbn [snd users with_transactions with_transactionIdCounter].
      rewrite Uu. exact Gu.
    + unfold balanceOf.
      rewrite (getWallet_frame s2 s3 userId) by (rewrite Hs3; reflexivity).
      unfold s2. pose proof (getWallet_updated s1 userId (inject_Z points * 0.1)%Q w Hw1) as G.
      cbv zeta in G. fold w' in G. rewrite G. reflexivity.
    + rewrite Hs3, createTransaction_appends.
      * unfold createTransaction. cbn [fst]. unfold s2.
        change (transactions (with_wallets s1 _)) with (transactions s1).
        change (transactionIdCounter (with_wallets s1 _)) with (transactionIdCounter s1).
        rewrite Lt, Lc. reflexivity.
      * unfold transactionIdsIssued. change (transactions s2) with (transactions s1).
        change (transactionIdCounter s2) with (transactionIdCounter s1).
        rewrite Lt, Lc. destruct Hs as [_ [_ [_ Ht]]]. exact Ht.
Qed.

(** Alice, holding 125 points and a wallet of 10, redeems 100 points. *)
Lemma alice_redeems_100_points :
  fst (post_redeem_points aliceReferredCarol 2 100 9000) = Ok 200
  /\ (exists user',
         getUser (snd (post_redeem_points aliceReferredCarol 2 100 9000)) 2 = Some user'
         /\ User.rewardPoints user' = 25)
  /\ exists b,
       balanceOf (snd (post_redeem_points aliceReferredCarol 2 100 9000)) 2 = Some b
       /\ (b == 20)%Q.
Proof.
  pose (u := User.mk 2 "alice" "alice@example.com" (Some "ALIC-9ZT1"%string) None
               false None 125 None 0 2000).
  pose (w := Wallet.mk 2 2 (0 + 10) 2000).
  assert (ledgerSound aliceReferredCarol) as H0 by apply reachable_sound.
  assert (getUser aliceReferredCarol 2 = Some u) as H1 by (vm_compute; reflexivity).
  assert (getWallet aliceReferredCarol 2 = Some w) as H2 by (vm_compute; reflexivity).
  destruct (redeem_converts_points_to_money aliceReferredCarol 2 100 9000 u w H0 H1 H2)
    as [_ H].
  destruct H as [R [[user' [G P]] [B _]]]; [simpl; lia|].
  split; [exact R|]. split.
  - exists user'. split; [exact G|]. rewrite P. reflexivity.
  - eexists. split; [exact B|]. vm_compute. reflexivity.
Defined.

Lemma getUser_addSubscription (s : MemStorage) (userId durationDays now : Z)
  (user : User.t) :
  getUser s userId = Some user ->
  0 <= durationDays ->
  exists user' expiry,
    getUser (snd (addSubscription s userId durationDays now)) userId = Some user'
    /\ User.hasSubscription user' = true
    /\ User.subscriptionExpiryDate user' = Some expiry
    /\ addDays now durationDays <= expiry
    /\ User.rewardPoints user' = User.rewardPoints user.
Proof.
  intros H Hd. unfold getUser in H. unfold addSubscription. rewrite H. cbn [snd].
  pose proof (mget_Some_key _ _ _ _ _ H) as K. subst userId.
  eexists. eexists. split; [|split; [|split; [|split]]].
  - unfold getUser. cbn [users with_users].
    match goal with
    | |- mget User.id (mset User.id _ ?v) _ = _ =>
      exact (mget_mset_same _ User.id (users s) v)
    end.
  - reflexivity.
  - reflexivity.
  - unfold addDays, msPerDay.
    destruct (User.subscriptionExpiryDate user) as [e|]; [|lia].
    destruct (User.hasSubscription user && (now <? e))%bool eqn:E; [|lia].
    apply andb_true_iff in E. destruct E as [_ E]. lia.
  - reflexivity.
Qed.

Lemma ledger_addSubscription_snd s u d now :
  ledger (snd (addSubscription s u d now)) = ledger s.
Proof. unfold addSubscription. destruct (mget _ _ _); reflexivity. Qed.

(** X16. Buying the monthly subscription, for a user whose wallet holds at
    least 300 on a sound store: the wallet loses exactly 300, one completed
    [subscription] transaction of -300 is appended, and from then on the
    user counts as subscribed (the commission discount applies) at every
    instant before thirty days after the purchase. *)
Theorem monthly_subscription_costs_300_and_lasts_30_days
  (s : MemStorage) (userId now : Z) (user : User.t) (w : Wallet.t) :
  ledgerSound s ->
  getUser s userId = Some user ->
  getWallet s userId = Some w ->
  (300 <= Wallet.balance w)%Q ->
  fst (post_subscription_purchase s userId now) = Ok 200
  /\ balanceOf (snd (post_subscription_purchase s userId now)) userId
     = Some (Wallet.balance w + - (300))%Q
  /\ transactions (snd (post_subscription_purchase s userId now))
     = transactions s
       ++ [Transaction.mk (transactionIdCounter s) userId (- (300))%Q
             ty_subscription tx_completed (Some MonthlySubscription)
             (Some 0%Q) None now]
  /\ forall t, t < addDays now 30 ->
       subscriptionActive
         (getUser (snd (post_subscription_purchase s userId now)) userId) t = true.
Proof.
  intros Hs Hu Hw Hb. unfold post_subscription_purchase. rewrite Hw.
  rewrite (proj2 (Qltb_false _ _) Hb).
  assert (0 <= Wallet.balance w + - (300))%Q as Hacc by lra.
  pose proof (users_updateWalletBalance s userId (- (300))%Q) as Uu.
  rewrite (updateWalletBalance_accepts s userId _ w Hw Hacc) in *. cbv zeta in *.
  set (w' := Wallet.mk (Wallet.id w) (Wallet.userId w)
               (Wallet.balance w + - (300))%Q (Wallet.createdAt w)) in *.
  set (s1 := with_wallets s (mset Wallet.id (wallets s) w')) in *.
  cbn [snd] in Uu.
  assert (getUser s1 userId = Some user) as Hu1 by (unfold getUser; rewrite Uu; exact Hu).
  destruct (getUser_addSubscription s1 userId 30 now user Hu1 ltac:(lia))
    as [user' [expiry [Gu [_ [Ge [Le _]]]]]].
  pose proof (ledger_addSubscription_snd s1 userId 30 now) as L.
  destruct (addSubscription s1 userId 30 now) as [o2 s2] eqn:E2. cbn [snd] in *.
  pose proof (ledger_fields _ _ L) as [Lw [_ [Lt Lc]]].
  destruct (createTransaction s2 _ now) as [t s3] eqn:E3.
  pose proof (store_of_pair _ _ _ E3) as Hs3. cbn [fst snd].
  split; [reflexivity|]. split; [|split].
  - unfold balanceOf.
    rewrite (getWallet_frame s2 s3 userId) by (rewrite Hs3; reflexivity).
    rewrite (getWallet_frame s1 s2 userId Lw).
    unfold s1. pose proof (getWallet_updated s userId (- (300))%Q w Hw) as G.
    cbv zeta in G. fold w' in G. rewrite G. reflexivity.
  - rewrite Hs3, createTransaction_appends.
    + unfold createTransaction. cbn [fst]. rewrite Lt, Lc. reflexivity.
    + unfold transactionIdsIssued. rewrite Lt, Lc.
      destruct Hs as [_ [_ [_ Ht]]]. exact Ht.
  - intros t0 Ht0.
    assert (getUser s3 userId = Some user') as ->.
    { unfold getUser. rewrite Hs3. unfold createTransaction.
      cbn [snd users with_transactions with_transactionIdCounter]. exact Gu. }
    unfold subscriptionActive. rewrite Ge. lia.
Qed.

(** Alice, holding 1000, buys the monthly subscription at instant 20000. *)
Lemma alice_subscribes_for_a_month :
  fst (post_subscription_purchase twoFundedAccounts 2 20000) = Ok 200
  /\ (exists b,
         balanceOf (snd (post_subscription_purchase twoFundedAccounts 2 20000)) 2 = Some b
         /\ (b == 700)%Q)
  /\ subscriptionActive
       (getUser (snd (post_subscription_purchase twoFundedAccounts 2 20000)) 2)
       (addDays 20000 29) = true.
Proof.
  pose (u := User.mk 2 "alice" "alice@example.com" (Some "ALIC-9ZT1"%string) None
               false None 25 None 0 2000).
  pose (w := Wallet.mk 2 2 (0 + 1000) 2000).
  assert (ledgerSound twoFundedAccounts) as H0 by apply reachable_sound.
  assert (getUser twoFundedAccounts 2 = Some u) as H1 by (vm_compute; reflexivity).
  assert (getWallet twoFundedAccounts 2 = Some w) as H2 by (vm_compute; reflexivity).
  assert (300 <= Wallet.balance w)%Q as H3 by (vm_compute; discriminate).
  destruct (monthly_subscription_costs_300_and_lasts_30_days
              twoFundedAccounts 2 20000 u w H0 H1 H2 H3) as [R [B [_ A]]].
  split; [exact R|]. split.
  - eexists. split; [exact B|]. vm_compute. reflexivity.
  - apply A. vm_compute. reflexivity.
Defined.

(** ** The automatic completion *)

(** X17. The automatic completion never looks at the match: whatever its
    status, and even when it has a winner already, the first captured
    player who is not the automated opponent is paid the pool less the
    commission, and one completed [game_win] transaction is appended.
    Stated for a sound store, a winner with a wallet, a non-negative entry
    and a commission of at most 100 percent. *)
Theorem auto_completion_pays_whatever_the_match_status
  (s : MemStorage) (matchId : Z) (players : list PlayerMatch.t) (aiPlayer : User.t)
  (entryAmount : Q) (game : option Game.t) (now : Z)
  (p : PlayerMatch.t) (w : Wallet.t) :
  ledgerSound s ->
  find (fun q => negb (PlayerMatch.userId q =? User.id aiPlayer)) players = Some p ->
  PlayerMatch.userId p <> 0 ->
  getWallet s (PlayerMatch.userId p) = Some w ->
  (0 <= entryAmount)%Q ->
  (forall g, game = Some g -> Game.commissionPercentage g <= 100)%Q ->
  let winnerId := PlayerMatch.userId p in
  let prizePool := (entryAmount * inject_Z (Z.of_nat (List.length players)))%Q in
  let percentage :=
    match game with Some g => Game.commissionPercentage g | None => 2.5%Q end in
  let discount := subscriptionActive (getUser s winnerId) now in
  let commission := calculateCommission prizePool percentage discount in
  let payout := (prizePool - commission)%Q in
  let s' := autoCompleteTimer s matchId players aiPlayer entryAmount game now in
  balanceOf s' winnerId = Some (Wallet.balance w + payout)%Q
  /\ transactions s'
     = transactions s
       ++ [Transaction.mk (transactionIdCounter s) winnerId payout ty_game_win
             tx_completed (Some (PrizeForWinning (gameNameOr game) discount))
             (Some commission) None now].
Proof.
  intros Hs Hf Hz Hw He Hc winnerId prizePool percentage discount commission payout s'.
  assert (percentage <= 100)%Q as Hpc.
  { unfold percentage. destruct game as [g|]; [apply Hc; reflexivity|].
    vm_compute. discriminate. }
  assert (0 <= payout)%Q as Hpay.
  { apply payout_nonneg; [|exact Hpc].
    apply Qmult_le_0_compat; [exact He|].
    change 0%Q with (inject_Z 0). rewrite <- Zle_Qle. lia. }
  destruct Hs as [Hn [_ [_ Ht]]].
  assert (0 <= Wallet.balance w)%Q as Hb.
  { unfold walletsNonNegative in Hn. rewrite Forall_forall in Hn.
    apply Hn. eapply getWallet_In. exact Hw. }
  subst s'. unfold autoCompleteTimer. rewrite Hf. fold winnerId.
  assert ((winnerId =? 0) = false) as -> by (unfold winnerId; lia).
  fold prizePool. fold percentage. fold discount. fold commission. fold payout.
  set (patch := mkGameMatchPatch (Some completed) (Some (Some winnerId)) None
                                 (Some (Some now))).
  destruct (updateGameMatch s matchId patch) as [o1 s1] eqn:E1.
  assert (s1 = snd (updateGameMatch s matchId patch)) as Hs1 by (rewrite E1; reflexivity).
  set (s2 := settlePlayerStatuses s1 players winnerId).
  assert (ledger s2 = ledger s) as L2.
  { unfold s2. rewrite ledger_settlePlayerStatuses, Hs1. apply ledger_updateGameMatch. }
  apply ledger_fields in L2. destruct L2 as [Lw [_ [Lt Lc]]].
  assert (getWallet s2 winnerId = Some w) as Hw2.
  { rewrite (getWallet_frame s s2 winnerId Lw). exact Hw. }
  assert (0 <= Wallet.balance w + payout)%Q as Hacc by lra.
  rewrite (updateWalletBalance_accepts s2 winnerId payout w Hw2 Hacc).
  cbv zeta.
  set (w' := Wallet.mk (Wallet.id w) (Wallet.userId w) (Wallet.balance w + payout)%Q
                       (Wallet.createdAt w)).
  set (s3 := with_wallets s2 (mset Wallet.id (wallets s2) w')).
  unfold createTransaction, prizeTransaction. cbn [fst snd].
  change (transactionIdCounter s3) with (transactionIdCounter s2).
  change (transactions s3) with (transactions s2).
  rewrite Lc, Lt.
  split.
  - unfold balanceOf.
    match goal with
    | |- option_map _ (getWallet ?x winnerId) = _ =>
      rewrite (getWallet_frame s3 x winnerId eq_refl)
    end.
    pose proof (getWallet_updated s2 winnerId payout w Hw2) as G.
    cbv zeta in G. fold w' in G. fold s3 in G. rewrite G. reflexivity.
  - cbn [transactions with_transactions]. apply mset_fresh. exact Ht.
Qed.

(** Match 1 was completed by hand and Alice paid 540; when the pending
    automatic completion fires she is paid 540 again. *)
Lemma hand_completed_match_is_paid_again :
  matchStatusOf (store completedByHandTimerPending) 1 = Some completed
  /\ (exists b, balanceOf (store completedByHandTimerPending) 2 = Some b /\ (b == 1340)%Q)
  /\ exists b',
       balanceOf (store (run completedByHandTimerPending [Fire 0 21000])) 2 = Some b'
       /\ (b' == 1340 + 540)%Q.
Proof.
  split; [vm_compute; reflexivity|].
  split; [eexists; split; [vm_compute; reflexivity|vm_compute; reflexivity]|].
  pose (p1 := PlayerMatch.mk 1 1 2 joined 10000).
  pose (p2 := PlayerMatch.mk 2 1 4 joined 12000).
  pose (p3 := PlayerMatch.mk 3 1 3 joined 13000).
  pose (ai := User.mk 4 "AI_Player" "ai@example.com" None None false None 0
                (Some 10000) 0 10000).
  pose (g := Game.mk 1 "Ludo Royal" 200 1000 10 true 0).
  pose (w := Wallet.mk 2 2 1340.00 2000).
  assert (store (run completedByHandTimerPending [Fire 0 21000])
          = autoCompleteTimer (store completedByHandTimerPending) 1 [p1; p2; p3] ai 200
              (Some g) 21000) as E by (vm_compute; reflexivity).
  assert (ledgerSound (store completedByHandTimerPending)) as H0
    by apply reachable_sound.
  assert (find (fun q => negb (PlayerMatch.userId q =? User.id ai)) [p1; p2; p3]
          = Some p1) as H1 by reflexivity.
  assert (PlayerMatch.userId p1 <> 0) as H2 by (simpl; lia).
  assert (getWallet (store completedByHandTimerPending) (PlayerMatch.userId p1) = Some w)
    as H3 by (vm_compute; reflexivity).
  assert (0 <= 200)%Q as H4 by (vm_compute; discriminate).
  assert (forall g0, Some g = Some g0 -> Game.commissionPercentage g0 <= 100)%Q as H5.
  { intros g0 G0. inversion G0. vm_compute. discriminate. }
  destruct (auto_completion_pays_whatever_the_match_status
              (store completedByHandTimerPending) 1 [p1; p2; p3] ai 200 (Some g) 21000
              p1 w H0 H1 H2 H3 H4 H5) as [B _].
  rewrite E. eexists. split; [exact B|]. vm_compute. reflexivity.
Defined.

(** ** Buying a subscription plan *)

Lemma users_createSubscriptionRewards s rewards now :
  users (createSubscriptionRewards s rewards now) = users s.
Proof.
  unfold createSubscriptionRewards. revert s.
  induction rewards as [|r rewards IH]; intros s; simpl; [reflexivity|].
  rewrite IH. reflexivity.
Qed.

Lemma users_createGameSubscription s u n a r d sd ed st now :
  users (snd (createGameSubscription s u n a r d sd ed st now)) = users s.
Proof.
  unfold createGameSubscription. cbn [snd].
  rewrite users_createSubscriptionRewards. reflexivity.
Qed.

(** X18. Buying a subscription plan, for a user with a wallet that covers
    a positive price on a sound store, with a positive reward and duration:
    the wallet loses exactly the price, one completed
    [subscription_purchase] transaction of minus the price is appended, and
    the purchase also switches on the commission discount: the user counts
    as subscribed at every instant before [duration] days after the
    purchase. *)
Theorem plan_purchase_debits_the_price_and_grants_the_discount
  (s : MemStorage) (userId : Z) (name : string) (amount rewardAmount : Q)
  (duration now : Z) (user : User.t) (w : Wallet.t) :
  ledgerSound s ->
  getUser s userId = Some user ->
  getWallet s userId = Some w ->
  (0 < amount)%Q -> (0 < rewardAmount)%Q -> 0 < duration ->
  (amount <= Wallet.balance w)%Q ->
  fst (post_subscriptions s userId name amount rewardAmount duration now) = Ok 201
  /\ balanceOf (snd (post_subscriptions s userId name amount rewardAmount duration now))
       userId
     = Some (Wallet.balance w + - amount)%Q
  /\ transactions (snd (post_subscriptions s userId name amount rewardAmount duration now))
     = transactions s
       ++ [Transaction.mk (transactionIdCounter s) userId (- amount)%Q
             ty_subscription_purchase tx_completed
             (Some (PurchasedSubscription name duration)) (Some 0%Q) None now]
  /\ forall t, t < addDays now duration ->
       subscriptionActive
         (getUser (snd (post_subscriptions s userId name amount rewardAmount duration now))
            userId) t = true.
Proof.
  intros Hs Hu Hw Ha Hr Hd Hb. unfold post_subscriptions.
  rewrite (proj2 (Qle_bool_false _ _) Ha), (proj2 (Qle_bool_false _ _) Hr).
  assert ((duration <=? 0) = false) as -> by lia.
  rewrite Hw. rewrite (proj2 (Qltb_false _ _) Hb).
  assert (0 <= Wallet.balance w + - amount)%Q as Hacc by lra.
  pose proof (users_updateWalletBalance s userId (- amount)%Q) as Uu.
  rewrite (updateWalletBalance_accepts s userId _ w Hw Hacc) in *. cbv zeta in *.
  set (w' := Wallet.mk (Wallet.id w) (Wallet.userId w)
               (Wallet.balance w + - amount)%Q (Wallet.createdAt w)) in *.
  set (s1 := with_wallets s (mset Wallet.id (wallets s) w')) in *.
  cbn [snd] in Uu.
  destruct Hs as [_ [_ [_ Ht]]].
  assert (getWallet s1 userId = Some w') as Hw1.
  { pose proof (getWallet_updated s userId (- amount)%Q w Hw) as G.
    cbv zeta in G. exact G. }
  pose proof (createTransaction_appends s1
                (mkInsertTransaction userId (- amount) ty_subscription_purchase
                   tx_completed (Some (PurchasedSubscription name duration)) (Some 0%Q))
                now Ht) as Ta.
  destruct (createTransaction s1 _ now) as [t s2] eqn:E2.
  pose proof (store_of_pair _ _ _ E2) as Hs2. cbn [fst snd] in Ta.
  assert (t = Transaction.mk (transactionIdCounter s) userId (- amount)%Q
                ty_subscription_purchase tx_completed
                (Some (PurchasedSubscription name duration)) (Some 0%Q) None now) as Et.
  { apply (f_equal fst) in E2. cbn [fst] in E2. rewrite <- E2. reflexivity. }
  assert (users s2 = users s) as U2.
  { rewrite Hs2. unfold createTransaction.
    cbn [snd users with_transactions with_transactionIdCounter]. exact Uu. }
  assert (wallets s2 = wallets s1) as W2 by (rewrite Hs2; reflexivity).
  pose proof (ledger_createGameSubscription s2 userId name amount rewardAmount duration
                now (addDays now duration) sub_active now) as L3.
  pose proof (users_createGameSubscription s2 userId name amount rewardAmount duration
                now (addDays now duration) sub_active now) as U3.
  destruct (createGameSubscription s2 userId name amount rewardAmount duration now
              (addDays now duration) sub_active now) as [sub s3] eqn:E3.
  cbn [snd] in L3, U3.
  assert (getUser s3 userId = Some user) as Hu3.
  { unfold getUser. rewrite U3, U2. exact Hu. }
  destruct (getUser_addSubscription s3 userId duration now user Hu3 ltac:(lia))
    as [user' [expiry [Gu [_ [Ge [Le _]]]]]].
  pose proof (ledger_addSubscription_snd s3 userId duration now) as L4.
  destruct (addSubscription s3 userId duration now) as [o4 s4] eqn:E4.
  cbn [snd] in L4, Gu.
  set (rewards := map _ (dayRange duration)).
  pose proof (ledger_createSubscriptionRewards s4 rewards now) as L5.
  pose proof (users_createSubscriptionRewards s4 rewards now) as U5.
  cbn [fst snd].
  assert (ledger (createSubscriptionRewards s4 rewards now) = ledger s2) as L
    by (rewrite L5, L4, L3; reflexivity).
  apply ledger_fields in L. destruct L as [Lw [_ [Lt _]]].
  split; [reflexivity|]. split; [|split].
  - unfold balanceOf. rewrite (getWallet_frame _ _ userId Lw).
    rewrite (getWallet_frame _ _ userId W2), Hw1. reflexivity.
  - rewrite Lt, Ta, Et. reflexivity.
  - intros t0 Ht0. unfold getUser. rewrite U5.
    fold (getUser s4 userId). rewrite Gu.
    unfold subscriptionActive. rewrite Ge. lia.
Qed.

(** Alice spends her 1000 on a 7-day plan: nothing is left in the wallet
    and she is subscribed on the sixth day after the purchase. *)
Lemma alice_buys_a_week_plan :
  fst (post_subscriptions twoFundedAccounts 2 "Basic" 1000 6000 7 20000) = Ok 201
  /\ (exists b,
         balanceOf (snd (post_subscriptions twoFundedAccounts 2 "Basic" 1000 6000 7 20000)) 2
         = Some b
         /\ (b == 0)%Q)
  /\ subscriptionActive
       (getUser (snd (post_subscriptions twoFundedAccounts 2 "Basic" 1000 6000 7 20000)) 2)
       (addDays 20000 6) = true.
Proof.
  pose (u := User.mk 2 "alice" "alice@example.com" (Some "ALIC-9ZT1"%string) None
               false None 25 None 0 2000).
  pose (w := Wallet.mk 2 2 (0 + 1000) 2000).
  assert (ledgerSound twoFundedAccounts) as H0 by apply reachable_sound.
  assert (getUser twoFundedAccounts 2 = Some u) as H1 by (vm_compute; reflexivity).
  assert (getWallet twoFundedAccounts 2 = Some w) as H2 by (vm_compute; reflexivity).
  assert (0 < 1000)%Q as H3 by reflexivity.
  assert (0 < 6000)%Q as H4 by reflexivity.
  assert (0 < 7) as H5 by lia.
  assert (1000 <= Wallet.balance w)%Q as H6 by (vm_compute; discriminate).
  destruct (plan_purchase_debits_the_price_and_grants_the_discount
              twoFundedAccounts 2 "Basic" 1000 6000 7 20000 u w H0 H1 H2 H3 H4 H5 H6)
    as [R [B [_ A]]].
  split; [exact R|]. split.
  - eexists. split; [exact B|]. vm_compute. reflexivity.
  - apply A. vm_compute. reflexivity.
Defined.

(** ** The reward schedule of a plan *)

Lemma createSubscriptionRewards_rows (subscriptionId userId : Z) (amount : Q) (now : Z)
  (days : list Z) (s : MemStorage) :
  rewardIdsIssued s ->
  subscriptionRewards
    (createSubscriptionRewards s
       (map (fun day =>
               mkInsertSubscriptionReward subscriptionId userId amount day reward_pending)
            days) now)
  = subscriptionRewards s
    ++ plannedRewards (subscriptionRewardIdCounter s) subscriptionId userId amount now days.
Proof.
  unfold createSubscriptionRewards. revert s.
  induction days as [|day days IH]; intros s Hs.
  - simpl. rewrite app_nil_r. reflexivity.
  - cbn [map fold_left plannedRewards].
    cbn [ir_subscriptionId ir_userId ir_amount ir_day ir_status].
    set (r := SubscriptionReward.mk (subscriptionRewardIdCounter s) subscriptionId userId
                amount day reward_pending None now).
    assert (mset SubscriptionReward.id (subscriptionRewards s) r
            = subscriptionRewards s ++ [r]) as E by (apply mset_fresh; exact Hs).
    rewrite IH.
    + cbn [subscriptionRewards subscriptionRewardIdCounter with_subscriptionRewards
             with_subscriptionRewardIdCounter].
      rewrite E, <- app_assoc. reflexivity.
    + unfold rewardIdsIssued.
      cbn [subscriptionRewards subscriptionRewardIdCounter with_subscriptionRewards
             with_subscriptionRewardIdCounter].
      rewrite E. apply Forall_app. split.
      * eapply Forall_impl; [|exact Hs]. cbn beta. intros; lia.
      * constructor; [|constructor]. simpl. lia.
Qed.

Lemma plannedRewards_days (nextId subscriptionId userId : Z) (amount : Q) (now : Z)
  (days : list Z) :
  map SubscriptionReward.day
      (plannedRewards nextId subscriptionId userId amount now days) = days.
Proof.
  revert nextId. induction days as [|d days IH]; intros nextId; simpl;
    [reflexivity|rewrite IH; reflexivity].
Qed.

Lemma plannedRewards_total (nextId subscriptionId userId : Z) (amount : Q) (now : Z)
  (days : list Z) :
  (totalOf (plannedRewards nextId subscriptionId userId amount now days)
   == inject_Z (Z.of_nat (List.length days)) * amount)%Q.
Proof.
  unfold totalOf. revert nextId.
  induction days as [|d days IH]; intros nextId.
  - simpl. ring.
  - cbn [plannedRewards map fold_right List.length SubscriptionReward.amount].
    rewrite IH, Nat2Z.inj_succ. unfold Z.succ. rewrite inject_Z_plus.
    change (inject_Z 1) with 1%Q. ring.
Qed.

Lemma toFixed2_near (x : Q) :
  (0 <= x)%Q -> (x - (1 # 200) < toFixed2 x)%Q /\ (toFixed2 x <= x + (1 # 200))%Q.
Proof.
  intros Hx. unfold toFixed2.
  rewrite (proj2 (Qltb_false _ _) Hx).
  destruct (Math_round_bounds (x * 100)) as [Lo Hi]. unfold Math_round in Lo, Hi.
  assert (inject_Z (Qfloor (x * 100 + (1 # 2))) / 100
          == inject_Z (Qfloor (x * 100 + (1 # 2))) * (1 # 100))%Q as -> by field.
  split; lra.
Qed.

(** X19. The schedule [createGameSubscription] writes, on a store whose
    reward ids were issued by the counter, for a positive duration and a
    reward that is not negative: exactly one pending row per day from 1 to
    [duration], numbered consecutively, each of the reward divided by the
    duration and rounded to cents; together the rows differ from the
    promised reward by at most half a cent per day. *)
Theorem plan_schedule_is_one_rounded_share_per_day
  (s : MemStorage) (userId : Z) (name : string) (amount rewardAmount : Q)
  (duration startDate endDate : Z) (status : SubStatus) (now : Z) :
  rewardIdsIssued s ->
  0 < duration ->
  (0 <= rewardAmount)%Q ->
  let s' :=
    snd (createGameSubscription s userId name amount rewardAmount duration
           startDate endDate status now) in
  let share := toFixed2 (rewardAmount / inject_Z duration) in
  let rows :=
    plannedRewards (subscriptionRewardIdCounter s) (subscriptionIdCounter s) userId
      share now (dayRange duration) in
  subscriptionRewards s' = subscriptionRewards s ++ rows
  /\ map SubscriptionReward.day rows = map Z.of_nat (seq 1 (Z.to_nat duration))
  /\ Z.of_nat (List.length rows) = duration
  /\ (rewardAmount - inject_Z duration * (1 # 200) <= totalOf rows)%Q
  /\ (totalOf rows <= rewardAmount + inject_Z duration * (1 # 200))%Q.
Proof.
  intros Hs Hd Hr s' share rows.
  assert (List.length (dayRange duration) = Z.to_nat duration) as Hlen
    by (unfold dayRange; rewrite length_map, length_seq; reflexivity).
  assert (map SubscriptionReward.day rows = dayRange duration) as Hdays
    by apply plannedRewards_days.
  assert (0 < inject_Z duration)%Q as HD
    by (change 0%Q with (inject_Z 0); rewrite <- Zlt_Qlt; exact Hd).
  assert (0 <= rewardAmount / inject_Z duration)%Q as Hx.
  { apply Qle_shift_div_l; [exact HD|]. lra. }
  destruct (toFixed2_near _ Hx) as [Lo Hi]. fold share in Lo, Hi.
  assert (totalOf rows == inject_Z duration * share)%Q as Ht.
  { unfold rows. rewrite plannedRewards_total, Hlen, Z2Nat.id by lia. reflexivity. }
  assert (inject_Z duration * (rewardAmount / inject_Z duration) == rewardAmount)%Q as Hm
    by (field; lra).
  split; [|split; [|split; [|split]]].
  - subst s'. unfold createGameSubscription. cbn [snd Subscription.rewardAmount
      Subscription.duration Subscription.userId].
    fold share.
    set (s1 := with_subscriptions _ _).
    change (subscriptionRewards s) with (subscriptionRewards s1).
    change (subscriptionRewardIdCounter s) with (subscriptionRewardIdCounter s1) in rows.
    apply createSubscriptionRewards_rows. exact Hs.
  - exact Hdays.
  - rewrite <- (length_map SubscriptionReward.day), Hdays, Hlen. lia.
  - rewrite Ht.
    assert (inject_Z duration * (rewardAmount / inject_Z duration - (1 # 200))
            <= inject_Z duration * share)%Q
      by (apply Qmult_le_l; [exact HD|lra]).
    lra.
  - rewrite Ht.
    assert (inject_Z duration * share
            <= inject_Z duration * (rewardAmount / inject_Z duration + (1 # 200)))%Q
      by (apply Qmult_le_l; [exact HD|exact Hi]).
    lra.
Qed.

(** A week's plan promising 6000: seven rows of 857.14, 5999.98 in all. *)
Lemma week_plan_of_6000_pays_5999_98 :
  map SubscriptionReward.day
      (subscriptionRewards
         (snd (createGameSubscription twoFundedAccounts 2 "Basic" 1000 6000 7
                 20000 (addDays 20000 7) sub_active 20000)))
  = [1; 2; 3; 4; 5; 6; 7]
  /\ (totalOf
        (subscriptionRewards
           (snd (createGameSubscription twoFundedAccounts 2 "Basic" 1000 6000 7
                   20000 (addDays 20000 7) sub_active 20000)))
      == 5999.98)%Q.
Proof.
  assert (rewardIdsIssued twoFundedAccounts) as H0 by (vm_compute; constructor).
  assert (0 < 7) as H1 by lia.
  assert (0 <= 6000)%Q as H2 by (vm_compute; discriminate).
  destruct (plan_schedule_is_one_rounded_share_per_day twoFundedAccounts 2 "Basic" 1000
              6000 7 20000 (addDays 20000 7) sub_active 20000 H0 H1 H2) as [E _].
  rewrite E. split; vm_compute; reflexivity.
Defined.

Lemma startOfDay_addDays (d n : Z) : startOfDay (addDays d n) = addDays (startOfDay d) n.
Proof.
  unfold startOfDay, addDays. rewrite Z_mod_plus_full. lia.
Qed.

Lemma plannedRewards_subscriptionId (nextId subscriptionId userId : Z) (amount : Q)
  (now : Z) (days : list Z) :
  Forall (fun r => SubscriptionReward.subscriptionId r = subscriptionId)
         (plannedRewards nextId subscriptionId userId amount now days).
Proof.
  revert nextId. induction days as [|d days IH]; intros nextId; simpl;
    constructor; [reflexivity|apply IH].
Qed.

Lemma plannedRewards_pending (nextId subscriptionId userId : Z) (amount : Q)
  (now : Z) (days : list Z) :
  Forall (fun r => SubscriptionReward.status r = reward_pending)
         (plannedRewards nextId subscriptionId userId amount now days).
Proof.
  revert nextId. induction days as [|d days IH]; intros nextId; simpl;
    constructor; [reflexivity|apply IH].
Qed.

Lemma filter_ext_Forall {A : Type} (f g : A -> bool) (l : list A) :
  Forall (fun x => f x = g x) l -> filter f l = filter g l.
Proof.
  induction 1 as [|x l Hx _ IH]; simpl; [reflexivity|].
  rewrite Hx, IH. reflexivity.
Qed.

(** The row of day [k] among the rows planned for [len] consecutive days
    from [a]. *)
Lemma plannedRewards_of_day (subscriptionId userId : Z) (amount : Q) (now k : Z)
  (len a : nat) (nextId : Z) :
  filter (fun r => SubscriptionReward.day r =? k)
         (plannedRewards nextId subscriptionId userId amount now
            (map Z.of_nat (seq a len)))
  = if ((Z.of_nat a <=? k) && (k <? Z.of_nat a + Z.of_nat len))%bool
    then [SubscriptionReward.mk (nextId + (k - Z.of_nat a)) subscriptionId userId amount k
            reward_pending None now]
    else [].
Proof.
  revert a nextId. induction len as [|len IH]; intros a nextId.
  - simpl. destruct (Z.of_nat a <=? k) eqn:E1; [|reflexivity].
    assert ((k <? Z.of_nat a + 0) = false) as -> by lia. reflexivity.
  - cbn [seq map plannedRewards filter SubscriptionReward.day].
    rewrite IH, !Nat2Z.inj_succ. unfold Z.succ.
    destruct (Z.eqb_spec (Z.of_nat a) k) as [E|E].
    + subst k.
      assert ((Z.of_nat a + 1 <=? Z.of_nat a) = false) as -> by lia.
      assert ((Z.of_nat a <=? Z.of_nat a) = true) as -> by lia.
      assert ((Z.of_nat a <? Z.of_nat a + (Z.of_nat len + 1)) = true) as ->
        by (apply Z.ltb_lt; lia).
      cbn [andb]. replace (nextId + (Z.of_nat a - Z.of_nat a)) with nextId by lia.
      reflexivity.
    + destruct (Z.leb_spec (Z.of_nat a + 1) k) as [L|L].
      * assert ((Z.of_nat a <=? k) = true) as -> by lia. cbn [andb].
        replace (Z.of_nat a + (Z.of_nat len + 1)) with (Z.of_nat a + 1 + Z.of_nat len)
          by lia.
        destruct (k <? Z.of_nat a + 1 + Z.of_nat len); [|reflexivity].
        replace (nextId + 1 + (k - (Z.of_nat a + 1))) with (nextId + (k - Z.of_nat a))
          by lia.
        reflexivity.
      * assert ((Z.of_nat a <=? k) = false) as -> by lia. reflexivity.
Qed.

(** X20. When the rewards of a plan fall due.  After
    [createGameSubscription], on a store whose reward rows carry issued ids
    and refer to issued subscriptions: on the calendar day that lies
    [k - 1] days after the day of the start date, for [k] from 1 to the
    duration, exactly one reward of the plan is selected by the batch, the
    one of day [k]; on a calendar day before the start date's or from
    [duration] days after it, none is. *)
Theorem each_day_of_the_term_has_one_due_reward
  (s : MemStorage) (userId : Z) (name : string) (amount rewardAmount : Q)
  (duration startDate endDate : Z) (status : SubStatus) (now : Z) :
  rewardIdsIssued s ->
  rewardsReferToIssued s ->
  0 < duration ->
  let s' :=
    snd (createGameSubscription s userId name amount rewardAmount duration
           startDate endDate status now) in
  let share := toFixed2 (rewardAmount / inject_Z duration) in
  (forall k date,
      1 <= k <= duration ->
      startOfDay date = addDays (startOfDay startDate) (k - 1) ->
      dueOfSubscription s' (subscriptionIdCounter s) date
      = [SubscriptionReward.mk (subscriptionRewardIdCounter s + (k - 1))
           (subscriptionIdCounter s) userId share k reward_pending None now])
  /\ (forall date,
         startOfDay date < startOfDay startDate
         \/ addDays (startOfDay startDate) duration <= startOfDay date ->
         dueOfSubscription s' (subscriptionIdCounter s) date = []).
Proof.
  intros Hs Hr Hd s' share.
  pose (sub := Subscription.mk (subscriptionIdCounter s) userId name amount rewardAmount
                 duration startDate endDate status now).
  pose (rows := plannedRewards (subscriptionRewardIdCounter s) (subscriptionIdCounter s)
                  userId share now (dayRange duration)).
  assert (subscriptionRewards s' = subscriptionRewards s ++ rows) as Erows.
  { subst s'. unfold createGameSubscription. cbn [snd Subscription.rewardAmount
      Subscription.duration Subscription.userId]. fold share.
    set (s1 := with_subscriptions _ _).
    change (subscriptionRewards s) with (subscriptionRewards s1).
    unfold rows.
    change (subscriptionRewardIdCounter s) with (subscriptionRewardIdCounter s1).
    apply createSubscriptionRewards_rows. exact Hs. }
  assert (mget Subscription.id (subscriptions s') (subscriptionIdCounter s) = Some sub)
    as Esub.
  { subst s'. unfold createGameSubscription. cbn [snd].
    match goal with
    | |- mget _ (subscriptions (createSubscriptionRewards ?a ?b ?c)) _ = _ =>
      assert (subscriptions (createSubscriptionRewards a b c) = subscriptions a) as ->
    end.
    { match goal with
      | |- subscriptions (createSubscriptionRewards ?a ?b ?c) = _ =>
        generalize a; generalize b
      end.
      unfold createSubscriptionRewards.
      intros l. induction l as [|x l IH]; intros a; simpl; [reflexivity|].
      rewrite IH. reflexivity. }
    cbn [subscriptions with_subscriptions with_subscriptionIdCounter].
    exact (mget_mset_same _ Subscription.id (subscriptions s) sub). }
  assert (forall date,
             dueOfSubscription s' (subscriptionIdCounter s) date
             = filter (fun r => startOfDay (addDays startDate (SubscriptionReward.day r - 1))
                                =? startOfDay date) rows) as Edue.
  { intros date. unfold dueOfSubscription.
    rewrite getPendingRewardsByDate_dueOn, Erows, !filter_app.
    assert (filter (fun r => SubscriptionReward.subscriptionId r =? subscriptionIdCounter s)
                   (filter (dueOn s' date) (subscriptionRewards s)) = []) as ->.
    { apply filter_nil_forall. intros r Hin.
      apply filter_In in Hin. destruct Hin as [Hin _].
      unfold rewardsReferToIssued in Hr. rewrite Forall_forall in Hr.
      specialize (Hr r Hin). cbn beta in Hr. apply Z.eqb_neq. lia. }
    cbn [app].
    assert (filter (dueOn s' date) rows
            = filter (fun r => startOfDay (addDays startDate (SubscriptionReward.day r - 1))
                               =? startOfDay date) rows) as ->.
    { apply filter_ext_Forall.
      pose proof (plannedRewards_subscriptionId (subscriptionRewardIdCounter s)
                    (subscriptionIdCounter s) userId share now (dayRange duration)) as Hid.
      pose proof (plannedRewards_pending (subscriptionRewardIdCounter s)
                    (subscriptionIdCounter s) userId share now (dayRange duration)) as Hp.
      fold rows in Hid, Hp. rewrite Forall_forall in *.
      intros r Hin. unfold dueOn. rewrite (Hid r Hin), Esub, (Hp r Hin). reflexivity. }
    pose proof (plannedRewards_subscriptionId (subscriptionRewardIdCounter s)
                  (subscriptionIdCounter s) userId share now (dayRange duration)) as Hid.
    fold rows in Hid.
    match goal with
    | |- filter ?f (filter ?g rows) = _ =>
      assert (forall l, Forall (fun r => SubscriptionReward.subscriptionId r
                                         = subscriptionIdCounter s) l ->
                        filter f (filter g l) = filter g l) as Hk
    end.
    { intros l Hl. induction Hl as [|x l Hx _ IH]; simpl; [reflexivity|].
      destruct (_ =? startOfDay date); [|exact IH].
      simpl. rewrite Hx, Z.eqb_refl, IH. reflexivity. }
    apply Hk. exact Hid. }
  split.
  - intros k date Hk Hday. rewrite Edue.
    assert (filter (fun r => startOfDay (addDays startDate (SubscriptionReward.day r - 1))
                             =? startOfDay date) rows
            = filter (fun r => SubscriptionReward.day r =? k) rows) as ->.
    { apply filter_ext_Forall. apply Forall_forall. intros r _.
      rewrite startOfDay_addDays, Hday. unfold addDays, msPerDay.
      destruct (Z.eqb_spec (SubscriptionReward.day r) k) as [E|E];
        [apply Z.eqb_eq|apply Z.eqb_neq]; lia. }
    unfold rows, dayRange. rewrite plannedRewards_of_day.
    assert (((Z.of_nat 1 <=? k) && (k <? Z.of_nat 1 + Z.of_nat (Z.to_nat duration)))%bool
            = true) as ->
      by (apply andb_true_iff; split; [apply Z.leb_le|apply Z.ltb_lt]; lia).
    replace (k - Z.of_nat 1) with (k - 1) by lia. reflexivity.
  - intros date Hout. rewrite Edue.
    apply filter_nil_forall. intros r Hin.
    rewrite startOfDay_addDays. apply Z.eqb_neq.
    assert (1 <= SubscriptionReward.day r <= duration) as Hday.
    { assert (In (SubscriptionReward.day r) (dayRange duration)) as Hd'.
      { rewrite <- (plannedRewards_days (subscriptionRewardIdCounter s)
                      (subscriptionIdCounter s) userId share now (dayRange duration)).
        apply in_map. exact Hin. }
      unfold dayRange in Hd'. apply in_map_iff in Hd'.
      destruct Hd' as [n [En Hn]]. apply in_seq in Hn. lia. }
    unfold addDays, msPerDay in *. lia.
Qed.

(** A week's plan starting on day zero: at any instant of the third
    calendar day the batch selects its third reward and no other. *)
Lemma third_day_of_a_week_plan :
  exists r,
    dueOfSubscription
      (snd (createGameSubscription twoFundedAccounts 2 "Basic" 1000 6000 7
              20000 (addDays 20000 7) sub_active 20000))
      (subscriptionIdCounter twoFundedAccounts) (addDays 50000 2) = [r]
    /\ SubscriptionReward.day r = 3
    /\ SubscriptionReward.id r = 3
    /\ (SubscriptionReward.amount r == 857.14)%Q.
Proof.
  assert (rewardIdsIssued twoFundedAccounts) as H0 by (vm_compute; constructor).
  assert (rewardsReferToIssued twoFundedAccounts) as H1 by (vm_compute; constructor).
  assert (0 < 7) as H2 by lia.
  destruct (each_day_of_the_term_has_one_due_reward twoFundedAccounts 2 "Basic" 1000
              6000 7 20000 (addDays 20000 7) sub_active 20000 H0 H1 H2) as [D _].
  eexists. split; [|split; [|split]].
  - apply (D 3 (addDays 50000 2)); [lia|vm_compute; reflexivity].
  - reflexivity.
  - vm_compute. reflexivity.
  - vm_compute. reflexivity.
Defined.

(** ** The loyalty system *)

Lemma getUser_updateLastLogin (s : MemStorage) (userId now : Z) (user : User.t) :
  getUser s userId = Some user ->
  exists user',
    updateLastLogin s userId now
    = (Some user', with_users s (mset User.id (users s) user'))
    /\ getUser (snd (updateLastLogin s userId now)) userId = Some user'
    /\ User.lastLoginDate user' = Some now
    /\ User.rewardPoints user' = User.rewardPoints user
    /\ User.dailyStreak user'
       = match User.lastLoginDate user with
         | Some last =>
           if (now - last) / msPerDay =? 1 then User.dailyStreak user + 1
           else if 1 <? (now - last) / msPerDay then 1
           else User.dailyStreak user
         | None => 1
         end.
Proof.
  intros H. unfold getUser in H. unfold updateLastLogin. rewrite H.
  pose proof (mget_Some_key _ _ _ _ _ H) as K. subst userId.
  eexists. split; [reflexivity|]. split.
  - cbn [snd]. unfold getUser. cbn [users with_users].
    match goal with
    | |- mget User.id (mset User.id _ ?v) _ = _ =>
      exact (mget_mset_same _ User.id (users s) v)
    end.
  - cbn. auto.
Qed.

(** X21. The streak rule of [updateLastLogin], in hours: the first login
    ever sets the streak to 1; a login less than 24 hours after the
    previous one leaves the streak as it is; one from 24 to less than 48
    hours after it adds one; one 48 hours or more after it sets the streak
    back to 1.  Every login becomes the new reference instant. *)
Theorem streak_counts_elapsed_days_since_the_last_login
  (s : MemStorage) (userId now : Z) (user : User.t) :
  getUser s userId = Some user ->
  exists user',
    getUser (snd (updateLastLogin s userId now)) userId = Some user'
    /\ User.lastLoginDate user' = Some now
    /\ match User.lastLoginDate user with
       | None => User.dailyStreak user' = 1
       | Some last =>
         (now - last < msPerDay -> User.dailyStreak user' = User.dailyStreak user)
         /\ (msPerDay <= now - last < 2 * msPerDay ->
             User.dailyStreak user' = User.dailyStreak user + 1)
         /\ (2 * msPerDay <= now - last -> User.dailyStreak user' = 1)
       end.
Proof.
  intros Hu.
  destruct (getUser_updateLastLogin s userId now user Hu) as [user' [_ [G [L [_ D]]]]].
  exists user'. split; [exact G|]. split; [exact L|].
  destruct (User.lastLoginDate user) as [last|]; [|exact D].
  assert (0 < msPerDay) as Hpos by reflexivity.
  pose proof (Z.div_mod (now - last) msPerDay ltac:(lia)) as Hdm.
  pose proof (Z.mod_pos_bound (now - last) msPerDay Hpos) as Hmod.
  set (q := (now - last) / msPerDay) in *.
  split; [|split]; intros Hgap.
  - assert (q <= 0) by nia.
    destruct (Z.eqb_spec q 1); [lia|]. destruct (Z.ltb_spec 1 q); [lia|]. exact D.
  - assert (q = 1) by nia.
    destruct (Z.eqb_spec q 1); [exact D|lia].
  - assert (2 <= q) by nia.
    destruct (Z.eqb_spec q 1); [lia|]. destruct (Z.ltb_spec 1 q); [exact D|lia].
Qed.

Lemma last_cons_default {A : Type} (l : list A) (a d : A) :
  List.last (a :: l) d = List.last l a.
Proof.
  revert a d. induction l as [|b l IH]; intros a d; [reflexivity|].
  change (List.last (a :: b :: l) d) with (List.last (b :: l) d).
  rewrite (IH b d), (IH b a). reflexivity.
Qed.

Lemma record_login_within_a_day (s : MemStorage) (userId now last : Z) (user : User.t) :
  getUser s userId = Some user ->
  User.lastLoginDate user = Some last ->
  now - last < msPerDay ->
  exists user',
    getUser (snd (post_record_login s userId now)) userId = Some user'
    /\ User.lastLoginDate user' = Some now
    /\ User.dailyStreak user' = User.dailyStreak user
    /\ User.rewardPoints user'
       = User.rewardPoints user
         + loginPoints (if User.dailyStreak user =? 0 then 1 else User.dailyStreak user).
Proof.
  intros Hu Hl Hgap.
  destruct (getUser_updateLastLogin s userId now user Hu) as [u1 [E [G [L [P D]]]]].
  assert (User.dailyStreak u1 = User.dailyStreak user) as D1.
  { rewrite Hl in D.
    assert (0 < msPerDay) as Hpos by reflexivity.
    pose proof (Z.div_mod (now - last) msPerDay ltac:(lia)) as Hdm.
    pose proof (Z.mod_pos_bound (now - last) msPerDay Hpos) as Hmod.
    set (q := (now - last) / msPerDay) in *.
    assert (q <= 0) by nia.
    destruct (Z.eqb_spec q 1); [lia|]. destruct (Z.ltb_spec 1 q); [lia|]. exact D. }
  unfold post_record_login. rewrite E in *. cbn [snd] in G.
  set (s1 := with_users s (mset User.id (users s) u1)) in *.
  rewrite D1.
  set (pts := loginPoints _).
  unfold addRewardPoints. unfold getUser in G. rewrite G. cbn [snd].
  eexists. split.
  - unfold getUser. cbn [users with_users].
    pose proof (mget_Some_key _ _ _ _ _ G) as K. rewrite <- K.
    match goal with
    | |- mget User.id (mset User.id _ ?v) _ = _ =>
      exact (mget_mset_same _ User.id (users s1) v)
    end.
  - cbn [User.lastLoginDate User.dailyStreak User.rewardPoints].
    split; [exact L|]. split; [exact D1|]. rewrite P. reflexivity.
Qed.

(** X22. Recorded logins that each come less than 24 hours after the one
    before never move the streak, however many calendar days they span,
    and every one of them is paid: the user's points grow by the login
    points of the unchanged streak once per call. *)
Theorem logins_less_than_a_day_apart_keep_the_streak_and_all_pay
  (s : MemStorage) (userId last : Z) (times : list Z) (user : User.t) :
  getUser s userId = Some user ->
  User.lastLoginDate user = Some last ->
  lessThanADayApart last times ->
  exists user',
    getUser (recordLogins s userId times) userId = Some user'
    /\ User.dailyStreak user' = User.dailyStreak user
    /\ User.lastLoginDate user' = Some (List.last times last)
    /\ User.rewardPoints user'
       = User.rewardPoints user
         + Z.of_nat (List.length times)
           * loginPoints (if User.dailyStreak user =? 0 then 1 else User.dailyStreak user).
Proof.
  unfold recordLogins. revert s last user.
  induction times as [|now times IH]; intros s last user Hu Hl Hgap.
  - exists user. cbn [fold_left List.last List.length]. repeat split; try assumption. lia.
  - destruct Hgap as [Hnow Hrest].
    destruct (record_login_within_a_day s userId now last user Hu Hl Hnow)
      as [u1 [G1 [L1 [D1 P1]]]].
    destruct (IH _ now u1 G1 L1 Hrest) as [user' [G [D [L P]]]].
    exists user'. cbn [fold_left]. split; [exact G|]. split; [congruence|]. split.
    + rewrite L. f_equal. symmetry. apply last_cons_default.
    + rewrite P, P1, D1. cbn [List.length]. rewrite Nat2Z.inj_succ. lia.
Qed.

(** Alice, whose streak is 1 since her login at instant 100 000, comes back
    25 hours later: the streak is 2. *)
Lemma alice_returns_after_25_hours :
  exists user',
    getUser (snd (updateLastLogin aliceLoggedInOnce 2 (100000 + 25 * 3600000))) 2
    = Some user'
    /\ User.dailyStreak user' = 2.
Proof.
  pose (u := User.mk 2 "alice" "alice@example.com" (Some "ALIC-9ZT1"%string) None
               false None 35 (Some 100000) 1 2000).
  assert (getUser aliceLoggedInOnce 2 = Some u) as H0 by (vm_compute; reflexivity).
  destruct (streak_counts_elapsed_days_since_the_last_login aliceLoggedInOnce 2
              (100000 + 25 * 3600000) u H0) as [user' [G [_ R]]].
  exists user'. split; [exact G|].
  cbn [User.lastLoginDate u] in R. destruct R as [_ [R _]].
  rewrite R; [reflexivity|]. unfold msPerDay. lia.
Defined.

(** Alice logs in every 23 hours, three times: nearly three days later her
    streak is still 1, and she has collected 10 points each time. *)
Lemma alice_logs_in_every_23_hours :
  exists user',
    getUser (recordLogins aliceLoggedInOnce 2
               [100000 + 23 * 3600000; 100000 + 46 * 3600000; 100000 + 69 * 3600000]) 2
    = Some user'
    /\ User.dailyStreak user' = 1
    /\ User.rewardPoints user' = 35 + 30.
Proof.
  pose (u := User.mk 2 "alice" "alice@example.com" (Some "ALIC-9ZT1"%string) None
               false None 35 (Some 100000) 1 2000).
  assert (getUser aliceLoggedInOnce 2 = Some u) as H0 by (vm_compute; reflexivity).
  assert (User.lastLoginDate u = Some 100000) as H1 by reflexivity.
  assert (lessThanADayApart 100000
            [100000 + 23 * 3600000; 100000 + 46 * 3600000; 100000 + 69 * 3600000]) as H2
    by (unfold lessThanADayApart, msPerDay; lia).
  destruct (logins_less_than_a_day_apart_keep_the_streak_and_all_pay aliceLoggedInOnce 2
              100000 _ u H0 H1 H2) as [user' [G [D [_ P]]]].
  exists user'. split; [exact G|]. split; [exact D|]. rewrite P. reflexivity.
Defined.

(** X23. The loyalty profile is consistent with its own tiers: for a user
    below Platinum, earning exactly [pointsToNextTier] more points reaches
    [nextTier], and any smaller number of points leaves the tier as it is;
    a Platinum user has no next tier and nothing left to earn. *)
Theorem points_to_next_tier_are_exact
  (s : MemStorage) (userId : Z) (profile : LoyaltyProfile) :
  get_loyalty_profile s userId = Some profile ->
  lp_tier profile = tierOfPoints (lp_rewardPoints profile)
  /\ match lp_nextTier profile with
     | Some next =>
       0 < lp_pointsToNextTier profile
       /\ tierOfPoints (lp_rewardPoints profile + lp_pointsToNextTier profile) = next
       /\ next <> lp_tier profile
       /\ forall more, 0 <= more < lp_pointsToNextTier profile ->
            tierOfPoints (lp_rewardPoints profile + more) = lp_tier profile
     | None => lp_tier profile = Platinum /\ lp_pointsToNextTier profile = 0
     end.
Proof.
  unfold get_loyalty_profile. destruct (getUser s userId) as [user|]; [|discriminate].
  intros H.
  match type of H with
  | Some ?p = Some profile => assert (profile = p) as -> by congruence
  end.
  clear H.
  cbv beta iota delta [lp_tier lp_nextTier lp_pointsToNextTier lp_rewardPoints].
  split; [reflexivity|].
  set (points := User.rewardPoints user).
  unfold tierOfPoints.
  destruct (Z.leb_spec 1000 points) as [H1|H1]; [split; reflexivity|].
  destruct (Z.leb_spec 500 points) as [H2|H2].
  { cbv iota. split; [lia|]. split; [|split; [discriminate|]].
    - replace (points + (1000 - points)) with 1000 by lia. reflexivity.
    - intros more Hm.
      destruct (Z.leb_spec 1000 (points + more)); [lia|].
      destruct (Z.leb_spec 500 (points + more)); [reflexivity|lia]. }
  destruct (Z.leb_spec 200 points) as [H3|H3].
  { cbv iota. split; [lia|]. split; [|split; [discriminate|]].
    - replace (points + (500 - points)) with 500 by lia. reflexivity.
    - intros more Hm.
      destruct (Z.leb_spec 1000 (points + more)); [lia|].
      destruct (Z.leb_spec 500 (points + more)); [lia|].
      destruct (Z.leb_spec 200 (points + more)); [reflexivity|lia]. }
  cbv iota. split; [lia|]. split; [|split; [discriminate|]].
  - replace (points + (200 - points)) with 200 by lia. reflexivity.
  - intros more Hm.
    destruct (Z.leb_spec 1000 (points + more)); [lia|].
    destruct (Z.leb_spec 500 (points + more)); [lia|].
    destruct (Z.leb_spec 200 (points + more)); [lia|reflexivity].
Qed.

(** Alice with her 125 points: Bronze, 75 points short of Silver. *)
Lemma alice_is_75_points_from_silver :
  exists profile,
    get_loyalty_profile aliceReferredCarol 2 = Some profile
    /\ lp_tier profile = Bronze
    /\ lp_pointsToNextTier profile = 75
    /\ tierOfPoints (lp_rewardPoints profile + lp_pointsToNextTier profile) = Silver.
Proof.
  pose (profile := mkLoyaltyProfile 125 0 None Bronze (Some Silver) 75).
  assert (get_loyalty_profile aliceReferredCarol 2 = Some profile) as H0
    by (vm_compute; reflexivity).
  destruct (points_to_next_tier_are_exact aliceReferredCarol 2 profile H0) as [_ R].
  cbn [lp_nextTier profile] in R. destruct R as [_ [R _]].
  exists profile. split; [exact H0|]. split; [reflexivity|]. split; [reflexivity|].
  exact R.
Defined.

(** ** The waitlist *)

(** X24. The waitlist holds an address once, whatever its letter case.  On
    a well-formed list, [addToWaitlist] leaves the list well formed and
    returns an entry of the list that holds the address up to case; any
    later call with an address equal up to case returns that same entry
    and changes nothing. *)
Theorem waitlist_holds_an_address_once
  (s : Waitlist.Store) (email : string) (now : Z) :
  Waitlist.wellFormed s ->
  let entry := fst (Waitlist.addToWaitlist s email now) in
  let s' := snd (Waitlist.addToWaitlist s email now) in
  Waitlist.wellFormed s'
  /\ In entry (Waitlist.waitlistEmails s')
  /\ toLowerCase (Waitlist.email entry) = toLowerCase email
  /\ forall (again : string) (later : Z),
       toLowerCase again = toLowerCase email ->
       Waitlist.addToWaitlist s' again later = (entry, s').
Proof.
  intros [Hnd Hid] entry s'. subst entry s'. unfold Waitlist.addToWaitlist.
  destruct (find _ (Waitlist.waitlistEmails s)) as [existing|] eqn:F.
  - cbn [fst snd]. apply find_some in F as F'. destruct F' as [Hin He].
    apply String.eqb_eq in He.
    split; [split; assumption|]. split; [exact Hin|]. split; [exact He|].
    intros again later Ha. rewrite Ha, F. reflexivity.
  - unfold Waitlist.wellFormed.
    cbn [fst snd Waitlist.waitlistEmails Waitlist.waitlistIdCounter].
    set (e := Waitlist.mk (Waitlist.waitlistIdCounter s) email now).
    assert (mset Waitlist.id (Waitlist.waitlistEmails s) e
            = Waitlist.waitlistEmails s ++ [e]) as E by (apply mset_fresh; exact Hid).
    rewrite E.
    split; [split|split; [|split]].
    + rewrite map_app. apply NoDup_app; [exact Hnd| |].
      * simpl. constructor; [intros []|constructor].
      * intros a Ha [<-|[]]. apply in_map_iff in Ha. destruct Ha as [x [Hx Hin]].
        pose proof (find_none _ _ F x Hin) as N. cbn beta in N.
        apply String.eqb_neq in N. apply N. exact Hx.
    + apply Forall_app. split.
      * eapply Forall_impl; [|exact Hid]. cbn beta. intros; lia.
      * constructor; [|constructor]. simpl. lia.
    + apply in_or_app. right. left. reflexivity.
    + reflexivity.
    + intros again later Ha. rewrite Ha, find_append, F.
      cbn [find Waitlist.email e]. rewrite String.eqb_refl. reflexivity.
Qed.

(** The same address in two spellings: one entry. *)
Lemma one_address_in_two_spellings :
  Waitlist.addToWaitlist
    (snd (Waitlist.addToWaitlist Waitlist.emptyStore "Alice@Example.com" 1000))
    "alice@example.COM" 2000
  = (Waitlist.mk 1 "Alice@Example.com" 1000,
     Waitlist.mkStore [Waitlist.mk 1 "Alice@Example.com" 1000] 2).
Proof.
  assert (Waitlist.wellFormed Waitlist.emptyStore) as H0
    by (split; constructor).
  destruct (waitlist_holds_an_address_once Waitlist.emptyStore "Alice@Example.com" 1000 H0)
    as [_ [_ [_ A]]].
  rewrite (A "alice@example.COM" 2000); reflexivity.
Defined.

(** ** Chat rooms *)

Section StringMapFacts.

Variable V : Type.

Lemma shas_false_sget (m : list (string * V)) (k : string) :
  ChatRooms.shas m k = false -> ChatRooms.sget m k = None.
Proof.
  unfold ChatRooms.shas, ChatRooms.sget. induction m as [|a m IH]; simpl; [reflexivity|].
  destruct (String.eqb (fst a) k); simpl; [discriminate|exact IH].
Qed.

Lemma sget_Some_shas (m : list (string * V)) (k : string) (v : V) :
  ChatRooms.sget m k = Some v -> ChatRooms.shas m k = true.
Proof.
  intros H. destruct (ChatRooms.shas m k) eqn:E; [reflexivity|].
  rewrite (shas_false_sget _ _ E) in H. discriminate.
Qed.

Lemma sget_replace (m : list (string * V)) (k k' : string) (v : V) :
  ChatRooms.sget (map (fun e => if String.eqb (fst e) k then (k, v) else e) m) k'
  = if String.eqb k k'
    then (if ChatRooms.shas m k' then Some v else None)
    else ChatRooms.sget m k'.
Proof.
  unfold ChatRooms.sget, ChatRooms.shas. induction m as [|a m IH]; simpl.
  - destruct (String.eqb k k'); reflexivity.
  - revert IH.
    destruct (String.eqb_spec (fst a) k) as [Ea|Ea];
      destruct (String.eqb_spec k k') as [Ek|Ek];
      destruct (String.eqb_spec (fst a) k') as [Ea'|Ea'];
      simpl; intros IH; try congruence;
      repeat match goal with
             | |- context [String.eqb ?x ?y] =>
               destruct (String.eqb_spec x y); simpl; try congruence
             end.
Qed.

Lemma sget_sset_same (m : list (string * V)) (k : string) (v : V) :
  ChatRooms.sget (ChatRooms.sset m k v) k = Some v.
Proof.
  unfold ChatRooms.sset. destruct (ChatRooms.shas m k) eqn:E.
  - rewrite sget_replace, String.eqb_refl, E. reflexivity.
  - unfold ChatRooms.sget. rewrite find_append.
    pose proof (shas_false_sget _ _ E) as N. unfold ChatRooms.sget in N.
    destruct (find _ m); [discriminate|]. simpl. rewrite String.eqb_refl. reflexivity.
Qed.

Lemma sget_sset_other (m : list (string * V)) (k k' : string) (v : V) :
  k <> k' -> ChatRooms.sget (ChatRooms.sset m k v) k' = ChatRooms.sget m k'.
Proof.
  intros N. unfold ChatRooms.sset. destruct (ChatRooms.shas m k).
  - rewrite sget_replace. destruct (String.eqb_spec k k'); [contradiction|reflexivity].
  - unfold ChatRooms.sget. rewrite find_append.
    destruct (find _ m); [reflexivity|]. simpl.
    destruct (String.eqb_spec k k'); [contradiction|reflexivity].
Qed.

Lemma sget_sdelete_same (m : list (string * V)) (k : string) :
  ChatRooms.sget (ChatRooms.sdelete m k) k = None.
Proof.
  unfold ChatRooms.sget, ChatRooms.sdelete. induction m as [|a m IH]; simpl; [reflexivity|].
  destruct (String.eqb (fst a) k) eqn:E; simpl; [exact IH|]. rewrite E. exact IH.
Qed.

Lemma sget_sdelete_other (m : list (string * V)) (k k' : string) :
  k <> k' -> ChatRooms.sget (ChatRooms.sdelete m k) k' = ChatRooms.sget m k'.
Proof.
  intros N. unfold ChatRooms.sget, ChatRooms.sdelete.
  induction m as [|a m IH]; simpl; [reflexivity|].
  destruct (String.eqb_spec (fst a) k) as [E|E]; simpl.
  - destruct (String.eqb_spec (fst a) k') as [E'|E']; [congruence|exact IH].
  - destruct (String.eqb (fst a) k'); [reflexivity|exact IH].
Qed.

Lemma keys_sset_present (m : list (string * V)) (k : string) (v : V) :
  ChatRooms.shas m k = true -> map fst (ChatRooms.sset m k v) = map fst m.
Proof.
  intros H. unfold ChatRooms.sset. rewrite H. clear H.
  induction m as [|a m IH]; simpl; [reflexivity|].
  rewrite IH. destruct (String.eqb_spec (fst a) k) as [E|E]; simpl; congruence.
Qed.

Lemma shas_false_notin (m : list (string * V)) (k : string) :
  ChatRooms.shas m k = false -> ~ In k (map fst m).
Proof.
  intros H C. apply in_map_iff in C. destruct C as [x [Hk Hx]].
  assert (ChatRooms.shas m k = true) as E.
  { unfold ChatRooms.shas. apply existsb_exists. exists x. split; [exact Hx|].
    apply String.eqb_eq. exact Hk. }
  congruence.
Qed.

Lemma notin_shas_false (m : list (string * V)) (k : string) :
  ~ In k (map fst m) -> ChatRooms.shas m k = false.
Proof.
  intros H. destruct (ChatRooms.shas m k) eqn:E; [|reflexivity].
  unfold ChatRooms.shas in E. apply existsb_exists in E. destruct E as [x [Hx Hk]].
  apply String.eqb_eq in Hk. exfalso. apply H. apply in_map_iff. exists x. tauto.
Qed.

Lemma sdelete_absent (m : list (string * V)) (k : string) :
  ChatRooms.shas m k = false -> ChatRooms.sdelete m k = m.
Proof.
  unfold ChatRooms.shas, ChatRooms.sdelete. induction m as [|a m IH]; simpl; [reflexivity|].
  destruct (String.eqb (fst a) k); simpl; [discriminate|]. intros H. rewrite IH; auto.
Qed.

Lemma sreplace_absent (m : list (string * V)) (k : string) (v : V) :
  ChatRooms.shas m k = false ->
  map (fun e => if String.eqb (fst e) k then (k, v) else e) m = m.
Proof.
  unfold ChatRooms.shas. induction m as [|a m IH]; simpl; [reflexivity|].
  destruct (String.eqb (fst a) k); simpl; [discriminate|]. intros H. rewrite IH; auto.
Qed.

Lemma NoDup_keys_sset (m : list (string * V)) (k : string) (v : V) :
  NoDup (map fst m) -> NoDup (map fst (ChatRooms.sset m k v)).
Proof.
  intros H. destruct (ChatRooms.shas m k) eqn:E.
  - rewrite keys_sset_present by exact E. exact H.
  - unfold ChatRooms.sset. rewrite E, map_app. apply NoDup_app; [exact H| |].
    + simpl. constructor; [intros []|constructor].
    + intros a Ha [<-|[]]. apply shas_false_notin in E. contradiction.
Qed.

(** Writing the value of a key: among the values that satisfy [q], the
    key counts once if its new value does, and the others are untouched. *)
Lemma count_sset (q : V -> bool) (m : list (string * V)) (k : string) (v : V) :
  NoDup (map fst m) ->
  List.length (filter (fun e => q (snd e)) (ChatRooms.sset m k v))
  = (List.length (filter (fun e => q (snd e)) (ChatRooms.sdelete m k))
     + (if q v then 1 else 0))%nat.
Proof.
  intros Hnd. unfold ChatRooms.sset. destruct (ChatRooms.shas m k) eqn:E.
  - induction m as [|a m IH]; [discriminate|].
    inversion Hnd as [|x l Hnotin Hnd' Heq]; subst.
    cbn [map ChatRooms.sdelete filter].
    destruct (String.eqb_spec (fst a) k) as [Ea|Ea].
    + subst k. apply notin_shas_false in Hnotin.
      rewrite (sreplace_absent _ _ v Hnotin). cbn [negb].
      fold (ChatRooms.sdelete m (fst a)). rewrite (sdelete_absent _ _ Hnotin).
      cbn [filter snd]. destruct (q v); simpl; lia.
    + cbn [negb]. fold (ChatRooms.sdelete m k).
      assert (ChatRooms.shas m k = true) as E'.
      { unfold ChatRooms.shas in *. cbn [existsb] in E.
        destruct (String.eqb_spec (fst a) k); [contradiction|exact E]. }
      cbn [filter]. destruct (q (snd a)); cbn [List.length]; rewrite (IH Hnd' E'); lia.
  - rewrite (sdelete_absent _ _ E), filter_app, length_app. cbn [filter snd].
    destruct (q v); reflexivity.
Qed.

End StringMapFacts.

(** X25. A socket is counted in one room only.  When a socket joins a
    room, the user count sent to that room is the number of other sockets
    in it plus one, whether or not the socket was in the room before; and
    in every other room the count no longer includes the socket, although
    it never left that room.  Stated for socket ids that are distinct. *)
Theorem join_counts_the_socket_in_one_room_only
  (st : ChatRooms.State) (socketId : string) (userId : ChatRooms.JsId)
  (username roomId : string) :
  NoDup (map fst (ChatRooms.activeUsers st)) ->
  roomId <> EmptyString ->
  let st' := fst (ChatRooms.joinRoom st socketId userId username roomId) in
  let others := ChatRooms.sdelete (ChatRooms.activeUsers st) socketId in
  (exists history,
      snd (ChatRooms.joinRoom st socketId userId username roomId)
      = Some (history, ChatRooms.userCount others roomId + 1))
  /\ ChatRooms.userCount (ChatRooms.activeUsers st') roomId
     = ChatRooms.userCount others roomId + 1
  /\ (forall r, r <> roomId ->
        ChatRooms.userCount (ChatRooms.activeUsers st') r = ChatRooms.userCount others r)
  /\ NoDup (map fst (ChatRooms.activeUsers st')).
Proof.
  intros Hnd Hr st' others.
  set (me := ChatRooms.mkActiveUser userId username (Some roomId)).
  set (users' := ChatRooms.sset (ChatRooms.activeUsers st) socketId me).
  assert (forall r,
             ChatRooms.userCount users' r
             = ChatRooms.userCount others r + (if String.eqb roomId r then 1 else 0)) as Hc.
  { intros r. unfold ChatRooms.userCount, users', others.
    rewrite (count_sset _
               (fun u => match ChatRooms.au_currentRoom u with
                         | Some r0 => String.eqb r0 r
                         | None => false
                         end) _ socketId me Hnd).
    cbn [ChatRooms.au_currentRoom me]. destruct (String.eqb roomId r); lia. }
  assert (Chat.isEmpty roomId = false) as Hne
    by (destruct roomId; [contradiction|reflexivity]).
  assert (ChatRooms.activeUsers st' = users'
          /\ exists history,
               snd (ChatRooms.joinRoom st socketId userId username roomId)
               = Some (history, ChatRooms.userCount users' roomId)) as [Eu [h Eh]].
  { subst st'. unfold ChatRooms.joinRoom. rewrite Hne. fold me. fold users'.
    destruct (ChatRooms.sget (ChatRooms.chatRooms st) roomId) as [room|].
    - destruct (existsb _ _);
        destruct (Chat.get _ roomId); cbn [fst snd ChatRooms.activeUsers];
          (split; [reflexivity|eexists; reflexivity]).
    - destruct (String.prefix _ _);
        destruct (Chat.get _ roomId); cbn [fst snd ChatRooms.activeUsers];
          (split; [reflexivity|eexists; reflexivity]). }
  split; [|split; [|split]].
  - exists h. rewrite Eh, Hc, String.eqb_refl. reflexivity.
  - rewrite Eu, Hc, String.eqb_refl. reflexivity.
  - intros r Hneq. rewrite Eu, Hc.
    destruct (String.eqb_spec roomId r); [congruence|lia].
  - rewrite Eu. apply NoDup_keys_sset. exact Hnd.
Qed.

(** Alice's socket joins the room of match 7 without leaving the global
    room: it is counted there and no longer in the global room. *)
Lemma alice_moves_to_the_game_room :
  ChatRooms.userCount
    (ChatRooms.activeUsers
       (fst (ChatRooms.joinRoom aliceInGlobal "s1" (ChatRooms.NumId 2) "alice" "game-7")))
    "game-7" = 1
  /\ ChatRooms.userCount (ChatRooms.activeUsers aliceInGlobal) "global" = 1
  /\ ChatRooms.userCount
       (ChatRooms.activeUsers
          (fst (ChatRooms.joinRoom aliceInGlobal "s1" (ChatRooms.NumId 2) "alice" "game-7")))
       "global" = 0.
Proof.
  assert (NoDup (map fst (ChatRooms.activeUsers aliceInGlobal))) as H0
    by (vm_compute; constructor; [intros []|constructor]).
  assert ("game-7"%string <> EmptyString) as H1 by discriminate.
  destruct (join_counts_the_socket_in_one_room_only aliceInGlobal "s1" (ChatRooms.NumId 2)
              "alice" "game-7" H0 H1) as [_ [A [B _]]].
  split; [rewrite A; reflexivity|]. split; [reflexivity|].
  rewrite (B "global"%string); [reflexivity|discriminate].
Defined.

(** X26. Leaving a room that exists.  When a private room has no
    participant left once the leaving id is removed, the room is deleted
    together with its message history, so that the history later asked for
    is empty; in every other case the room stays, without the leaving id,
    and the histories are untouched. *)
Theorem last_leave_deletes_a_private_room_and_its_history
  (st : ChatRooms.State) (socketId : string) (userId : ChatRooms.JsId)
  (roomId : string) (room : ChatRooms.Room) :
  roomId <> EmptyString ->
  ChatRooms.sget (ChatRooms.chatRooms st) roomId = Some room ->
  let st' := fst (ChatRooms.leaveRoom st socketId userId roomId) in
  let remaining :=
    filter (fun id => negb (ChatRooms.JsId_eqb id userId))
           (ChatRooms.room_participants room) in
  (ChatRooms.room_type room = ChatRooms.PrivateRoom -> remaining = [] ->
     ChatRooms.sget (ChatRooms.chatRooms st') roomId = None
     /\ Chat.has (ChatRooms.messageHistory st') roomId = false
     /\ Chat.getMessageHistory (ChatRooms.messageHistory st') roomId = [])
  /\ (ChatRooms.room_type room <> ChatRooms.PrivateRoom \/ remaining <> [] ->
      ChatRooms.sget (ChatRooms.chatRooms st') roomId
      = Some (ChatRooms.withParticipants room remaining)
      /\ ChatRooms.messageHistory st' = ChatRooms.messageHistory st).
Proof.
  intros Hr Hroom st' remaining.
  assert (Chat.isEmpty roomId = false) as Hne
    by (destruct roomId; [contradiction|reflexivity]).
  subst st'. unfold ChatRooms.leaveRoom. rewrite Hne, Hroom. cbv zeta.
  fold remaining.
  cbn [ChatRooms.room_type ChatRooms.room_participants ChatRooms.withParticipants].
  split.
  - intros Ht He. rewrite Ht, He. cbn [ChatRooms.isPrivate List.length Nat.eqb andb].
    cbn [fst ChatRooms.chatRooms ChatRooms.messageHistory].
    split; [apply sget_sdelete_same|].
    assert (Chat.get (ChatRooms.sdelete (ChatRooms.messageHistory st) roomId) roomId = None)
      as G by (apply (sget_sdelete_same (list Chat.Message))).
    split.
    + destruct (Chat.has _ roomId) eqn:E; [|reflexivity].
      change (Chat.has ?h ?k) with (ChatRooms.shas h k) in E.
      destruct (ChatRooms.sget (ChatRooms.sdelete (ChatRooms.messageHistory st) roomId)
                  roomId) eqn:E'.
      * change (ChatRooms.sget ?h ?k) with (Chat.get h k) in E'. congruence.
      * unfold ChatRooms.shas in E. apply existsb_exists in E.
        destruct E as [x [Hx Hk]].
        unfold ChatRooms.sget in E'.
        destruct (find _ _) eqn:F in E'; [discriminate|].
        pose proof (find_none _ _ F x Hx) as N. cbn beta in N. congruence.
    + unfold Chat.getMessageHistory. rewrite G. reflexivity.
  - intros Hcase.
    assert ((ChatRooms.isPrivate (ChatRooms.room_type room)
             && (List.length remaining =? 0)%nat)%bool = false) as ->.
    { destruct Hcase as [Ht|He].
      - destruct (ChatRooms.room_type room); try reflexivity. contradiction.
      - destruct remaining; [contradiction|]. apply andb_false_r. }
    cbn [fst ChatRooms.chatRooms ChatRooms.messageHistory].
    split; [apply sget_sset_same|reflexivity].
Qed.

(** Alice and Bob leave their private room one after the other: the room
    and the message written in it are gone. *)
Lemma a_private_conversation_is_lost_when_both_leave :
  Chat.getMessageHistory (ChatRooms.messageHistory privateRoomWithOneMessage) "2-3"
  = [Chat.messageOf (aliceWrites "2-3" "u1" 5000)]
  /\ Chat.getMessageHistory
       (ChatRooms.messageHistory
          (fst (ChatRooms.leaveRoom
                  (fst (ChatRooms.leaveRoom privateRoomWithOneMessage "s1"
                          (ChatRooms.NumId 2) "2-3"))
                  "s2" (ChatRooms.NumId 3) "2-3")))
       "2-3" = []
  /\ ChatRooms.sget
       (ChatRooms.chatRooms
          (fst (ChatRooms.leaveRoom
                  (fst (ChatRooms.leaveRoom privateRoomWithOneMessage "s1"
                          (ChatRooms.NumId 2) "2-3"))
                  "s2" (ChatRooms.NumId 3) "2-3")))
       "2-3" = None.
Proof.
  split; [vm_compute; reflexivity|].
  pose (st1 := fst (ChatRooms.leaveRoom privateRoomWithOneMessage "s1"
                      (ChatRooms.NumId 2) "2-3")).
  pose (room := ChatRooms.mkRoom "2-3" "Chat with bob" ChatRooms.PrivateRoom
                  [ChatRooms.NumId 3]).
  assert ("2-3"%string <> EmptyString) as H0 by discriminate.
  assert (ChatRooms.sget (ChatRooms.chatRooms st1) "2-3" = Some room) as H1
    by (vm_compute; reflexivity).
  destruct (last_leave_deletes_a_private_room_and_its_history st1 "s2" (ChatRooms.NumId 3)
              "2-3" room H0 H1) as [D _].
  destruct D as [R [_ G]]; [reflexivity|reflexivity|].
  fold st1. split; [exact G|exact R].
Defined.

Lemma sget_None_shas {V : Type} (m : list (string * V)) (k : string) :
  ChatRooms.sget m k = None -> ChatRooms.shas m k = false.
Proof.
  intros H. destruct (ChatRooms.shas m k) eqn:E; [|reflexivity].
  unfold ChatRooms.shas in E. apply existsb_exists in E. destruct E as [x [Hx Hk]].
  unfold ChatRooms.sget in H. destruct (find _ m) eqn:F; [discriminate|].
  pose proof (find_none _ _ F x Hx) as N. cbn beta in N. congruence.
Qed.

(** X27. What a disconnect changes, and what it keeps.  The socket's entry
    leaves [activeUsers] and every other entry stays as it was; no room is
    deleted or added and no message history is touched, also when the
    socket was the last participant of a private room; the only room that
    changes is the room the socket was in, which loses the user's id from
    its participants. *)
Theorem disconnect_keeps_every_room_and_history
  (st : ChatRooms.State) (socketId : string) :
  ChatRooms.activeUsers (fst (ChatRooms.disconnect st socketId))
  = ChatRooms.sdelete (ChatRooms.activeUsers st) socketId
  /\ ChatRooms.messageHistory (fst (ChatRooms.disconnect st socketId))
     = ChatRooms.messageHistory st
  /\ map fst (ChatRooms.chatRooms (fst (ChatRooms.disconnect st socketId)))
     = map fst (ChatRooms.chatRooms st)
  /\ forall r room,
       ChatRooms.sget (ChatRooms.chatRooms st) r = Some room ->
       ChatRooms.sget (ChatRooms.chatRooms (fst (ChatRooms.disconnect st socketId))) r
       = Some
           match ChatRooms.sget (ChatRooms.activeUsers st) socketId with
           | Some userData =>
             if match ChatRooms.au_currentRoom userData with
                | Some currentRoom =>
                  (negb (Chat.isEmpty currentRoom) && String.eqb currentRoom r)%bool
                | None => false
                end
             then ChatRooms.withParticipants room
                    (filter (fun id =>
                               negb (ChatRooms.JsId_eqb id (ChatRooms.au_userId userData)))
                            (ChatRooms.room_participants room))
             else room
           | None => room
           end.
Proof.
  unfold ChatRooms.disconnect.
  destruct (ChatRooms.sget (ChatRooms.activeUsers st) socketId) as [userData|] eqn:E.
  - destruct (ChatRooms.au_currentRoom userData) as [currentRoom|].
    + destruct (Chat.isEmpty currentRoom) eqn:Ee.
      * cbn [fst ChatRooms.activeUsers ChatRooms.chatRooms ChatRooms.messageHistory negb
               andb].
        repeat split; auto.
      * destruct (ChatRooms.sget (ChatRooms.chatRooms st) currentRoom) as [room0|] eqn:R.
        -- cbn [fst ChatRooms.activeUsers ChatRooms.chatRooms ChatRooms.messageHistory
                  negb andb].
           split; [reflexivity|]. split; [reflexivity|]. split.
           ++ apply keys_sset_present. eapply sget_Some_shas. exact R.
           ++ intros r room Hr. destruct (String.eqb_spec currentRoom r) as [Er|Er].
              ** subst r. rewrite sget_sset_same. congruence.
              ** rewrite sget_sset_other by exact Er. exact Hr.
        -- cbn [fst ChatRooms.activeUsers ChatRooms.chatRooms ChatRooms.messageHistory
                  negb andb].
           split; [reflexivity|]. split; [reflexivity|]. split; [reflexivity|].
           intros r room Hr. destruct (String.eqb_spec currentRoom r) as [Er|Er];
             [congruence|exact Hr].
    + cbn [fst ChatRooms.activeUsers ChatRooms.chatRooms ChatRooms.messageHistory].
      repeat split; auto.
  - cbn [fst]. split; [|repeat split; auto].
    symmetry. apply sdelete_absent. apply sget_None_shas. exact E.
Qed.

(** X28. A private room is created once.  For a room id and two user ids
    that are not empty: when no room has the id, [createPrivateRoom] stores
    a private room of the two users with an empty history; a room that
    exists, of whatever type, is left as it is with its history; and once
    the call has run, any further request for the same room id changes
    nothing and notifies nobody. *)
Theorem private_room_is_created_once
  (st : ChatRooms.State) (data : ChatRooms.PrivateRoomData) :
  ChatRooms.pr_roomId data <> EmptyString ->
  ChatRooms.truthy (ChatRooms.pr_userId data) = true ->
  ChatRooms.truthy (ChatRooms.pr_otherUserId data) = true ->
  let st1 := fst (ChatRooms.createPrivateRoom st data) in
  (ChatRooms.sget (ChatRooms.chatRooms st) (ChatRooms.pr_roomId data) = None ->
   ChatRooms.sget (ChatRooms.chatRooms st1) (ChatRooms.pr_roomId data)
   = Some (ChatRooms.mkRoom (ChatRooms.pr_roomId data)
             ("Chat with " ++ ChatRooms.pr_otherUsername data) ChatRooms.PrivateRoom
             [ChatRooms.pr_userId data; ChatRooms.pr_otherUserId data])
   /\ Chat.getMessageHistory (ChatRooms.messageHistory st1) (ChatRooms.pr_roomId data) = [])
  /\ (forall room,
         ChatRooms.sget (ChatRooms.chatRooms st) (ChatRooms.pr_roomId data) = Some room ->
         ChatRooms.createPrivateRoom st data = (st, None))
  /\ forall again,
       ChatRooms.pr_roomId again = ChatRooms.pr_roomId data ->
       ChatRooms.createPrivateRoom st1 again = (st1, None).
Proof.
  intros Hr Hu Ho st1.
  assert (Chat.isEmpty (ChatRooms.pr_roomId data) = false) as Hne
    by (destruct (ChatRooms.pr_roomId data); [contradiction|reflexivity]).
  assert (forall x, ChatRooms.shas (ChatRooms.chatRooms x) (ChatRooms.pr_roomId data) = true ->
                    forall again, ChatRooms.pr_roomId again = ChatRooms.pr_roomId data ->
                    ChatRooms.createPrivateRoom x again = (x, None)) as Hhas.
  { intros x Hx again Ha. unfold ChatRooms.createPrivateRoom. rewrite Ha, Hx.
    destruct (_ || _ || _)%bool; reflexivity. }
  split; [|split].
  - intros Hnone. subst st1. unfold ChatRooms.createPrivateRoom.
    rewrite Hne, Hu, Ho. cbn [negb orb].
    assert (ChatRooms.shas (ChatRooms.chatRooms st) (ChatRooms.pr_roomId data) = false) as ->.
    { destruct (ChatRooms.shas _ _) eqn:E; [|reflexivity].
      unfold ChatRooms.shas in E. apply existsb_exists in E. destruct E as [x [Hx Hk]].
      unfold ChatRooms.sget in Hnone.
      destruct (find _ _) eqn:F in Hnone; [discriminate|].
      pose proof (find_none _ _ F x Hx) as N. cbn beta in N. congruence. }
    cbn [fst ChatRooms.chatRooms ChatRooms.messageHistory].
    split; [apply sget_sset_same|].
    unfold Chat.getMessageHistory.
    change (Chat.get (Chat.set ?h ?k ?v) ?k')
      with (ChatRooms.sget (ChatRooms.sset h k v) k').
    rewrite sget_sset_same. reflexivity.
  - intros room Hroom. apply Hhas; [|reflexivity].
    eapply sget_Some_shas. exact Hroom.
  - intros again Ha. apply Hhas; [|exact Ha].
    subst st1. unfold ChatRooms.createPrivateRoom. rewrite Hne, Hu, Ho. cbn [negb orb].
    destruct (ChatRooms.shas (ChatRooms.chatRooms st) (ChatRooms.pr_roomId data)) eqn:E;
      cbn [fst ChatRooms.chatRooms]; [exact E|].
    eapply sget_Some_shas. apply sget_sset_same.
Qed.

(** Alice opens the room with Bob; Bob's own request for the same room,
    with the roles exchanged, changes nothing. *)
Lemma bob_asks_for_the_same_private_room :
  ChatRooms.createPrivateRoom
    (fst (ChatRooms.createPrivateRoom aliceInGlobal
            (ChatRooms.mkPrivateRoomData (ChatRooms.NumId 2) "alice" (ChatRooms.NumId 3)
               "bob" "2-3")))
    (ChatRooms.mkPrivateRoomData (ChatRooms.NumId 3) "bob" (ChatRooms.NumId 2)
       "alice" "2-3")
  = (fst (ChatRooms.createPrivateRoom aliceInGlobal
            (ChatRooms.mkPrivateRoomData (ChatRooms.NumId 2) "alice" (ChatRooms.NumId 3)
               "bob" "2-3")),
     None).
Proof.
  set (data := ChatRooms.mkPrivateRoomData (ChatRooms.NumId 2) "alice" (ChatRooms.NumId 3)
                 "bob" "2-3").
  assert (ChatRooms.pr_roomId data <> EmptyString) as H0 by discriminate.
  assert (ChatRooms.truthy (ChatRooms.pr_userId data) = true) as H1 by reflexivity.
  assert (ChatRooms.truthy (ChatRooms.pr_otherUserId data) = true) as H2 by reflexivity.
  destruct (private_room_is_created_once aliceInGlobal data H0 H1 H2) as [_ [_ A]].
  apply A. reflexivity.
Defined.

(** X29. The first join of a game room starts it with an empty history.
    When no chat room has the id yet and the id starts with [game-], the
    join creates the game room with the joining user as its only
    participant and sets its history to the empty list: messages sent to
    that id before are discarded, and the joiner is sent no history. *)
Theorem first_join_of_a_game_room_clears_its_history
  (st : ChatRooms.State) (socketId : string) (userId : ChatRooms.JsId)
  (username roomId : string) :
  String.prefix "game-" roomId = true ->
  ChatRooms.sget (ChatRooms.chatRooms st) roomId = None ->
  let st' := fst (ChatRooms.joinRoom st socketId userId username roomId) in
  ChatRooms.sget (ChatRooms.chatRooms st') roomId
  = Some (ChatRooms.mkRoom roomId ("Game Room " ++ ChatRooms.secondSegment roomId)
            ChatRooms.GameRoom [userId])
  /\ Chat.getMessageHistory (ChatRooms.messageHistory st') roomId = []
  /\ exists count,
       snd (ChatRooms.joinRoom st socketId userId username roomId) = Some ([], count).
Proof.
  intros Hp Hnone st'.
  assert (Chat.isEmpty roomId = false) as Hne
    by (destruct roomId; [discriminate|reflexivity]).
  subst st'. unfold ChatRooms.joinRoom. rewrite Hne, Hnone, Hp.
  assert (Chat.get (Chat.set (ChatRooms.messageHistory st) roomId []) roomId = Some [])
    as G by (apply (sget_sset_same (list Chat.Message))).
  rewrite G. cbn [fst snd ChatRooms.chatRooms ChatRooms.messageHistory].
  split; [apply sget_sset_same|]. split.
  - unfold Chat.getMessageHistory. rewrite G. reflexivity.
  - eexists. reflexivity.
Qed.

(** A message written to the room of match 7 before anybody joined it is
    gone once the first player joins. *)
Lemma message_before_the_first_join_is_lost :
  Chat.getMessageHistory (ChatRooms.messageHistory writtenBeforeAnyJoin) "game-7"
  = [Chat.messageOf (aliceWrites "game-7" "u1" 5000)]
  /\ Chat.getMessageHistory
       (ChatRooms.messageHistory
          (fst (ChatRooms.joinRoom writtenBeforeAnyJoin "s1" (ChatRooms.NumId 2) "alice"
                  "game-7")))
       "game-7" = [].
Proof.
  split; [vm_compute; reflexivity|].
  assert (String.prefix "game-" "game-7" = true) as H0 by reflexivity.
  assert (ChatRooms.sget (ChatRooms.chatRooms writtenBeforeAnyJoin) "game-7" = None) as H1
    by reflexivity.
  destruct (first_join_of_a_game_room_clears_its_history writtenBeforeAnyJoin "s1"
              (ChatRooms.NumId 2) "alice" "game-7" H0 H1) as [_ [G _]].
  exact G.
Defined.

(** X30. Leaving any room takes the socket out of every count.  After
    [leaveRoom] with a room id that is not empty, whichever room it names,
    no room counts the socket any more, the room it was in included.
    Stated for socket ids that are distinct. *)
Theorem leaving_any_room_uncounts_the_socket_everywhere
  (st : ChatRooms.State) (socketId : string) (userId : ChatRooms.JsId) (roomId : string)
  (userData : ChatRooms.ActiveUser) :
  NoDup (map fst (ChatRooms.activeUsers st)) ->
  roomId <> EmptyString ->
  ChatRooms.sget (ChatRooms.activeUsers st) socketId = Some userData ->
  let st' := fst (ChatRooms.leaveRoom st socketId userId roomId) in
  (forall r,
      ChatRooms.userCount (ChatRooms.activeUsers st') r
      = ChatRooms.userCount (ChatRooms.sdelete (ChatRooms.activeUsers st) socketId) r)
  /\ snd (ChatRooms.leaveRoom st socketId userId roomId)
     = Some (ChatRooms.userCount
               (ChatRooms.sdelete (ChatRooms.activeUsers st) socketId) roomId).
Proof.
  intros Hnd Hr Hu st'.
  assert (Chat.isEmpty roomId = false) as Hne
    by (destruct roomId; [contradiction|reflexivity]).
  set (gone := ChatRooms.mkActiveUser (ChatRooms.au_userId userData)
                 (ChatRooms.au_username userData) None).
  set (users' := ChatRooms.sset (ChatRooms.activeUsers st) socketId gone).
  assert (forall r,
             ChatRooms.userCount users' r
             = ChatRooms.userCount
                 (ChatRooms.sdelete (ChatRooms.activeUsers st) socketId) r) as Hc.
  { intros r. unfold ChatRooms.userCount, users'.
    rewrite (count_sset _
               (fun u => match ChatRooms.au_currentRoom u with
                         | Some r0 => String.eqb r0 r
                         | None => false
                         end) _ socketId gone Hnd).
    cbn [ChatRooms.au_currentRoom gone]. f_equal. lia. }
  assert (ChatRooms.activeUsers st' = users'
          /\ snd (ChatRooms.leaveRoom st socketId userId roomId)
             = Some (ChatRooms.userCount users' roomId)) as [Eu Es].
  { subst st'. unfold ChatRooms.leaveRoom. rewrite Hne, Hu. fold gone. fold users'.
    destruct (ChatRooms.sget (ChatRooms.chatRooms st) roomId) as [room|].
    - cbv zeta. destruct (_ && _)%bool; split; reflexivity.
    - split; reflexivity. }
  split.
  - intros r. rewrite Eu. apply Hc.
  - rewrite Es, Hc. reflexivity.
Qed.

(** Alice's socket, in the global room, is asked to leave the room of
    match 7, where it never was: the global room no longer counts it. *)
Lemma leaving_another_room_empties_the_global_count :
  ChatRooms.userCount (ChatRooms.activeUsers aliceInGlobal) "global" = 1
  /\ ChatRooms.userCount
       (ChatRooms.activeUsers
          (fst (ChatRooms.leaveRoom aliceInGlobal "s1" (ChatRooms.NumId 2) "game-7")))
       "global" = 0.
Proof.
  split; [reflexivity|].
  assert (NoDup (map fst (ChatRooms.activeUsers aliceInGlobal))) as H0
    by (vm_compute; constructor; [intros []|constructor]).
  assert ("game-7"%string <> EmptyString) as H1 by discriminate.
  assert (ChatRooms.sget (ChatRooms.activeUsers aliceInGlobal) "s1"
          = Some (ChatRooms.mkActiveUser (ChatRooms.NumId 2) "alice" (Some "global"%string)))
    as H2 by reflexivity.
  destruct (leaving_any_room_uncounts_the_socket_everywhere aliceInGlobal "s1"
              (ChatRooms.NumId 2) "game-7" _ H0 H1 H2) as [A _].
  rewrite (A "global"%string). reflexivity.
Defined.
